(** * Versioned accumulation and watermark consumption

    A shallow embedding of the two batch jobs of the MLOps pipeline:

    - [cronjob.main] (src/data_collection_and_versioning/cronjob.py), the
      producer: it drains the two sources, transforms the rows, merges them
      into the instream buffer and publishes a version when the buffer has
      reached the batch size;
    - [train.main] (src/models/linear_regression/train.py), the consumer: it
      reads the watermark from the tracking store, loads the versions above
      it, trains and logs a run tagged with the version it trained through.

    The blob store, the document store and the tracking store are modelled by
    the state they hold.  Every client call of the source sits in a
    [try]/[except] or propagates its exception, so the jobs take an oracle
    [raises : Call -> bool] that says which client calls raise during the
    run; [no_faults] is the run in which none does.

    The three services that serve the model follow the two jobs: the
    handlers of the prediction service (src/mlapp/app.py), of the database
    service (src/dbapp/app.py) and of the web front end (src/webapp/app.py),
    each over the state it holds. *)

From Stdlib Require Import Ascii String Decimal DecimalNat QArith.
From stdpp Require Import base strings list gmap sorting.

Local Open Scope string_scope.
Local Open Scope list_scope.
Local Open Scope nat_scope.

(** ** Python strings: f-string integers and the two regular expressions *)

Module py.

(** [f"{n}"] for a non-negative [int]. *)
Fixpoint digits (d : Decimal.uint) : string :=
  match d with
  | Decimal.Nil => ""
  | Decimal.D0 d => String "0"%char (digits d)
  | Decimal.D1 d => String "1"%char (digits d)
  | Decimal.D2 d => String "2"%char (digits d)
  | Decimal.D3 d => String "3"%char (digits d)
  | Decimal.D4 d => String "4"%char (digits d)
  | Decimal.D5 d => String "5"%char (digits d)
  | Decimal.D6 d => String "6"%char (digits d)
  | Decimal.D7 d => String "7"%char (digits d)
  | Decimal.D8 d => String "8"%char (digits d)
  | Decimal.D9 d => String "9"%char (digits d)
  end.

Definition str (n : nat) : string := digits (Nat.to_uint n).

(** The class [\d] on ASCII text. *)
Definition digit (c : ascii) : option (Decimal.uint -> Decimal.uint) :=
  if Ascii.eqb c "0"%char then Some Decimal.D0
  else if Ascii.eqb c "1"%char then Some Decimal.D1
  else if Ascii.eqb c "2"%char then Some Decimal.D2
  else if Ascii.eqb c "3"%char then Some Decimal.D3
  else if Ascii.eqb c "4"%char then Some Decimal.D4
  else if Ascii.eqb c "5"%char then Some Decimal.D5
  else if Ascii.eqb c "6"%char then Some Decimal.D6
  else if Ascii.eqb c "7"%char then Some Decimal.D7
  else if Ascii.eqb c "8"%char then Some Decimal.D8
  else if Ascii.eqb c "9"%char then Some Decimal.D9
  else None.

(** The longest run of digits at the head of [s], and what follows it:
    what a greedy [\d+] consumes. *)
Fixpoint span_digits (s : string) : Decimal.uint * string :=
  match s with
  | EmptyString => (Decimal.Nil, EmptyString)
  | String c s' =>
      match digit c with
      | Some d => let '(u, r) := span_digits s' in (d u, r)
      | None => (Decimal.Nil, s)
      end
  end.

(** [s] without its prefix [p], when it has it. *)
Fixpoint strip_prefix (p s : string) : option string :=
  match p, s with
  | EmptyString, _ => Some s
  | String a p', String b s' =>
      if Ascii.eqb a b then strip_prefix p' s' else None
  | String _ _, EmptyString => None
  end.

Definition startswith (s p : string) : bool :=
  match strip_prefix p s with Some _ => true | None => false end.

(** A match of [pre(\d+)post] anchored at the head of [s]; the value is
    [int(match.group(1))].  The run of digits is the longest one: [post] is
    empty or starts with a character that is no digit, so no shorter run
    can be followed by it. *)
Definition match_here (pre post s : string) : option nat :=
  match strip_prefix pre s with
  | None => None
  | Some r =>
      match span_digits r with
      | (Decimal.Nil, _) => None
      | (u, r') => if startswith r' post then Some (Nat.of_uint u) else None
      end
  end.

(** [re.search]: the leftmost match. *)
Fixpoint re_search (pre post s : string) : option nat :=
  match match_here pre post s with
  | Some n => Some n
  | None =>
      match s with
      | EmptyString => None
      | String _ s' => re_search pre post s'
      end
  end.

End py.

(** ** pandas: the part of [DataFrame] the two jobs use *)

Module pd.

(** A cell: a number, a string, [NaN] (a value that is missing) or
    Python's [None]. *)
Inductive Value :=
| VNum (x : Q)
| VStr (s : string)
| VNaN
| VNone.

Definition isna (v : Value) : bool :=
  match v with VNaN | VNone => true | _ => false end.

(** A frame: the header and the rows, each row aligned with the header. *)
Record DataFrame := mkDataFrame { columns : list string; rows : list (list Value) }.

(** [pd.DataFrame()] *)
Definition DataFrame_ : DataFrame := {| columns := []; rows := [] |}.

Definition len (df : DataFrame) : nat := length (rows df).

(** [df.empty]: no column or no row. *)
Definition empty (df : DataFrame) : bool :=
  match columns df, rows df with
  | [], _ => true
  | _, [] => true
  | _, _ => false
  end.

(** [df.shape[1]] *)
Definition width (df : DataFrame) : nat := length (columns df).

Fixpoint index_of (c : string) (cols : list string) : option nat :=
  match cols with
  | [] => None
  | c' :: cols' => if String.eqb c c' then Some 0 else S <$> index_of c cols'
  end.

(** [col in df.columns] *)
Definition has_column (c : string) (df : DataFrame) : bool :=
  match index_of c (columns df) with Some _ => true | None => false end.

(** The cell of a row under column [c]; [NaN] where the row has none. *)
Definition cell (cols : list string) (row : list Value) (c : string) : Value :=
  match index_of c cols with
  | Some i => nth i row VNaN
  | None => VNaN
  end.

(** [df[c]] as the list of its values (the caller has checked the column). *)
Definition column (c : string) (df : DataFrame) : list Value :=
  map (fun row => cell (columns df) row c) (rows df).

(** [df.reindex(columns=cols)]: missing columns filled with [NaN]. *)
Definition reindex (cols : list string) (df : DataFrame) : list (list Value) :=
  map (fun row => map (cell (columns df) row) cols) (rows df).

(** [pd.unique]: the labels of [l] in order of first appearance. *)
Fixpoint unique (l : list string) : list string :=
  match l with
  | [] => []
  | x :: l' => x :: filter (fun y => y ≠ x) (unique l')
  end.

(** The union of the headers in order of first appearance. *)
Definition union_columns (dfs : list DataFrame) : list string :=
  unique (concat (map columns dfs)).

(** [pd.concat(dfs, ignore_index=True)]: rows in the order of [dfs], over
    the union of the headers. *)
Definition concat (dfs : list DataFrame) : DataFrame :=
  let cols := union_columns dfs in
  {| columns := cols; rows := List.concat (map (reindex cols) dfs) |}.

(** [df.drop(c, axis=1)] when [c] is a column. *)
Definition drop (c : string) (df : DataFrame) : DataFrame :=
  let cols := filter (fun c' => c' ≠ c) (columns df) in
  {| columns := cols; rows := reindex cols df |}.

(** [df[cols]]: [None] stands for the [KeyError] of a missing column. *)
Definition select (cols : list string) (df : DataFrame) : option DataFrame :=
  if forallb (fun c => has_column c df) cols
  then Some {| columns := cols; rows := reindex cols df |}
  else None.

(** [df[c] = values], for a column that exists or a new last column. *)
Definition assign (c : string) (values : list Value) (df : DataFrame) : DataFrame :=
  match index_of c (columns df) with
  | Some i =>
      {| columns := columns df;
         rows := zip_with (fun row v => <[i:=v]> row) (rows df) values |}
  | None =>
      {| columns := columns df ++ [c];
         rows := zip_with (fun row v => row ++ [v]) (rows df) values |}
  end.

(** [pd.concat(dfs, axis=1)] of frames over the same row index. *)
Fixpoint concat_axis1 (dfs : list DataFrame) : DataFrame :=
  match dfs with
  | [] => DataFrame_
  | [df] => df
  | df :: dfs' =>
      let r := concat_axis1 dfs' in
      {| columns := columns df ++ columns r;
         rows := zip_with app (rows df) (rows r) |}
  end.

(** [df[:k]] and [df[k:]] *)
Definition head (k : nat) (df : DataFrame) : DataFrame :=
  {| columns := columns df; rows := take k (rows df) |}.
Definition tail (k : nat) (df : DataFrame) : DataFrame :=
  {| columns := columns df; rows := List.skipn k (rows df) |}.

End pd.

Module pd_records.
Import pd.

(** A raw record: a document of the collection, or a row of the CSV source,
    as a mapping from field names to values. *)
Definition Document := list (string * Value).

Fixpoint get (d : Document) (k : string) : option Value :=
  match d with
  | [] => None
  | (k', v) :: d' => if String.eqb k k' then Some v else get d' k
  end.

Definition keys (d : Document) : list string := map fst d.

(** [pd.DataFrame(documents)]: the columns are the keys met, in order of
    first appearance; a record without a key has [NaN] there. *)
Definition from_records (docs : list Document) : DataFrame :=
  let cols := unique (List.concat (map keys docs)) in
  {| columns := cols;
     rows := map (fun d => map (fun c => default VNaN (get d c)) cols) docs |}.

End pd_records.

(** ** The stores, the client calls and the effects of a run *)

(** A fitted [LinearRegression]: [fit] discards what the estimator held
    before, so the model is determined by the matrix and the targets it was
    last fitted on. *)
Record Model := mkModel { fit_X : list (list pd.Value); fit_y : list pd.Value }.

(** The client and library calls that can raise during a run. *)
Inductive Call :=
| gcs_read (bucket blob : string)
| gcs_delete (bucket blob : string)
| gcs_upload (bucket blob : string)
| gcs_list (bucket : string)
| mongo_find
| mongo_delete_many
| mongo_close
| mlflow_get_experiment_by_name
| mlflow_create_experiment
| mlflow_set_experiment
| mlflow_search_runs
| mlflow_get_run
| mlflow_load_model
| mlflow_start_run
| mlflow_log_param (key : string)
| mlflow_log_metric (key : string)
| mlflow_set_tag
| mlflow_log_model
| mlflow_register_model
| sklearn_fit
| sklearn_predict.

Definition no_faults : Call -> bool := fun _ => false.

Inductive RunStatus := RUNNING | FINISHED | FAILED.

(** A run of the experiment in the tracking store. *)
Record Run := mkRun {
  run_id : nat;
  status : RunStatus;
  params : list (string * string);
  metrics : list (string * Q);
  tags : list (string * string);
  artifact : option Model          (* the artifact logged under "model" *)
}.

(** The durable state: the blobs of the object store by (bucket, name), the
    documents of the collection, and the experiment with its runs, newest
    first. *)
Record World := mkWorld {
  gcs : gmap (string * string) pd.DataFrame;
  collection_2 : list pd_records.Document;
  experiment_exists : bool;
  runs : list Run
}.

Definition set_gcs (f : gmap (string * string) pd.DataFrame -> gmap (string * string) pd.DataFrame)
    (w : World) : World :=
  {| gcs := f (gcs w); collection_2 := collection_2 w;
     experiment_exists := experiment_exists w; runs := runs w |}.

Definition set_collection_2 (docs : list pd_records.Document) (w : World) : World :=
  {| gcs := gcs w; collection_2 := docs;
     experiment_exists := experiment_exists w; runs := runs w |}.

Definition set_experiment_exists (b : bool) (w : World) : World :=
  {| gcs := gcs w; collection_2 := collection_2 w;
     experiment_exists := b; runs := runs w |}.

Definition set_runs (f : list Run -> list Run) (w : World) : World :=
  {| gcs := gcs w; collection_2 := collection_2 w;
     experiment_exists := experiment_exists w; runs := f (runs w) |}.

(** What a run leaves on its output: the two warnings and the calls of the
    training step. *)
Inductive Event :=
| WarnCouldNotLoad (version : nat)            (* "Warning: Could not load v{version}" *)
| WarnExpected53 (got : nat)                  (* "WARNING: Expected 53 columns, got {n}" *)
| TrainCall (model : option Model) (X : list (list pd.Value)) (y : list pd.Value).
                                              (* train_model(model, X, y) is entered *)

Inductive Exn :=
| ValueError (msg : string)
| KeyError (msg : string)
| FileNotFoundError (blob_name : string)
| ClientError (c : Call).

(** A computation over the world that prints events and may raise. *)
Definition M (A : Type) : Type := World -> list Event * World * (Exn + A).

Definition ret {A} (a : A) : M A := fun w => ([], w, inr a).

Definition raise {A} (e : Exn) : M A := fun w => ([], w, inl e).

Definition bind {A B} (m : M A) (k : A -> M B) : M B := fun w =>
  match m w with
  | (ev, w', inl e) => (ev, w', inl e)
  | (ev, w', inr a) =>
      match k a w' with
      | (ev', w'', r) => (ev ++ ev', w'', r)
      end
  end.

(** [try: m except Exception as e: handler(e)] *)
Definition try_except {A} (m : M A) (handler : Exn -> M A) : M A := fun w =>
  match m w with
  | (ev, w', inl e) =>
      match handler e w' with
      | (ev', w'', r) => (ev ++ ev', w'', r)
      end
  | (ev, w', inr a) => (ev, w', inr a)
  end.

(** [for x in xs: acc = body(acc, x)] *)
Fixpoint for_each {A B} (xs : list A) (body : B -> A -> M B) (acc : B) : M B :=
  match xs with
  | [] => ret acc
  | x :: xs' => bind (body acc x) (for_each xs' body)
  end.

Definition tell (e : Event) : M unit := fun w => ([e], w, inr tt).
Definition get_world : M World := fun w => ([], w, inr w).
Definition modify (f : World -> World) : M unit := fun w => ([], f w, inr tt).

(** [call raises c]: the client call [c]; its exception propagates. *)
Definition call (raises : Call -> bool) (c : Call) : M unit := fun w =>
  if raises c then ([], w, inl (ClientError c)) else ([], w, inr tt).

Declare Scope M_scope.
Delimit Scope M_scope with M.
Notation "x <- m ;; k" := (bind m (fun x => k))
  (at level 100, m at next level, right associativity) : M_scope.
Notation "m ;;; k" := (bind m (fun _ => k))
  (at level 100, right associativity) : M_scope.

Definition events {A} (r : list Event * World * (Exn + A)) : list Event := r.1.1.
Definition world {A} (r : list Event * World * (Exn + A)) : World := r.1.2.
Definition result {A} (r : list Event * World * (Exn + A)) : Exn + A := r.2.

(** Configuration and the library functions the jobs call on data. *)
Record Env := mkEnv {
  BUCKET_1 : string;
  BUCKET_2 : string;
  BATCH_SIZE : nat;
  train_size : nat -> nat;
    (* int(len(preprocessed_df) * TRAIN_TEST_SPLIT) *)
  sample : list (list pd.Value) -> list (list pd.Value);
    (* the rows after .sample(frac=1, random_state=42) *)
  to_number : string -> option Q;
    (* the number pd.to_numeric reads in a string, if it reads one *)
  str_number : Q -> string;
    (* str(x) of a number *)
  murmurhash3_32 : string -> Z;
    (* the signed 32-bit MurmurHash3 of the UTF-8 bytes, seed 0 *)
  accuracy_of_fit : Model -> list (list pd.Value) -> list pd.Value -> Q;
    (* max(0, 1 - MAE/mean) of the model on the validation rows *)
  other_metrics : Model -> list (list pd.Value) -> list pd.Value ->
                  list (list pd.Value) -> list pd.Value -> list (string * Q)
    (* train_rmse, train_mae, train_r2, rmse, mae, r2, in the order of the dict *)
}.

(** Blob names *)
Definition instream_train : string := "instream/train.csv".
Definition instream_valid : string := "instream/valid.csv".
Definition versioned_train (v : nat) : string := "versioned/v" +:+ py.str v +:+ "/train.csv".
Definition versioned_valid (v : nat) : string := "versioned/v" +:+ py.str v +:+ "/valid.csv".

(** The version number the listing loop reads in a blob: the blob is listed
    for [bucket] under the prefix "versioned/" and its name matches
    [versioned/v(\d+)/]. *)
Definition version_of_blob (bucket : string) (key : string * string) : option nat :=
  if decide (key.1 = bucket) then
    if py.startswith key.2 "versioned/"
    then py.re_search "versioned/v" "/" key.2
    else None
  else None.

(** The list [versions] after the loop over [bucket.list_blobs(prefix="versioned/")]. *)
Definition listed_versions (bucket : string) (g : gmap (string * string) pd.DataFrame) : list nat :=
  omap (fun kv : string * string * pd.DataFrame => version_of_blob bucket kv.1) (map_to_list g).

(** [max(versions) if versions else 0] *)
Definition max_version (versions : list nat) : nat :=
  match versions with
  | [] => 0
  | _ => max_list versions
  end.

(** ** The producer: src/data_collection_and_versioning/cronjob.py *)

Module cronjob.
Import pd pd_records.
Local Open Scope M_scope.

Definition NUMERICAL_COLS : list string :=
  ["bedrooms"; "bathrooms"; "sqft_living"; "sqft_lot"; "floors";
   "waterfront"; "view"; "condition"; "sqft_above"; "sqft_basement";
   "yr_built"; "yr_renovated"].
Definition CATEGORICAL_COLS : list string := ["street"; "city"; "statezip"; "country"].
Definition HASH_FEATURES : nat := 10.

(** [pd.to_numeric(x, errors="coerce")] on one cell. *)
Definition to_numeric (E : Env) (v : Value) : Value :=
  match v with
  | VNum x => VNum x
  | VStr s => match to_number E s with Some x => VNum x | None => VNaN end
  | VNaN => VNaN
  | VNone => VNaN
  end.

(** [.fillna(v)] on one cell. *)
Definition fillna (v x : Value) : Value := if isna x then v else x.

(** [str(x)], the text [.astype(str)] puts in a cell: a missing value is
    rendered like any other object, as "nan" or "None". *)
Definition str_value (E : Env) (v : Value) : string :=
  match v with
  | VStr s => s
  | VNum x => str_number E x
  | VNaN => "nan"
  | VNone => "None"
  end.

Definition astype_str (E : Env) (v : Value) : Value := VStr (str_value E v).

(** The string in a cell of a column of strings, as the hasher reads it. *)
Definition token (v : Value) : string :=
  match v with
  | VStr s => s
  | _ => ""
  end.

(** [FeatureHasher(n_features=HASH_FEATURES, input_type="string")] on the
    sample [[x]]: one token of value 1, put in the bucket its hash selects
    with the sign of the hash (scikit-learn's hashing trick with
    [alternate_sign=True]). *)
Definition FeatureHasher_transform (E : Env) (x : string) : list Value :=
  let h := murmurhash3_32 E x in
  let index :=
    if (h =? -2147483648)%Z
    then ((2147483647 - (Z.of_nat HASH_FEATURES - 1)) mod Z.of_nat HASH_FEATURES)%Z
    else (Z.abs h mod Z.of_nat HASH_FEATURES)%Z in
  let value : Q := if (0 <=? h)%Z then 1%Q else (-1)%Q in
  map (fun i => if (Z.of_nat i =? index)%Z then VNum value else VNum 0)
      (seq 0 HASH_FEATURES).

Definition hash_columns (col : string) : list string :=
  map (fun i => col +:+ "_hash_" +:+ py.str i) (seq 0 HASH_FEATURES).

(** The body of the loop over NUMERICAL_COLS. *)
Definition numerical_step (E : Env) (df : DataFrame) (col : string) : DataFrame :=
  if has_column col df
  then assign col (map (fun v => fillna (VNum 0) (to_numeric E v)) (column col df)) df
  else df.

(** The body of the loop over CATEGORICAL_COLS: the state is [df] and the
    list [categorical_features]. *)
Definition categorical_step (E : Env) (st : DataFrame * list DataFrame) (col : string)
    : DataFrame * list DataFrame :=
  let '(df, categorical_features) := st in
  if has_column col df then
    let df := assign col
                (map (fun v => fillna (VStr "unknown") (astype_str E v)) (column col df)) df in
    let hashed := map (fun x => FeatureHasher_transform E (token x)) (column col df) in
    let hashed_df := {| columns := hash_columns col; rows := hashed |} in
    (df, categorical_features ++ [hashed_df])
  else (df, categorical_features).

Definition preprocess_data (E : Env) (df : DataFrame) : Exn + DataFrame :=
  if has_column "price" df then
    let price := column "price" df in
    let df := drop "price" df in
    let df := foldl (numerical_step E) df NUMERICAL_COLS in
    let '(df, categorical_features) := foldl (categorical_step E) (df, []) CATEGORICAL_COLS in
    match select NUMERICAL_COLS df with
    | None => inl (KeyError "not in index")
    | Some numerical_df =>
        let processed_df := concat_axis1 (numerical_df :: categorical_features) in
        inr (assign "price" price processed_df)
    end
  else inl (ValueError "Price column not found in dataframe").

(** [None] when the blob does not exist or the read raises. *)
Definition read_csv_from_gcs (raises : Call -> bool) (bucket_name blob_name : string)
    : M (option DataFrame) := fun w =>
  if raises (gcs_read bucket_name blob_name) then ([], w, inr None)
  else ([], w, inr (gcs w !! (bucket_name, blob_name))).

(** [blob.delete()] raises when the blob is not there. *)
Definition delete_blob_from_gcs (raises : Call -> bool) (bucket_name blob_name : string)
    : M bool := fun w =>
  if raises (gcs_delete bucket_name blob_name) then ([], w, inr false)
  else match gcs w !! (bucket_name, blob_name) with
       | Some _ => ([], set_gcs (delete (bucket_name, blob_name)) w, inr true)
       | None => ([], w, inr false)
       end.

Definition upload_csv_to_gcs (raises : Call -> bool) (bucket_name blob_name : string)
    (df : DataFrame) : M bool := fun w =>
  if raises (gcs_upload bucket_name blob_name) then ([], w, inr false)
  else ([], set_gcs (insert (bucket_name, blob_name) df) w, inr true).

Definition get_latest_version (raises : Call -> bool) (bucket_name : string) : M nat := fun w =>
  if raises (gcs_list bucket_name) then ([], w, inr 0)
  else ([], w, inr (max_version (listed_versions bucket_name (gcs w)))).

Definition read_mongodb_collection (raises : Call -> bool) : M DataFrame := fun w =>
  if raises mongo_find then ([], w, inr DataFrame_)
  else
    let documents := collection_2 w in
    match documents with
    | [] => ([], w, inr DataFrame_)
    | _ =>
        let df := from_records documents in
        let df := if has_column "_id" df then drop "_id" df else df in
        if raises mongo_delete_many then ([], w, inr DataFrame_)
        else
          let w := set_collection_2 [] w in
          if raises mongo_close then ([], w, inr DataFrame_)
          else ([], w, inr df)
    end.

(** How [main] returns. *)
Inductive Exit :=
| NoNewData                      (* "No new data to process" *)
| CreatedVersion (new_version : nat)
| UploadedToInstream.

(** Step 1, after the two reads, for one of the two files of the buffer:
    a file that was read is deleted; one that was not is an empty frame. *)
Definition take_existing (raises : Call -> bool) (E : Env) (blob_name : string)
    (df : option DataFrame) : M DataFrame :=
  match df with
  | Some df => (delete_blob_from_gcs raises (BUCKET_2 E) blob_name ;;; ret df)
  | None => ret DataFrame_
  end.

(** Step 2 *)
Definition load_data_csv (raises : Call -> bool) (E : Env) : M DataFrame :=
  csv1_df <- read_csv_from_gcs raises (BUCKET_1 E) "data.csv" ;;
  match csv1_df with
  | Some csv1_df =>
      (delete_blob_from_gcs raises (BUCKET_1 E) "data.csv" ;;;
       ret (if has_column "date" csv1_df then drop "date" csv1_df else csv1_df))
  | None => ret DataFrame_
  end.

(** Step 4: [None] is the branch that returns. *)
Definition merge_sources (csv1_df csv2_df : DataFrame) : option DataFrame :=
  if negb (empty csv1_df) && negb (empty csv2_df) then Some (concat [csv1_df; csv2_df])
  else if negb (empty csv1_df) then Some csv1_df
  else if negb (empty csv2_df) then Some csv2_df
  else None.

Definition price_last (merged_df : DataFrame) : DataFrame :=
  if has_column "price" merged_df then
    let cols := filter (fun col => col ≠ "price") (columns merged_df) ++ ["price"] in
    {| columns := cols; rows := reindex cols merged_df |}
  else merged_df.

(** Step 6 *)
Definition split (E : Env) (preprocessed_df : DataFrame) : DataFrame * DataFrame :=
  let train_size := train_size E (len preprocessed_df) in
  let shuffled_df := {| columns := columns preprocessed_df;
                        rows := sample E (rows preprocessed_df) |} in
  (head train_size shuffled_df, tail train_size shuffled_df).

(** Step 7, for one of the two parts. *)
Definition merge_existing (existing new : DataFrame) : DataFrame :=
  if negb (empty existing) then concat [existing; new] else new.

(** Steps 1 to 3: the buffer is read and deleted, the two sources are
    drained.  The result is [(train1_df, valid1_df, csv1_df, csv2_df)]. *)
Definition read_inputs (raises : Call -> bool) (E : Env)
    : M (DataFrame * DataFrame * DataFrame * DataFrame) :=
  train1_df <- read_csv_from_gcs raises (BUCKET_2 E) instream_train ;;
  valid1_df <- read_csv_from_gcs raises (BUCKET_2 E) instream_valid ;;
  train1_df <- take_existing raises E instream_train train1_df ;;
  valid1_df <- take_existing raises E instream_valid valid1_df ;;
  csv1_df <- load_data_csv raises E ;;
  csv2_df <- read_mongodb_collection raises ;;
  ret (train1_df, valid1_df, csv1_df, csv2_df).

(** Steps 8 and 9, the branch that publishes. *)
Definition create_version (raises : Call -> bool) (E : Env)
    (final_train_df final_valid_df : DataFrame) : M Exit :=
  latest_version <- get_latest_version raises (BUCKET_2 E) ;;
  let new_version := latest_version + 1 in
  upload_csv_to_gcs raises (BUCKET_2 E) (versioned_train new_version) final_train_df ;;;
  upload_csv_to_gcs raises (BUCKET_2 E) (versioned_valid new_version) final_valid_df ;;;
  ret (CreatedVersion new_version).

(** Steps 8 and 9, the branch that keeps accumulating. *)
Definition upload_to_instream (raises : Call -> bool) (E : Env)
    (final_train_df final_valid_df : DataFrame) : M Exit :=
  upload_csv_to_gcs raises (BUCKET_2 E) instream_train final_train_df ;;;
  upload_csv_to_gcs raises (BUCKET_2 E) instream_valid final_valid_df ;;;
  ret UploadedToInstream.

Definition main (raises : Call -> bool) (E : Env) : M Exit :=
  inputs <- read_inputs raises E ;;
  let '(train1_df, valid1_df, csv1_df, csv2_df) := inputs in
  match merge_sources csv1_df csv2_df with
  | None => ret NoNewData
  | Some merged_df =>
      let merged_df := price_last merged_df in
      match preprocess_data E merged_df with
      | inl e => raise e
      | inr preprocessed_df =>
          let '(new_train_df, new_valid_df) := split E preprocessed_df in
          let final_train_df := merge_existing train1_df new_train_df in
          let final_valid_df := merge_existing valid1_df new_valid_df in
          if decide (BATCH_SIZE E ≤ len final_train_df)
          then create_version raises E final_train_df final_valid_df
          else upload_to_instream raises E final_train_df final_valid_df
      end
  end.

End cronjob.

(** ** The consumer: src/models/linear_regression/train.py *)

Module train.
Import pd.
Local Open Scope M_scope.

Definition get_latest_version_from_gcs (raises : Call -> bool) (bucket_name : string)
    : M nat := fun w =>
  if raises (gcs_list bucket_name) then ([], w, inr 0)
  else ([], w, inr (max_version (listed_versions bucket_name (gcs w)))).

(** Unlike the producer's reader, this one raises. *)
Definition read_csv_from_gcs (raises : Call -> bool) (bucket_name blob_name : string)
    : M DataFrame := fun w =>
  if raises (gcs_read bucket_name blob_name)
  then ([], w, inl (ClientError (gcs_read bucket_name blob_name)))
  else match gcs w !! (bucket_name, blob_name) with
       | Some df => ([], w, inr df)
       | None => ([], w, inl (FileNotFoundError blob_name))
       end.

(** The body of the loop of [load_versioned_data]; the state is the pair
    [(all_train_dfs, all_valid_dfs)]. *)
Definition load_version (raises : Call -> bool) (bucket_name : string)
    (acc : list DataFrame * list DataFrame) (version : nat)
    : M (list DataFrame * list DataFrame) :=
  try_except
    (train_df <- read_csv_from_gcs raises bucket_name (versioned_train version) ;;
     valid_df <- read_csv_from_gcs raises bucket_name (versioned_valid version) ;;
     ret (acc.1 ++ [train_df], acc.2 ++ [valid_df]))
    (fun _ => tell (WarnCouldNotLoad version) ;;; ret acc).

Definition load_versioned_data (raises : Call -> bool) (bucket_name : string)
    (start_version end_version : nat) : M (DataFrame * DataFrame) :=
  acc <- for_each (seq start_version (end_version + 1 - start_version))
                  (load_version raises bucket_name) ([], []) ;;
  match acc.1 with
  | [] => raise (ValueError "No training data found")
  | _ => ret (concat acc.1, concat acc.2)
  end.

Definition get_or_create_experiment (raises : Call -> bool) : M unit :=
  call raises mlflow_get_experiment_by_name ;;;
  w <- get_world ;;
  if experiment_exists w then ret tt
  else (call raises mlflow_create_experiment ;;; modify (set_experiment_exists true)).

Fixpoint lookup_key {V} (key : string) (kvs : list (string * V)) : option V :=
  match kvs with
  | [] => None
  | (k, v) :: kvs' => if String.eqb key k then Some v else lookup_key key kvs'
  end.

Definition Qlt_bool (a b : Q) : bool := negb (Qle_bool b a).

(** [c] comes strictly before [r] in the order "metrics.accuracy DESC":
    a higher accuracy first, runs without the metric last. *)
Definition precedes (c r : Run) : bool :=
  match lookup_key "accuracy" (metrics c), lookup_key "accuracy" (metrics r) with
  | Some a, Some b => Qlt_bool b a
  | Some _, None => true
  | None, _ => false
  end.

(** The first row of [search_runs(order_by=["metrics.accuracy DESC"],
    max_results=1)] over the runs, newest first: among runs that tie, the
    store returns the most recently started one. *)
Fixpoint best_run (rs : list Run) : option Run :=
  match rs with
  | [] => None
  | r :: older =>
      match best_run older with
      | Some c => if precedes c r then Some c else Some r
      | None => Some r
      end
  end.

Definition get_best_model_and_version (raises : Call -> bool)
    : M (option Model * nat * option nat) := fun w =>
  ([], w, inr
    (if raises mlflow_search_runs then (None, 0, None)
     else match best_run (runs w) with
          | None => (None, 0, None)
          | Some best_run =>
              if raises mlflow_get_run then (None, 0, None)
              else
                let trained_till_version_tag :=
                  default "v0" (lookup_key "trained_till_version" (tags best_run)) in
                let trained_till_version :=
                  default 0 (py.re_search "v" "" trained_till_version_tag) in
                if raises mlflow_load_model then (None, 0, None)
                else match artifact best_run with
                     | Some loaded_model =>
                         (Some loaded_model, trained_till_version, Some (run_id best_run))
                     | None => (None, 0, None)
                     end
          end)).

Definition train_model (raises : Call -> bool) (model : option Model)
    (X_train : list (list Value)) (y_train : list Value) : M Model :=
  tell (TrainCall model X_train y_train) ;;;
  call raises sklearn_fit ;;;
  ret {| fit_X := X_train; fit_y := y_train |}.

Definition evaluate_model (raises : Call -> bool) (E : Env) (model : Model)
    (X_train : list (list Value)) (y_train : list Value)
    (X_valid : list (list Value)) (y_valid : list Value) : M (list (string * Q)) :=
  call raises sklearn_predict ;;;
  ret (other_metrics E model X_train y_train X_valid y_valid
       ++ [("accuracy", accuracy_of_fit E model X_valid y_valid)]).

(** The active run is the newest one. *)
Definition update_active (f : Run -> Run) : M unit :=
  modify (set_runs (fun rs => match rs with r :: rs' => f r :: rs' | [] => [] end)).

Definition log_param (raises : Call -> bool) (key value : string) : M unit :=
  call raises (mlflow_log_param key) ;;;
  update_active (fun r =>
    {| run_id := run_id r; status := status r; params := params r ++ [(key, value)];
       metrics := metrics r; tags := tags r; artifact := artifact r |}).

Definition log_metric (raises : Call -> bool) (key : string) (value : Q) : M unit :=
  call raises (mlflow_log_metric key) ;;;
  update_active (fun r =>
    {| run_id := run_id r; status := status r; params := params r;
       metrics := metrics r ++ [(key, value)]; tags := tags r; artifact := artifact r |}).

Definition set_tag (raises : Call -> bool) (key value : string) : M unit :=
  call raises mlflow_set_tag ;;;
  update_active (fun r =>
    {| run_id := run_id r; status := status r; params := params r;
       metrics := metrics r; tags := (key, value) :: tags r; artifact := artifact r |}).

(** [mlflow.sklearn.log_model(model, "model", registered_model_name=...)]:
    the artifact is logged under the run, then registered under the name of
    the experiment.  When the logging raises no artifact is kept; when the
    registration raises the artifact is there. *)
Definition log_model (raises : Call -> bool) (model : Model) : M unit :=
  call raises mlflow_log_model ;;;
  update_active (fun r =>
    {| run_id := run_id r; status := status r; params := params r;
       metrics := metrics r; tags := tags r; artifact := Some model |}) ;;;
  call raises mlflow_register_model.

Definition end_run (s : RunStatus) (w : World) : World :=
  set_runs (fun rs =>
    match rs with
    | r :: rs' =>
        {| run_id := run_id r; status := s; params := params r;
           metrics := metrics r; tags := tags r; artifact := artifact r |} :: rs'
    | [] => []
    end) w.

(** [with mlflow.start_run(...): body]: the run is created, and ended as
    FINISHED, or as FAILED when the body raises; the exception goes on. *)
Definition with_start_run {A} (raises : Call -> bool) (body : M A) : M A :=
  call raises mlflow_start_run ;;;
  modify (set_runs (fun rs =>
    {| run_id := S (length rs); status := RUNNING; params := [];
       metrics := []; tags := []; artifact := None |} :: rs)) ;;;
  fun w =>
    match body w with
    | (ev, w', inl e) => (ev, end_run FAILED w', inl e)
    | (ev, w', inr a) => (ev, end_run FINISHED w', inr a)
    end.

Inductive Exit :=
| NoVersionedData               (* "ERROR: No versioned data found in GCS bucket" *)
| NoNewTrainingNeeded           (* "No new training needed. Exiting." *)
| TrainingCompleted.

Definition run_params (start_version latest_version : nat) (X_train X_valid : DataFrame)
    (previous_run_id : option nat) : list (string * string) :=
  [("model_type", "linear_regression");
   ("trained_from_version", py.str start_version);
   ("trained_to_version", py.str latest_version);
   ("n_features", py.str (width X_train));
   ("n_train_samples", py.str (len X_train));
   ("n_valid_samples", py.str (len X_valid))]
  ++ match previous_run_id with
     | Some id => [("previous_run_id", py.str id)]
     | None => []
     end.

(** Steps 7 to 10: the body of [with mlflow.start_run(...)]. *)
Definition training_run (raises : Call -> bool) (E : Env) (model : option Model)
    (start_version latest_version : nat) (previous_run_id : option nat)
    (X_train : DataFrame) (y_train : list Value)
    (X_valid : DataFrame) (y_valid : list Value) : M Exit :=
  for_each (run_params start_version latest_version X_train X_valid previous_run_id)
           (fun _ kv => log_param raises kv.1 kv.2) tt ;;;
  trained_model <- train_model raises model (rows X_train) y_train ;;
  metrics <- evaluate_model raises E trained_model
               (rows X_train) y_train (rows X_valid) y_valid ;;
  for_each metrics (fun _ kv => log_metric raises kv.1 kv.2) tt ;;;
  set_tag raises "trained_till_version" ("v" +:+ py.str latest_version) ;;;
  log_model raises trained_model ;;;
  ret TrainingCompleted.

(** From the data validation after Step 6 to the end of [main]. *)
Definition validate_and_train (raises : Call -> bool) (E : Env) (model : option Model)
    (start_version latest_version : nat) (previous_run_id : option nat)
    (merged_train merged_valid : DataFrame) : M Exit :=
  (if decide (width merged_train ≠ 53)
   then tell (WarnExpected53 (width merged_train)) else ret tt) ;;;
  if negb (has_column "price" merged_train)
  then raise (ValueError "Price column not found in training data")
  else
    let X_train := drop "price" merged_train in
    let y_train := column "price" merged_train in
    if negb (has_column "price" merged_valid)
    then raise (KeyError "['price'] not found in axis")
    else
      let X_valid := drop "price" merged_valid in
      let y_valid := column "price" merged_valid in
      with_start_run raises
        (training_run raises E model start_version latest_version previous_run_id
           X_train y_train X_valid y_valid).

Definition main (raises : Call -> bool) (E : Env) : M Exit :=
  get_or_create_experiment raises ;;;
  call raises mlflow_set_experiment ;;;
  best <- get_best_model_and_version raises ;;
  let '(model, trained_till_version, previous_run_id) := best in
  latest_version <- get_latest_version_from_gcs raises (BUCKET_2 E) ;;
  if decide (latest_version = 0) then ret NoVersionedData
  else
    let start_version := trained_till_version + 1 in
    if decide (latest_version < start_version) then ret NoNewTrainingNeeded
    else
      merged <- load_versioned_data raises (BUCKET_2 E) start_version latest_version ;;
      validate_and_train raises E model start_version latest_version previous_run_id
        merged.1 merged.2.

End train.

(** * The prediction service: src/mlapp/app.py *)

Module mlapp.
Import pd pd_records.

Definition NUMERICAL_COLS : list string :=
  ["bedrooms"; "bathrooms"; "sqft_living"; "sqft_lot"; "floors";
   "waterfront"; "view"; "condition"; "sqft_above"; "sqft_basement";
   "yr_built"; "yr_renovated"].
Definition CATEGORICAL_COLS : list string := ["street"; "city"; "statezip"; "country"].
Definition HASH_FEATURES : nat := 10.

(** [d[k] = v] on a dict: the value is replaced where the key is, else
    the item is added last. *)
Fixpoint dict_set (k : string) (v : Value) (d : Document) : Document :=
  match d with
  | [] => [(k, v)]
  | (k', v') :: d' =>
      if String.eqb k k' then (k, v) :: d' else (k', v') :: dict_set k v d'
  end.

(** [s.values[0]] of a column of the one-row frame. *)
Definition values_0 (s : list Value) : Value := nth 0 s VNaN.

(** The body of the loop over NUMERICAL_COLS: the state is [df] and the
    list [numerical_features]. *)
Definition numerical_step (E : Env) (st : DataFrame * list Value) (col : string)
    : DataFrame * list Value :=
  let '(df, numerical_features) := st in
  if has_column col df then
    let df := assign col
                (map (fun v => cronjob.fillna (VNum 0) (cronjob.to_numeric E v))
                     (column col df)) df in
    (df, numerical_features ++ [values_0 (column col df)])
  else (df, numerical_features ++ [VNum 0]).

(** The body of the loop over CATEGORICAL_COLS, which reads [df] and
    extends [categorical_features].  The hasher is the one of the producer,
    with the same number of slots. *)
Definition categorical_step (E : Env) (df : DataFrame) (categorical_features : list Value)
    (col : string) : list Value :=
  if has_column col df then
    let value :=
      if negb (isna (values_0 (column col df)))
      then cronjob.str_value E (values_0 (column col df))
      else "unknown" in
    categorical_features ++ cronjob.FeatureHasher_transform E value
  else categorical_features ++ replicate HASH_FEATURES (VNum 0).

Definition preprocess_data_for_prediction (E : Env) (data : Document) : list Value :=
  let df_data := dict_set "price" (VNum 0) data in
  let df := from_records [df_data] in
  let '(df, numerical_features) := foldl (numerical_step E) (df, []) NUMERICAL_COLS in
  let categorical_features := foldl (categorical_step E df) [] CATEGORICAL_COLS in
  numerical_features ++ categorical_features.

(** ** Loading the best model *)

(** An experiment of the tracking server with its runs, newest first. *)
Record Experiment := mkExperiment {
  experiment_id : nat;
  name : string;
  lifecycle_stage : string;
  experiment_runs : list Run
}.

(** The calls of the service that can raise. *)
Inductive Call :=
| search_experiments
| search_runs (experiment_id : nat)
| load_model (run_id : nat)
| model_predict.

(** The globals of the module ([model_version] is never assigned). *)
Record Globals := mkGlobals {
  loaded_model : option Model;
  experiment_name : option string;
  model_run_id : option nat
}.

(** The three variables of the search loop; [best_metric] is [None] for
    [float('-inf')]. *)
Record Best := mkBest {
  best_run : option Run;
  best_metric : option Q;
  best_experiment : option Experiment
}.

(** [metric_value > best_metric] *)
Definition greater (metric_value : Q) (best_metric : option Q) : bool :=
  match best_metric with
  | None => true
  | Some b => train.Qlt_bool b metric_value
  end.

(** The body of the loop over the experiments; [None] when the search of
    the runs raises. *)
Definition consider (raises : Call -> bool) (best : Best) (experiment : Experiment)
    : option Best :=
  if String.eqb (lifecycle_stage experiment) "deleted" then Some best
  else if raises (search_runs (experiment_id experiment)) then None
  else
    match train.best_run (experiment_runs experiment) with
    | None => Some best
    | Some run =>
        match train.lookup_key "accuracy" (metrics run) with
        | None => Some best
        | Some metric_value =>
            if greater metric_value (best_metric best)
            then Some {| best_run := Some run; best_metric := Some metric_value;
                         best_experiment := Some experiment |}
            else Some best
        end
    end.

Fixpoint search (raises : Call -> bool) (best : Best) (experiments : list Experiment)
    : option Best :=
  match experiments with
  | [] => Some best
  | experiment :: experiments' =>
      match consider raises best experiment with
      | None => None
      | Some best' => search raises best' experiments'
      end
  end.

(** The assignments of the two fallbacks: no model, the experiment "dummy". *)
Definition dummy (g : Globals) : Globals :=
  {| loaded_model := None; experiment_name := Some "dummy";
     model_run_id := model_run_id g |}.

(** The globals after [load_best_model_from_mlflow()], over the
    experiments the server holds.  (The gauge of the load time is left
    out.) *)
Definition load_best_model_from_mlflow (raises : Call -> bool)
    (experiments : list Experiment) (g : Globals) : Globals :=
  if raises search_experiments then dummy g
  else
    match search raises {| best_run := None; best_metric := None; best_experiment := None |}
                 experiments with
    | None => dummy g
    | Some best =>
        match best_run best with
        | None => dummy g
        | Some run =>
            match best_experiment best with
            | None => dummy g
            | Some experiment =>
                let g := {| loaded_model := loaded_model g;
                            experiment_name := Some (name experiment);
                            model_run_id := Some (run_id run) |} in
                if raises (load_model (run_id run)) then dummy g
                else match artifact run with
                     | Some model =>
                         {| loaded_model := Some model;
                            experiment_name := experiment_name g;
                            model_run_id := model_run_id g |}
                     | None => dummy g
                     end
            end
        end
    end.

(** ** The endpoint /predict *)

(** What [request.json] gives: an exception (the body is no JSON), a
    value Python takes for false ([null], [{}], [0], the empty string or
    list), an object, or another value. *)
Inductive Body :=
| NotJson
| Falsy
| Object (data : Document)
| OtherValue.

Inductive Response :=
| NoDataProvided
| MissingRequiredFields (missing_fields : list string)
| ProcessingError
| Result (price : Q).

(** The Prometheus metrics the endpoint updates: the two counters by
    their labels, the number of observed durations by experiment, the
    gauge of active requests and the observed prices.  (The timestamp of
    the last prediction is left out.) *)
Record Metrics := mkMetrics {
  prediction_counter : gmap (string * string) nat;
  prediction_errors : gmap (string * string) nat;
  prediction_duration : gmap string nat;
  active_requests : Z;
  predicted_price_histogram : list Q
}.

Definition inc {K} `{Countable K} (k : K) (c : gmap K nat) : gmap K nat :=
  <[k := S (default 0 (c !! k))]> c.

(** What the model and Python do with numbers. *)
Record Lib := mkLib {
  predict_price : Model -> list Value -> Q;   (* float(model.predict(features)[0]) *)
  round_2 : Q -> Q                            (* round(x, 2) *)
}.

(** [max(0, x)] *)
Definition max_0 (x : Q) : Q := if train.Qlt_bool 0 x then x else 0%Q.

(** [experiment_name or 'unknown'] *)
Definition experiment_label (g : Globals) : string :=
  match experiment_name g with
  | Some n => if String.eqb n "" then "unknown" else n
  | None => "unknown"
  end.

(** The [except] branch. *)
Definition processing_error (g : Globals) (m : Metrics) : Metrics * (nat * Response) :=
  ({| prediction_counter := inc ("error", experiment_label g) (prediction_counter m);
      prediction_errors := inc ("processing_error", experiment_label g) (prediction_errors m);
      prediction_duration := inc (experiment_label g) (prediction_duration m);
      active_requests := (active_requests m - 1)%Z;
      predicted_price_histogram := predicted_price_histogram m |},
   (500, ProcessingError)).

(** An early return with status 400. *)
Definition bad_request (error_type : string) (response : Response) (g : Globals)
    (m : Metrics) : Metrics * (nat * Response) :=
  ({| prediction_counter := inc ("error", experiment_label g) (prediction_counter m);
      prediction_errors := inc (error_type, experiment_label g) (prediction_errors m);
      prediction_duration := prediction_duration m;
      active_requests := (active_requests m - 1)%Z;
      predicted_price_histogram := predicted_price_histogram m |},
   (400, response)).

(** One branch of the chain on [experiment_name]. *)
Definition use_model (L : Lib) (raises : Call -> bool) (g : Globals)
    (features : list Value) : option Q :=
  match loaded_model g with
  | None => Some 50000%Q
  | Some model =>
      if raises model_predict then None else Some (predict_price L model features)
  end.

Definition predict (L : Lib) (E : Env) (raises : Call -> bool) (g : Globals)
    (m : Metrics) (body : Body) : Metrics * (nat * Response) :=
  let m := {| prediction_counter := prediction_counter m;
              prediction_errors := prediction_errors m;
              prediction_duration := prediction_duration m;
              active_requests := (active_requests m + 1)%Z;
              predicted_price_histogram := predicted_price_histogram m |} in
    match body with
    | NotJson => processing_error g m
    | Falsy => bad_request "no_data" NoDataProvided g m
    | Object [] => bad_request "no_data" NoDataProvided g m
    | OtherValue => processing_error g m
    | Object data =>
        let required_fields := NUMERICAL_COLS ++ CATEGORICAL_COLS in
        let missing_fields :=
          List.filter (fun field => negb (bool_decide (field ∈ keys data))) required_fields in
        match missing_fields with
        | _ :: _ => bad_request "missing_fields" (MissingRequiredFields missing_fields) g m
        | [] =>
            let features := preprocess_data_for_prediction E data in
            let predicted_price :=
              if bool_decide (experiment_name g = Some "linear_regression")
              then use_model L raises g features
              else if bool_decide (experiment_name g = Some "random_forest")
              then use_model L raises g features
              else if bool_decide (experiment_name g = Some "xgboost")
              then use_model L raises g features
              else use_model L raises g features in
            match predicted_price with
            | None => processing_error g m
            | Some predicted_price =>
                let predicted_price := max_0 predicted_price in
                ({| prediction_counter :=
                      inc ("success", experiment_label g) (prediction_counter m);
                    prediction_errors := prediction_errors m;
                    prediction_duration := inc (experiment_label g) (prediction_duration m);
                    active_requests := (active_requests m - 1)%Z;
                    predicted_price_histogram :=
                      predicted_price_histogram m ++ [predicted_price] |},
                 (200, Result (round_2 L predicted_price)))
            end
        end
    end.

End mlapp.

(** * The database service: src/dbapp/app.py *)

Module dbapp.
Import pd pd_records.

(** A value of a stored document: an [ObjectId] the driver made, or a
    value that came in a record. *)
Inductive Bson :=
| ObjectId (n : nat)
| Val (v : Value).

(** A document as the collection holds it. *)
Definition Stored := list (string * Bson).

Definition lookup (d : Stored) (k : string) : option Bson :=
  snd <$> List.find (fun kv => String.eqb k kv.1) d.

(** Equality of two [_id] values. *)
Definition bson_eqb (a b : Bson) : bool :=
  match a, b with
  | ObjectId n, ObjectId m => Nat.eqb n m
  | Val (VNum x), Val (VNum y) => Qeq_bool x y
  | Val (VStr s), Val (VStr t) => String.eqb s t
  | Val VNaN, Val VNaN => true
  | Val VNone, Val VNone => true
  | _, _ => false
  end.

(** The database: the collections by name, the next [ObjectId], and the
    four counters of the service.  (The latency histograms and the two
    gauges are left out.) *)
Record State := mkState {
  collections : gmap string (list Stored);
  next_object_id : nat;
  STORE_REQUESTS : nat;
  RETRIEVE_REQUESTS : nat;
  DOCUMENTS_INSERTED : nat;
  ERROR_COUNT : nat
}.

(** The names of the two collections (COLLECTION_1 and COLLECTION_2 of
    the environment) and the filter of the driver: whether a stored
    document satisfies a query document. *)
Record Config := mkConfig {
  predictions_table : string;
  corrections_table : string;
  matches : Document -> Stored -> bool
}.

(** The driver calls that can raise. *)
Inductive Call :=
| insert_one
| find_one
| find.

(** [db[name]] *)
Definition collection (s : State) (name : string) : list Stored :=
  default [] (collections s !! name).

(** [collection.insert_one(record)]: the record gets an [_id] when it
    has none; an [_id] the collection already holds is refused.  The value
    is the [inserted_id], or [None] when the call raises. *)
Definition do_insert_one (raises : Call -> bool) (name : string) (record : Document)
    (s : State) : State * option Bson :=
  if raises insert_one then (s, None)
  else
    match get record "_id" with
    | Some id =>
        if existsb (fun d => match lookup d "_id" with
                             | Some id' => bson_eqb (Val id) id'
                             | None => false
                             end) (collection s name)
        then (s, None)
        else
          ({| collections :=
                <[name := collection s name ++ [map (fun kv => (kv.1, Val kv.2)) record]]>
                  (collections s);
              next_object_id := next_object_id s;
              STORE_REQUESTS := STORE_REQUESTS s;
              RETRIEVE_REQUESTS := RETRIEVE_REQUESTS s;
              DOCUMENTS_INSERTED := DOCUMENTS_INSERTED s;
              ERROR_COUNT := ERROR_COUNT s |},
           Some (Val id))
    | None =>
        let id := ObjectId (next_object_id s) in
        ({| collections :=
              <[name := collection s name
                        ++ [map (fun kv => (kv.1, Val kv.2)) record ++ [("_id", id)]]]>
                (collections s);
            next_object_id := S (next_object_id s);
            STORE_REQUESTS := STORE_REQUESTS s;
            RETRIEVE_REQUESTS := RETRIEVE_REQUESTS s;
            DOCUMENTS_INSERTED := DOCUMENTS_INSERTED s;
            ERROR_COUNT := ERROR_COUNT s |},
         Some id)
    end.

(** A JSON value as [store_data] looks at it. *)
Inductive Json :=
| JNull                      (* [null], or the key is absent *)
| JString (s : string)
| JObject (d : Document)
| JOther (truthy : bool).    (* a number, a boolean or a list *)

(** [not x] *)
Definition falsy (x : Json) : bool :=
  match x with
  | JNull => true
  | JString s => String.eqb s ""
  | JObject d => match d with [] => true | _ => false end
  | JOther truthy => negb truthy
  end.

(** What [request.json] gives [store_data]: an object, of which the
    handler reads the keys "table" and "data", or anything else. *)
Inductive StoreRequest :=
| NoObject
| Request (table data : Json).

Inductive StoreResponse :=
| MissingTableOrData
| StoredIn (table : string) (id : Bson)
| AlreadyExists
| InvalidTableName
| StoreError.

Definition count_store (s : State) : State :=
  {| collections := collections s; next_object_id := next_object_id s;
     STORE_REQUESTS := S (STORE_REQUESTS s);
     RETRIEVE_REQUESTS := RETRIEVE_REQUESTS s;
     DOCUMENTS_INSERTED := DOCUMENTS_INSERTED s;
     ERROR_COUNT := ERROR_COUNT s |}.

Definition count_inserted (s : State) : State :=
  {| collections := collections s; next_object_id := next_object_id s;
     STORE_REQUESTS := STORE_REQUESTS s;
     RETRIEVE_REQUESTS := RETRIEVE_REQUESTS s;
     DOCUMENTS_INSERTED := S (DOCUMENTS_INSERTED s);
     ERROR_COUNT := ERROR_COUNT s |}.

(** The [except] branch of a handler. *)
Definition count_error (s : State) : State :=
  {| collections := collections s; next_object_id := next_object_id s;
     STORE_REQUESTS := STORE_REQUESTS s;
     RETRIEVE_REQUESTS := RETRIEVE_REQUESTS s;
     DOCUMENTS_INSERTED := DOCUMENTS_INSERTED s;
     ERROR_COUNT := S (ERROR_COUNT s) |}.

(** The insert and the answer that follows it, in either table. *)
Definition insert_and_answer (raises : Call -> bool) (name table : string)
    (record : Document) (s : State) : State * (nat * StoreResponse) :=
  match do_insert_one raises name record s with
  | (s, Some id) => (count_inserted s, (201, StoredIn table id))
  | (s, None) => (count_error s, (500, StoreError))
  end.

Definition store_data (C : Config) (raises : Call -> bool) (s : State)
    (request : StoreRequest) : State * (nat * StoreResponse) :=
  let s := count_store s in
  match request with
  | NoObject => (count_error s, (500, StoreError))
  | Request table_name record_data =>
      if falsy table_name || falsy record_data then (s, (400, MissingTableOrData))
      else
        match table_name with
        | JString "collection_1" =>
            match record_data with
            | JObject record_data =>
                insert_and_answer raises (predictions_table C) "collection_1" record_data s
            | _ => (count_error s, (500, StoreError))
            end
        | JString "collection_2" =>
            match record_data with
            | JObject record_data =>
                let query_data :=
                  List.filter (fun kv => negb (String.eqb kv.1 "price")) record_data in
                if raises find_one then (count_error s, (500, StoreError))
                else
                  match List.find (matches C query_data)
                                  (collection s (corrections_table C)) with
                  | Some existing => (s, (200, AlreadyExists))
                  | None =>
                      insert_and_answer raises (corrections_table C) "collection_2"
                        record_data s
                  end
            | _ => (count_error s, (500, StoreError))
            end
        | _ => (s, (400, InvalidTableName))
        end
  end.

Inductive RetrieveResponse :=
| Retrieved (collection_name : string) (count : nat) (data : list Stored)
| RetrieveError.

(** [collection.find({}, {'_id': 0})] *)
Definition without_id (d : Stored) : Stored :=
  List.filter (fun kv => negb (String.eqb kv.1 "_id")) d.

Definition retrieve_data (C : Config) (raises : Call -> bool) (s : State)
    (collection_name : string) : State * (nat * RetrieveResponse) :=
  let s := {| collections := collections s; next_object_id := next_object_id s;
              STORE_REQUESTS := STORE_REQUESTS s;
              RETRIEVE_REQUESTS := S (RETRIEVE_REQUESTS s);
              DOCUMENTS_INSERTED := DOCUMENTS_INSERTED s;
              ERROR_COUNT := ERROR_COUNT s |} in
  let actual_collection :=
    if String.eqb collection_name "collection_1" then predictions_table C
    else if String.eqb collection_name "collection_2" then corrections_table C
    else collection_name in
  if raises find then (count_error s, (500, RetrieveError))
  else
    let documents := map without_id (collection s actual_collection) in
    (s, (200, Retrieved collection_name (length documents) documents)).

End dbapp.

(** * The web front end: src/webapp/app.py *)

Module webapp.
Import pd pd_records.

(** What Python reads in the text of a form field; [None] is an
    exception. *)
Record Lib := mkLib {
  int : string -> option Q;                 (* int(text) *)
  float : string -> option Q;               (* float(text) *)
  json_loads : string -> option Document    (* json.loads(text), an object *)
}.

(** The two services behind the handlers, over the state [S] they hold:
    the value under 'result' in the answer of the ML service to a JSON
    body ([None] when the call raises or the answer has none); the post
    to /store of the database service ([false] when the call raises); the
    list under 'data' in its answer to /retrieve, empty when the answer
    has none ([None] when the call raises). *)
Record Services (S : Type) := mkServices {
  post_predict : Document -> S -> S * option Q;
  post_store : string -> Document -> S -> S * bool;
  get_retrieve : string -> S -> S * option (list Document)
}.
Arguments post_predict {S}.
Arguments post_store {S}.
Arguments get_retrieve {S}.

(** The counters and the gauge of the front end.  (The latency histogram
    is left out.) *)
Record Metrics := mkMetrics {
  PREDICTION_REQUESTS : nat;
  CORRECTION_REQUESTS : nat;
  ERROR_COUNT : nat;
  LAST_PREDICTED_PRICE : option Q
}.

Inductive Page :=
| result_html (prediction : Q) (user_data : Document)
| correction_success_html (corrected_price : Q)
| show_predictions_html (predictions corrections : list Document)
| error_html.

(** [request.form[k]]; [None] is the [KeyError]. *)
Fixpoint form_get (form : list (string * string)) (k : string) : option string :=
  match form with
  | [] => None
  | (k', v) :: form' => if String.eqb k k' then Some v else form_get form' k
  end.

Inductive Conversion := Int | Float | Text.

(** The items of the dict [data] of [predict], in their order, with the
    conversion of each. *)
Definition FORM_FIELDS : list (string * Conversion) :=
  [("bedrooms", Int); ("bathrooms", Float); ("sqft_living", Int); ("sqft_lot", Int);
   ("floors", Float); ("waterfront", Int); ("view", Int); ("condition", Int);
   ("sqft_above", Int); ("sqft_basement", Int); ("yr_built", Int); ("yr_renovated", Int);
   ("street", Text); ("city", Text); ("statezip", Text); ("country", Text)].

Definition convert (L : Lib) (c : Conversion) (text : string) : option Value :=
  match c with
  | Int => VNum <$> int L text
  | Float => VNum <$> float L text
  | Text => Some (VStr text)
  end.

(** The dict [data]; [None] when a field is not in the form or its
    conversion raises. *)
Fixpoint read_form (L : Lib) (form : list (string * string))
    (fields : list (string * Conversion)) : option Document :=
  match fields with
  | [] => Some []
  | (k, c) :: fields' =>
      match form_get form k with
      | None => None
      | Some text =>
          match convert L c text with
          | None => None
          | Some v =>
              match read_form L form fields' with
              | None => None
              | Some data => Some ((k, v) :: data)
              end
          end
      end
  end.

(** The [except] branch of a handler. *)
Definition error {S} (s : S) (m : Metrics) : S * Metrics * Page :=
  (s, {| PREDICTION_REQUESTS := PREDICTION_REQUESTS m;
         CORRECTION_REQUESTS := CORRECTION_REQUESTS m;
         ERROR_COUNT := Datatypes.S (ERROR_COUNT m);
         LAST_PREDICTED_PRICE := LAST_PREDICTED_PRICE m |}, error_html).

Definition predict {S} (L : Lib) (R : Services S) (s : S) (m : Metrics)
    (form : list (string * string)) : S * Metrics * Page :=
  let m := {| PREDICTION_REQUESTS := Datatypes.S (PREDICTION_REQUESTS m);
              CORRECTION_REQUESTS := CORRECTION_REQUESTS m;
              ERROR_COUNT := ERROR_COUNT m;
              LAST_PREDICTED_PRICE := LAST_PREDICTED_PRICE m |} in
  match read_form L form FORM_FIELDS with
  | None => error s m
  | Some data =>
      match post_predict R data s with
      | (s, None) => error s m
      | (s, Some predicted_price) =>
          let m := {| PREDICTION_REQUESTS := PREDICTION_REQUESTS m;
                      CORRECTION_REQUESTS := CORRECTION_REQUESTS m;
                      ERROR_COUNT := ERROR_COUNT m;
                      LAST_PREDICTED_PRICE := Some predicted_price |} in
          match post_store R "collection_1"
                  (mlapp.dict_set "price" (VNum predicted_price) data) s with
          | (s, false) => error s m
          | (s, true) => (s, m, result_html predicted_price data)
          end
      end
  end.

Definition correct_prediction {S} (L : Lib) (R : Services S) (s : S) (m : Metrics)
    (form : list (string * string)) : S * Metrics * Page :=
  let m := {| PREDICTION_REQUESTS := PREDICTION_REQUESTS m;
              CORRECTION_REQUESTS := Datatypes.S (CORRECTION_REQUESTS m);
              ERROR_COUNT := ERROR_COUNT m;
              LAST_PREDICTED_PRICE := LAST_PREDICTED_PRICE m |} in
  match form_get form "user_data" with
  | None => error s m
  | Some text =>
      match json_loads L text with
      | None => error s m
      | Some user_data =>
          match form_get form "corrected_price" with
          | None => error s m
          | Some text =>
              match float L text with
              | None => error s m
              | Some corrected_price =>
                  match post_store R "collection_2"
                          (mlapp.dict_set "price" (VNum corrected_price) user_data) s with
                  | (s, false) => error s m
                  | (s, true) => (s, m, correction_success_html corrected_price)
                  end
              end
          end
      end
  end.

Definition show_predictions {S} (R : Services S) (s : S) (m : Metrics)
    : S * Metrics * Page :=
  match get_retrieve R "collection_1" s with
  | (s, None) => error s m
  | (s, Some predictions) =>
      match get_retrieve R "collection_2" s with
      | (s, None) => error s m
      | (s, Some corrections) => (s, m, show_predictions_html predictions corrections)
      end
  end.

End webapp.

(** * Notions the properties are stated with *)

(** ** Text after a number *)

(** What may follow a run of digits for the run to end there. *)
Definition no_digit_ahead (r : string) : Prop :=
  match r with
  | EmptyString => True
  | String c _ => py.digit c = None
  end.

(** ** Sequences of publish operations *)

Module versioning.
Import cronjob.

(** A publish operation: the faults of its client calls and the two parts
    it is handed. *)
Definition publish_op : Type := (Call -> bool) * pd.DataFrame * pd.DataFrame.

(** What one operation of a sequence did: the latest version in the store
    before it, the number it assigned, and whether it wrote a file. *)
Record published := mkPublished { max_before : nat; new_version : nat; wrote : bool }.

Definition assigned (r : Exn + Exit) : nat :=
  match r with
  | inr (CreatedVersion v) => v
  | _ => 0
  end.

Fixpoint publish_all (E : Env) (ops : list publish_op) (w : World)
    : list published * World :=
  match ops with
  | [] => ([], w)
  | (raises, train_df, valid_df) :: ops' =>
      let r := create_version raises E train_df valid_df w in
      let v := assigned (result r) in
      let p := {| max_before := max_version (listed_versions (BUCKET_2 E) (gcs w));
                  new_version := v;
                  wrote := negb (raises (gcs_upload (BUCKET_2 E) (versioned_train v)))
                           || negb (raises (gcs_upload (BUCKET_2 E) (versioned_valid v))) |} in
      let '(ps, w') := publish_all E ops' (world r) in
      (p :: ps, w')
  end.

(** The numbers of the versions that were written, in the order of the
    operations. *)
Fixpoint written (ps : list published) : list nat :=
  match ps with
  | [] => []
  | p :: ps' => if wrote p then new_version p :: written ps' else written ps'
  end.

Definition listing_succeeds (E : Env) (op : publish_op) : Prop :=
  op.1.1 (gcs_list (BUCKET_2 E)) = false.

End versioning.

(** ** Runs with a single fault *)

#[global] Instance Call_eq_dec : EqDecision Call.
Proof. solve_decision. Defined.

(** The run in which exactly the call [c] raises. *)
Definition only (c : Call) : Call -> bool := fun c' => bool_decide (c' = c).

(** ** Concrete inputs *)

Module examples.
Import pd pd_records.

Definition env : Env :=
  {| BUCKET_1 := "raw-data";
     BUCKET_2 := "datasets";
     BATCH_SIZE := 2;
     train_size := fun n => n * 8 / 10;
     sample := fun rs => rs;
     to_number := fun _ => None;
     str_number := fun _ => "0";
     murmurhash3_32 := fun s => Z.of_nat (String.length s);
     accuracy_of_fit := fun _ _ _ => 1 # 2;
     other_metrics := fun _ _ _ _ _ => [] |}.

(** Raw records: the twelve numeric fields, then the categorical fields
    and the target that the record carries. *)
Definition numeric_fields : Document :=
  map (fun col => (col, VNum 1)) cronjob.NUMERICAL_COLS.
Definition priced : Document :=
  numeric_fields ++ [("street", VStr "1 Main St"); ("price", VNum 5)].
Definition unpriced : Document :=
  numeric_fields ++ [("street", VStr "2 Main St")].
Definition street_missing : Document :=
  numeric_fields ++ [("street", VNaN); ("city", VStr "Seattle");
                     ("statezip", VStr "WA 98101"); ("country", VStr "USA");
                     ("price", VNum 5)].

(** A frame of two columns with one row. *)
Definition frame (x : Q) : DataFrame :=
  {| columns := ["sqft_living"; "price"]; rows := [[VNum x; VNum (x * 100)]] |}.

Definition store (blobs : list (string * DataFrame)) (rs : list Run) : World :=
  {| gcs := list_to_map (map (fun kv => (("datasets", kv.1), kv.2)) blobs);
     collection_2 := [];
     experiment_exists := true;
     runs := rs |}.

(** The store holds version 1 and nothing else. *)
Definition v1_only : World :=
  store [("versioned/v1/train.csv", frame 1); ("versioned/v1/valid.csv", frame 2)] [].

(** A finished run that trained through version 1, with its accuracy. *)
Definition run_through_v1 (accuracy : Q) : Run :=
  {| run_id := 1; status := FINISHED; params := [];
     metrics := [("accuracy", accuracy)];
     tags := [("trained_till_version", "v1")];
     artifact := Some {| fit_X := [[VNum 1]]; fit_y := [VNum 100] |} |}.

(** Versions 1 and 2 are published; the experiment has one run, which
    trained through version 1.  The model of [env] reaches accuracy 1/2. *)
Definition two_versions (accuracy_of_run_1 : Q) : World :=
  store [("versioned/v1/train.csv", frame 1); ("versioned/v1/valid.csv", frame 2);
         ("versioned/v2/train.csv", frame 3); ("versioned/v2/valid.csv", frame 4)]
        [run_through_v1 accuracy_of_run_1].

(** The buffer holds rows; both sources are empty. *)
Definition buffer_only : World :=
  store [("instream/train.csv", frame 1); ("instream/valid.csv", frame 2)] [].

(** The buffer holds one train row; the collection holds four records. *)
Definition buffer_and_documents : World :=
  {| gcs := {[ ("datasets", "instream/train.csv") := frame 1 ]};
     collection_2 := [priced; priced; priced; priced];
     experiment_exists := true;
     runs := [] |}.

(** Version 1 was written by half: its valid file is not there. *)
Definition half_written_v1 : World :=
  store [("versioned/v1/train.csv", frame 1)] [].

End examples.

(** ** What the consumer can read *)

Module consumer.
Import pd.

(** The two parts of [version], when both reads of the run succeed. *)
Definition readable (raises : Call -> bool) (bucket : string)
    (g : gmap (string * string) DataFrame) (version : nat) : option (DataFrame * DataFrame) :=
  if raises (gcs_read bucket (versioned_train version)) then None
  else match g !! (bucket, versioned_train version) with
       | None => None
       | Some train_df =>
           if raises (gcs_read bucket (versioned_valid version)) then None
           else match g !! (bucket, versioned_valid version) with
                | None => None
                | Some valid_df => Some (train_df, valid_df)
                end
       end.

(** The versions of the range that are read, in increasing order. *)
Definition loaded (raises : Call -> bool) (bucket : string)
    (g : gmap (string * string) DataFrame) (start_version end_version : nat)
    : list (DataFrame * DataFrame) :=
  omap (readable raises bucket g) (seq start_version (end_version + 1 - start_version)).

(** The warnings for the versions of the range that are not. *)
Definition skipped (raises : Call -> bool) (bucket : string)
    (g : gmap (string * string) DataFrame) (start_version end_version : nat) : list Event :=
  flat_map (fun version =>
              match readable raises bucket g version with
              | None => [WarnCouldNotLoad version]
              | Some _ => []
              end)
           (seq start_version (end_version + 1 - start_version)).

(** The watermark a run would read when no call of the tracking client
    raises. *)
Definition watermark (w : World) : nat :=
  match result (train.get_best_model_and_version no_faults w) with
  | inr (_, trained_till_version, _) => trained_till_version
  | inl _ => 0
  end.

(** The three reads of [get_best_model_and_version] do not raise. *)
Definition tracking_reads_succeed (raises : Call -> bool) : Prop :=
  raises mlflow_search_runs = false ∧ raises mlflow_get_run = false ∧
  raises mlflow_load_model = false.

(** What [get_best_model_and_version] returns. *)
Definition best_of (raises : Call -> bool) (w : World) : option Model * nat * option nat :=
  match result (train.get_best_model_and_version raises w) with
  | inr best => best
  | inl _ => (None, 0, None)
  end.

(** Reading the best run, or loading its model, fails: the search raises,
    or there is a best run and reading it raises, or loading its model
    raises, or it has no model to load. *)
Definition reading_fails (raises : Call -> bool) (w : World) : Prop :=
  raises mlflow_search_runs = true
  ∨ ∃ best_run, train.best_run (runs w) = Some best_run ∧
      (raises mlflow_get_run = true ∨ raises mlflow_load_model = true
       ∨ artifact best_run = None).

Definition is_train_call (e : Event) : bool :=
  match e with
  | TrainCall _ _ _ => true
  | _ => false
  end.

(** The run entered [train_model]. *)
Definition trained (ev : list Event) : bool := existsb is_train_call ev.

(** The tag a run that trained through [latest_version] sets. *)
Definition tag_of (latest_version : nat) : string * string :=
  ("trained_till_version", "v" +:+ py.str latest_version).

(** The warning of the data validation. *)
Definition width_warning (merged_train : DataFrame) : list Event :=
  if decide (width merged_train ≠ 53) then [WarnExpected53 (width merged_train)] else [].

(** [w'] is [w] with one more run, [nr]. *)
Definition new_run (w w' : World) (nr : Run) : Prop :=
  gcs w' = gcs w ∧ collection_2 w' = collection_2 w ∧
  experiment_exists w' = experiment_exists w ∧ runs w' = nr :: runs w.

(** What a consumer run leaves in the tracking store. *)
Definition outcome (E : Env) (w : World) (r : list Event * World * (Exn + train.Exit)) : Prop :=
  let L := max_version (listed_versions (BUCKET_2 E) (gcs w)) in
  gcs (world r) = gcs w ∧ collection_2 (world r) = collection_2 w ∧
  ((runs (world r) = runs w ∧ trained (events r) = false ∧
    result r ≠ inr train.TrainingCompleted ∧ result r ≠ inl (ClientError mlflow_log_model))
   ∨ ∃ nr, runs (world r) = nr :: runs w ∧ experiment_exists (world r) = true ∧
       match result r with
       | inr ex =>
           ex = train.TrainingCompleted ∧ status nr = FINISHED ∧
           is_Some (artifact nr) ∧ tags nr = [tag_of L] ∧ trained (events r) = true
       | inl exn =>
           (exn = ClientError mlflow_register_model ∧
            is_Some (artifact nr) ∧ tags nr = [tag_of L])
           ∨ (artifact nr = None ∧
              (exn = ClientError mlflow_log_model → tags nr = [tag_of L]))
       end).

End consumer.

(** ** What the producer is run with *)

Module producer.

(** No call on the bucket of the buffer and of the versions raises. *)
Definition store_calls_succeed (raises : Call -> bool) (E : Env) : Prop :=
  ∀ blob,
    raises (gcs_read (BUCKET_2 E) blob) = false ∧
    raises (gcs_delete (BUCKET_2 E) blob) = false ∧
    raises (gcs_upload (BUCKET_2 E) blob) = false ∧
    raises (gcs_list (BUCKET_2 E)) = false.

(** [g'] is [g] without some blobs, none of which is a file of a version. *)
Definition without_unversioned (bucket : string)
    (g g' : gmap (string * string) pd.DataFrame) : Prop :=
  ∀ key, g' !! key = g !! key ∨ (g' !! key = None ∧ version_of_blob bucket key = None).

(** The two parts a run has merged when it reaches the threshold check
    (Steps 1 to 7): the sources yield rows and the transform succeeds. *)
Definition merged_parts (raises : Call -> bool) (E : Env) (w : World)
    : option (pd.DataFrame * pd.DataFrame) :=
  match result (cronjob.read_inputs raises E w) with
  | inr (train1_df, valid1_df, csv1_df, csv2_df) =>
      match cronjob.merge_sources csv1_df csv2_df with
      | Some merged_df =>
          match cronjob.preprocess_data E (cronjob.price_last merged_df) with
          | inr preprocessed_df =>
              Some (cronjob.merge_existing train1_df (cronjob.split E preprocessed_df).1,
                    cronjob.merge_existing valid1_df (cronjob.split E preprocessed_df).2)
          | inl _ => None
          end
      | None => None
      end
  | inl _ => None
  end.

(** The two parts a run splits its new rows into (Steps 1 to 6), when the
    sources yield rows and the transform succeeds. *)
Definition new_parts (raises : Call -> bool) (E : Env) (w : World)
    : option (pd.DataFrame * pd.DataFrame) :=
  match result (cronjob.read_inputs raises E w) with
  | inr (_, _, csv1_df, csv2_df) =>
      match cronjob.merge_sources csv1_df csv2_df with
      | Some merged_df =>
          match cronjob.preprocess_data E (cronjob.price_last merged_df) with
          | inr preprocessed_df => Some (cronjob.split E preprocessed_df)
          | inl _ => None
          end
      | None => None
      end
  | inl _ => None
  end.

(** The buffer followed by the new rows, as a frame: the new rows as they
    are when the buffer is empty; else, over the union of the two headers,
    the rows of the buffer and after them the new rows. *)
Definition buffer_then_new (buffer new : pd.DataFrame) : pd.DataFrame :=
  if pd.empty buffer then new
  else
    let cols := pd.union_columns [buffer; new] in
    {| pd.columns := cols; pd.rows := pd.reindex cols buffer ++ pd.reindex cols new |}.

(** Every upload raises; no other call does. *)
Definition uploads_fail : Call -> bool := fun c =>
  match c with
  | gcs_upload _ _ => true
  | _ => false
  end.

End producer.

(** ** The transform, row by row *)

Module transform.
Import pd cronjob.

(** The categorical columns a frame has, in the order of the loop. *)
Definition categorical_present (df : DataFrame) : list string :=
  filter (fun c => c ∈ columns df) CATEGORICAL_COLS.

(** What the loop over NUMERICAL_COLS leaves in a cell. *)
Definition numeric (E : Env) (v : Value) : Value := fillna (VNum 0) (to_numeric E v).

(** The output row for the input row [row] under the header [cols]: the
    twelve numbers, the slots of each categorical column in [cats], the
    price. *)
Definition transform_row (E : Env) (cols cats : list string) (row : list Value)
    : list Value :=
  map (fun c => numeric E (cell cols row c)) NUMERICAL_COLS
  ++ flat_map (fun c => FeatureHasher_transform E (str_value E (cell cols row c))) cats
  ++ [cell cols row "price"].

Definition transformed (E : Env) (df : DataFrame) : DataFrame :=
  let cats := categorical_present df in
  {| columns := NUMERICAL_COLS ++ flat_map hash_columns cats ++ ["price"];
     rows := map (transform_row E (columns df) cats) (rows df) |}.

(** The frame of the slots of column [c], for rows [T r]. *)
Definition hashed_df (E : Env) {A : Type} (cols : list string) (rs : list A)
    (T : A → list Value) (c : string) : DataFrame :=
  {| columns := hash_columns c;
     rows := map (fun r => FeatureHasher_transform E (str_value E (cell cols (T r) c))) rs |}.

End transform.

(** ** Frames with rows *)

Module frames.
Import pd.

Definition is_number (v : Value) : bool :=
  match v with VNum _ => true | _ => false end.

(** A frame without columns has no rows: what [pd.read_csv] and
    [DataFrame.to_csv] can carry. *)
Definition proper (df : DataFrame) : Prop := columns df = [] → rows df = [].

End frames.

(** ** The features the service computes, field by field *)

Module serving.
Import pd pd_records.

(** The feature of a numerical field: the number read in its value, 0
    where none is read or the field is absent. *)
Definition numerical_feature (E : Env) (data : Document) (col : string) : Value :=
  match get data col with
  | Some v => transform.numeric E v
  | None => VNum 0
  end.

(** The ten slots of a categorical field: those of its text, those of
    "unknown" where the value is missing, zeros where the field is
    absent. *)
Definition categorical_feature (E : Env) (data : Document) (col : string) : list Value :=
  match get data col with
  | Some v =>
      cronjob.FeatureHasher_transform E (if isna v then "unknown" else cronjob.str_value E v)
  | None => replicate mlapp.HASH_FEATURES (VNum 0)
  end.

Definition features (E : Env) (data : Document) : list Value :=
  map (numerical_feature E data) mlapp.NUMERICAL_COLS
  ++ flat_map (categorical_feature E data) mlapp.CATEGORICAL_COLS.

End serving.

(** ** The candidates of the model search *)

Module model_search.
Import mlapp.

(** The run an experiment puts forward, with its accuracy: the first row
    of its search, when the experiment is not deleted and the run has
    logged the metric. *)
Definition candidate (experiment : Experiment) : option (Run * Q) :=
  if String.eqb (lifecycle_stage experiment) "deleted" then None
  else
    match train.best_run (experiment_runs experiment) with
    | None => None
    | Some run =>
        match train.lookup_key "accuracy" (metrics run) with
        | None => None
        | Some metric_value => Some (run, metric_value)
        end
    end.

(** A state of the search loop over the experiments seen so far: nothing
    chosen, or a candidate of one of them that no other one exceeds. *)
Definition chosen (seen : list Experiment) (best : Best) : Prop :=
  match best_run best, best_metric best, best_experiment best with
  | None, None, None => ∀ e, e ∈ seen → candidate e = None
  | Some run, Some a, Some e =>
      e ∈ seen ∧ candidate e = Some (run, a) ∧
      ∀ e' run' a', e' ∈ seen → candidate e' = Some (run', a') → (a' <= a)%Q
  | _, _, _ => False
  end.

End model_search.

(** ** What the filter of the driver answers *)

Module mongo.
Import pd pd_records dbapp.

(** The record of a request as the collection holds its fields. *)
Definition stored_fields (record : Document) : Stored :=
  map (fun kv => (kv.1, Val kv.2)) record.

(** The stored document has every field of the query with its value. *)
Definition holds_fields (d : Stored) (query : Document) : Prop :=
  ∀ k v, get query k = Some v → lookup d k = Some (Val v).

(** The equality filter of the driver: a document that has the fields of
    the query with their values satisfies it. *)
Definition equality_filter (C : Config) : Prop :=
  ∀ query d, holds_fields d query → matches C query d = true.

(** The query [store_data] makes of a record: its fields but the price. *)
Definition query_of (record : Document) : Document :=
  List.filter (fun kv => negb (String.eqb kv.1 "price")) record.

(** The actual collection behind the two names of the interface. *)
Definition table_of (C : Config) (table : string) : string :=
  if String.eqb table "collection_1" then predictions_table C else corrections_table C.

(** A filter that compares the fields of the query, for concrete runs. *)
Definition fields_equal (query : Document) (d : Stored) : bool :=
  forallb (fun k => match get query k, lookup d k with
                    | Some v, Some b => bson_eqb (Val v) b
                    | Some _, None => false
                    | None, _ => true
                    end) (keys query).

End mongo.

(** ** The three services together *)

Module deployment.
Import pd pd_records.

(** What the ML service and the database service are run with. *)
Record Deployment := mkDeployment {
  ml_lib : mlapp.Lib;
  ml_env : Env;
  ml_raises : mlapp.Call -> bool;
  ml_globals : mlapp.Globals;
  db_config : dbapp.Config;
  db_raises : dbapp.Call -> bool
}.

(** A retrieved document as JSON. *)
Definition document_of (d : dbapp.Stored) : Document :=
  omap (fun kv : string * dbapp.Bson =>
          match kv.2 with
          | dbapp.Val v => Some (kv.1, v)
          | dbapp.ObjectId _ => None
          end) d.

(** The two services as the front end reaches them when every request
    is delivered and answered: the handlers of the ML service and of the
    database service, over the metrics of the one and the state of the
    other. *)
Definition services (D : Deployment) : webapp.Services (mlapp.Metrics * dbapp.State) :=
  {| webapp.post_predict := fun data s =>
       let r := mlapp.predict (ml_lib D) (ml_env D) (ml_raises D) (ml_globals D) s.1
                  (mlapp.Object data) in
       ((r.1, s.2),
        match r.2.2 with
        | mlapp.Result price => Some price
        | _ => None
        end);
     webapp.post_store := fun table record s =>
       let r := dbapp.store_data (db_config D) (db_raises D) s.2
                  (dbapp.Request (dbapp.JString table) (dbapp.JObject record)) in
       ((s.1, r.1), true);
     webapp.get_retrieve := fun name s =>
       let r := dbapp.retrieve_data (db_config D) (db_raises D) s.2 name in
       ((s.1, r.1),
        Some match r.2.2 with
             | dbapp.Retrieved _ _ data => map document_of data
             | dbapp.RetrieveError => []
             end) |}.

(** The price the ML service answers a complete request with. *)
Definition price_of (D : Deployment) (data : Document) : Q :=
  mlapp.round_2 (ml_lib D)
    (mlapp.max_0 match mlapp.loaded_model (ml_globals D) with
                 | None => 50000
                 | Some model =>
                     mlapp.predict_price (ml_lib D) model (serving.features (ml_env D) data)
                 end).

(** What [correct_prediction] reads in its form: the dict [user_data]
    and the corrected price. *)
Definition read_correction (L : webapp.Lib) (form : list (string * string))
    : option (Document * Q) :=
  match webapp.form_get form "user_data" with
  | None => None
  | Some text =>
      match webapp.json_loads L text with
      | None => None
      | Some user_data =>
          match webapp.form_get form "corrected_price" with
          | None => None
          | Some text =>
              match webapp.float L text with
              | None => None
              | Some corrected_price => Some (user_data, corrected_price)
              end
          end
      end
  end.

End deployment.

(** ** More concrete inputs *)

Module more_examples.
Import pd pd_records examples.

(** Version 1 is published and the collection holds four records. *)
Definition published_and_documents : World :=
  {| gcs := list_to_map [(("datasets", "versioned/v1/train.csv"), frame 1);
                         (("datasets", "versioned/v1/valid.csv"), frame 2)];
     collection_2 := [priced; priced; priced; priced];
     experiment_exists := true;
     runs := [] |}.

(** The collection holds one record, which has no price. *)
Definition unpriced_document : World :=
  {| gcs := ∅;
     collection_2 := [unpriced];
     experiment_exists := true;
     runs := [] |}.

(** The sixteen fields of a request. *)
Definition sixteen_fields : Document :=
  numeric_fields ++ [("street", VStr "1 Main St"); ("city", VStr "Seattle");
                     ("statezip", VStr "WA 98101"); ("country", VStr "USA")].

(** A record with the sixteen fields and the price. *)
Definition complete : Document := sixteen_fields ++ [("price", VNum 5)].

(** The prediction service before a model is loaded. *)
Definition no_model : mlapp.Globals :=
  {| mlapp.loaded_model := None; mlapp.experiment_name := Some "dummy";
     mlapp.model_run_id := None |}.

Definition no_metrics : mlapp.Metrics :=
  {| mlapp.prediction_counter := ∅; mlapp.prediction_errors := ∅;
     mlapp.prediction_duration := ∅; mlapp.active_requests := 0;
     mlapp.predicted_price_histogram := [] |}.

Definition lib : mlapp.Lib :=
  {| mlapp.predict_price := fun _ _ => 0%Q; mlapp.round_2 := fun x => x |}.

(** The database service with two empty collections. *)
Definition config : dbapp.Config :=
  {| dbapp.predictions_table := "predictions";
     dbapp.corrections_table := "corrections";
     dbapp.matches := mongo.fields_equal |}.

Definition empty_database : dbapp.State :=
  {| dbapp.collections := ∅; dbapp.next_object_id := 0;
     dbapp.STORE_REQUESTS := 0; dbapp.RETRIEVE_REQUESTS := 0;
     dbapp.DOCUMENTS_INSERTED := 0; dbapp.ERROR_COUNT := 0 |}.

(** A correction: the fields of a request and the corrected price. *)
Definition correction (price : Q) : Document :=
  [("bedrooms", VNum 3); ("city", VStr "Seattle"); ("price", VNum price)].

End more_examples.


(** ** A concrete deployment *)

Module deployed.
Import pd pd_records.

Definition web_lib : webapp.Lib :=
  {| webapp.int := fun _ => Some 3%Q;
     webapp.float := fun _ => Some 2%Q;
     webapp.json_loads := fun _ => Some [("bedrooms", VNum 3); ("city", VStr "Seattle")] |}.

(** No model is loaded and no call raises. *)
Definition deployment : deployment.Deployment :=
  {| deployment.ml_lib := more_examples.lib;
     deployment.ml_env := examples.env;
     deployment.ml_raises := fun _ => false;
     deployment.ml_globals := more_examples.no_model;
     deployment.db_config := more_examples.config;
     deployment.db_raises := fun _ => false |}.

(** The same, but every call of the database driver raises. *)
Definition database_down : deployment.Deployment :=
  {| deployment.ml_lib := more_examples.lib;
     deployment.ml_env := examples.env;
     deployment.ml_raises := fun _ => false;
     deployment.ml_globals := more_examples.no_model;
     deployment.db_config := more_examples.config;
     deployment.db_raises := fun _ => true |}.

Definition start : mlapp.Metrics * dbapp.State :=
  (more_examples.no_metrics, more_examples.empty_database).

Definition no_requests : webapp.Metrics :=
  {| webapp.PREDICTION_REQUESTS := 0; webapp.CORRECTION_REQUESTS := 0;
     webapp.ERROR_COUNT := 0; webapp.LAST_PREDICTED_PRICE := None |}.

(** A form with the sixteen fields. *)
Definition prediction_form : list (string * string) :=
  map (fun kc : string * webapp.Conversion => (kc.1, "3")) webapp.FORM_FIELDS.

(** The dict that [predict] reads in it. *)
Definition prediction_data : Document :=
  map (fun kc : string * webapp.Conversion =>
         (kc.1, match kc.2 with
                | webapp.Int => VNum 3
                | webapp.Float => VNum 2
                | webapp.Text => VStr "3"
                end)) webapp.FORM_FIELDS.

Definition correction_form (corrected_price : string) : list (string * string) :=
  [("user_data", "{}"); ("corrected_price", corrected_price)].

End deployed.

(** * Properties *)

(** ** Decimal text and the regular expressions *)

Module py_facts.
Import py.

Lemma span_digits_app d r :
  no_digit_ahead r → span_digits (digits d +:+ r) = (d, r).
Proof.
  intros Hr. induction d; simpl; try (rewrite IHd; reflexivity).
  destruct r as [|c r]; simpl in *; [reflexivity | by rewrite Hr].
Qed.

Lemma to_uint_not_Nil n : Nat.to_uint n ≠ Decimal.Nil.
Proof.
  intros H. pose proof (Unsigned.of_to n) as Hn. rewrite H in Hn.
  simpl in Hn. subst n. discriminate H.
Qed.

Lemma match_here_str pre post n rest :
  no_digit_ahead (post +:+ rest) →
  match_here pre post (pre +:+ str n +:+ post +:+ rest) = Some n.
Proof.
  intros Hr. unfold match_here.
  assert (Hp : ∀ p s, strip_prefix p (p +:+ s) = Some s).
  { induction p as [|a p IH]; intros s; simpl; [done|].
    by rewrite Ascii.eqb_refl. }
  rewrite Hp. unfold str. rewrite span_digits_app by done.
  pose proof (to_uint_not_Nil n) as Hnil.
  destruct (Nat.to_uint n) eqn:Hd; try done;
    unfold startswith; rewrite Hp; rewrite <- Hd, Unsigned.of_to; done.
Qed.

Lemma re_search_str pre post n rest :
  no_digit_ahead (post +:+ rest) →
  re_search pre post (pre +:+ str n +:+ post +:+ rest) = Some n.
Proof.
  intros Hr. destruct (pre +:+ str n +:+ post +:+ rest) eqn:Hs;
    simpl; rewrite <- Hs, match_here_str; done.
Qed.

Lemma re_search_versioned_train n :
  re_search "versioned/v" "/" (versioned_train n) = Some n.
Proof. apply (re_search_str "versioned/v" "/" n "train.csv"). reflexivity. Qed.

Lemma re_search_versioned_valid n :
  re_search "versioned/v" "/" (versioned_valid n) = Some n.
Proof. apply (re_search_str "versioned/v" "/" n "valid.csv"). reflexivity. Qed.

Lemma append_empty_r (s : string) : s +:+ "" = s.
Proof.
  induction s as [|a s IH]; [done|].
  change (String a (s +:+ "") = String a s). by rewrite IH.
Qed.

Lemma re_search_tag n : re_search "v" "" ("v" +:+ str n) = Some n.
Proof.
  rewrite <- (append_empty_r (str n)).
  apply (re_search_str "v" "" n ""). exact I.
Qed.

Lemma startswith_versioned_train n : startswith (versioned_train n) "versioned/" = true.
Proof. reflexivity. Qed.

Lemma startswith_versioned_valid n : startswith (versioned_valid n) "versioned/" = true.
Proof. reflexivity. Qed.

Lemma versioned_train_inj n m : versioned_train n = versioned_train m → n = m.
Proof.
  intros H. apply (f_equal (re_search "versioned/v" "/")) in H.
  rewrite !re_search_versioned_train in H. congruence.
Qed.

End py_facts.

(** ** The listing of versions *)

Section listing.
Context (bucket : string).
Implicit Types (g : gmap (string * string) pd.DataFrame) (key : string * string).

Lemma max_version_max_list (vs : list nat) : max_version vs = max_list vs.
Proof. by destruct vs. Qed.

Lemma elem_of_listed_versions g n :
  n ∈ listed_versions bucket g ↔
  ∃ key df, g !! key = Some df ∧ version_of_blob bucket key = Some n.
Proof.
  unfold listed_versions. rewrite list_elem_of_omap. split.
  - intros [[key df] [Hin Hv]]. apply elem_of_map_to_list in Hin. eauto.
  - intros (key & df & Hin & Hv). exists (key, df).
    by rewrite elem_of_map_to_list.
Qed.

(** A blob that is listed bounds the latest version from below. *)
Lemma listed_le_max_version g key df n :
  g !! key = Some df → version_of_blob bucket key = Some n →
  n ≤ max_version (listed_versions bucket g).
Proof.
  intros Hin Hv. rewrite max_version_max_list.
  apply max_list_elem_of_le, elem_of_listed_versions. eauto.
Qed.

Lemma max_list_mono (l1 l2 : list nat) :
  (∀ n, n ∈ l1 → n ∈ l2) → max_list l1 ≤ max_list l2.
Proof.
  intros Hsub. destruct l1 as [|a l1]; [simpl; lia|].
  apply max_list_elem_of_le, Hsub, max_list_elem_of. done.
Qed.

(** Writing a blob never lowers the latest version. *)
Lemma max_version_insert_mono g key df :
  max_version (listed_versions bucket g) ≤
  max_version (listed_versions bucket (<[key:=df]> g)).
Proof.
  rewrite !max_version_max_list. apply max_list_mono. intros n.
  rewrite !elem_of_listed_versions. intros (k & d & Hin & Hv).
  destruct (decide (k = key)) as [->|Hne].
  - exists key, df. by rewrite lookup_insert_eq.
  - exists k, d. by rewrite lookup_insert_ne.
Qed.

Lemma max_version_insert_ge g key df n :
  version_of_blob bucket key = Some n →
  n ≤ max_version (listed_versions bucket (<[key:=df]> g)).
Proof.
  intros Hv. eapply listed_le_max_version; [apply lookup_insert_eq|done].
Qed.

(** Blobs whose names carry no version leave the latest version as it is. *)
Lemma max_version_insert_unversioned g key df :
  version_of_blob bucket key = None →
  max_version (listed_versions bucket (<[key:=df]> g)) =
  max_version (listed_versions bucket g).
Proof.
  intros Hv. rewrite !max_version_max_list.
  apply Nat.le_antisymm; [|rewrite <- !max_version_max_list; apply max_version_insert_mono].
  apply max_list_mono. intros n. rewrite !elem_of_listed_versions.
  intros (k & d & Hin & Hk). destruct (decide (k = key)) as [->|Hne]; [congruence|].
  rewrite lookup_insert_ne in Hin by done. eauto.
Qed.

Lemma version_of_versioned_train n :
  version_of_blob bucket (bucket, versioned_train n) = Some n.
Proof.
  unfold version_of_blob. cbn [fst snd]. rewrite decide_True by done.
  rewrite py_facts.startswith_versioned_train. apply py_facts.re_search_versioned_train.
Qed.

Lemma version_of_versioned_valid n :
  version_of_blob bucket (bucket, versioned_valid n) = Some n.
Proof.
  unfold version_of_blob. cbn [fst snd]. rewrite decide_True by done.
  rewrite py_facts.startswith_versioned_valid. apply py_facts.re_search_versioned_valid.
Qed.

(** The files of the version after the latest one do not exist yet. *)
Lemma next_version_fresh g key n :
  version_of_blob bucket key = Some n →
  max_version (listed_versions bucket g) < n →
  g !! key = None.
Proof.
  intros Hv Hlt. destruct (g !! key) as [df|] eqn:Hin; [|done].
  pose proof (listed_le_max_version _ _ _ _ Hin Hv). lia.
Qed.
End listing.

(** ** Monotonic versioning *)

Module versioning_facts.
Import cronjob versioning.

Lemma append_inv_head (s r1 r2 : string) : s +:+ r1 = s +:+ r2 → r1 = r2.
Proof.
  induction s as [|a s IH]; [done|].
  change (String a (s +:+ r1) = String a (s +:+ r2) → r1 = r2).
  intros [=]. auto.
Qed.

Lemma versioned_train_ne_valid n m : versioned_train n ≠ versioned_valid m.
Proof.
  intros Heq.
  assert (n = m) as ->.
  { apply (f_equal (py.re_search "versioned/v" "/")) in Heq.
    rewrite py_facts.re_search_versioned_train, py_facts.re_search_versioned_valid in Heq.
    congruence. }
  unfold versioned_train, versioned_valid in Heq.
  do 2 apply append_inv_head in Heq. discriminate Heq.
Qed.

Lemma create_version_listed raises E train_df valid_df w :
  raises (gcs_list (BUCKET_2 E)) = false →
  let m := max_version (listed_versions (BUCKET_2 E) (gcs w)) in
  let r := create_version raises E train_df valid_df w in
  result r = inr (CreatedVersion (m + 1)) ∧
  (∀ key df, gcs w !! key = Some df → gcs (world r) !! key = Some df) ∧
  m ≤ max_version (listed_versions (BUCKET_2 E) (gcs (world r))) ∧
  (negb (raises (gcs_upload (BUCKET_2 E) (versioned_train (m + 1))))
   || negb (raises (gcs_upload (BUCKET_2 E) (versioned_valid (m + 1)))) = true →
   m + 1 ≤ max_version (listed_versions (BUCKET_2 E) (gcs (world r)))).
Proof.
  intros Hlist m r. subst r.
  unfold create_version, get_latest_version, upload_csv_to_gcs, bind, ret,
    result, world. rewrite Hlist. fold m.
  assert (Ht : gcs w !! (BUCKET_2 E, versioned_train (m + 1)) = None).
  { eapply next_version_fresh; [apply version_of_versioned_train|]. fold m. lia. }
  assert (Hv : gcs w !! (BUCKET_2 E, versioned_valid (m + 1)) = None).
  { eapply next_version_fresh; [apply version_of_versioned_valid|]. fold m. lia. }
  assert (Hkeep : ∀ (g : gmap (string * string) pd.DataFrame) key key' df df',
             g !! key' = None → g !! key = Some df → <[key':=df']> g !! key = Some df).
  { intros g key key' df df' Hnone Hin. rewrite lookup_insert_ne; [done|congruence]. }
  destruct (raises (gcs_upload (BUCKET_2 E) (versioned_train (m + 1))));
    destruct (raises (gcs_upload (BUCKET_2 E) (versioned_valid (m + 1))));
    cbn -[versioned_train versioned_valid max_version listed_versions];
    (split; [done|]); (split; [|split]); try done.
  - intros key df Hin. by apply Hkeep.
  - apply max_version_insert_mono.
  - intros _. apply max_version_insert_ge, version_of_versioned_valid.
  - intros key df Hin. by apply Hkeep.
  - apply max_version_insert_mono.
  - intros _. apply max_version_insert_ge, version_of_versioned_train.
  - intros key df Hin. apply Hkeep; [|by apply Hkeep].
    rewrite lookup_insert_ne; [done|].
    intros Heq. apply (f_equal snd) in Heq. cbn [snd] in Heq.
    by apply versioned_train_ne_valid in Heq.
  - etrans; [|apply max_version_insert_mono]. apply max_version_insert_mono.
  - intros _. apply max_version_insert_ge, version_of_versioned_valid.
Qed.

Lemma publish_all_invariant E ops w :
  Forall (listing_succeeds E) ops →
  Forall (fun p => new_version p = max_before p + 1) (publish_all E ops w).1 ∧
  (∀ key df, gcs w !! key = Some df → gcs (publish_all E ops w).2 !! key = Some df) ∧
  Forall (fun p => max_version (listed_versions (BUCKET_2 E) (gcs w)) < new_version p)
         (publish_all E ops w).1 ∧
  StronglySorted lt (written (publish_all E ops w).1).
Proof.
  intros Hops. revert w.
  induction Hops as [|op ops Hop Hops IH]; intros w.
  { simpl. repeat split; auto using SSorted_nil. }
  destruct op as [[raises train_df] valid_df].
  cbn [publish_all].
  destruct (create_version_listed raises E train_df valid_df w Hop)
    as (Hres & Hkeep & Hmono & Hwrote).
  set (r := create_version raises E train_df valid_df w) in *.
  specialize (IH (world r)). destruct (publish_all E ops (world r)) as [ps w'] eqn:Hps.
  cbn [fst snd] in *. destruct IH as (IH1 & IH2 & IH3 & IH4).
  rewrite Hres. cbn [assigned].
  set (m := max_version (listed_versions (BUCKET_2 E) (gcs w))) in *.
  split; [|split; [|split]].
  - constructor; [done|done].
  - intros key df Hin. by apply IH2, Hkeep.
  - constructor; [cbn; lia|].
    eapply Forall_impl; [exact IH3|]. intros p Hp. cbn in Hp. lia.
  - cbn [written wrote new_version].
    destruct (negb (raises (gcs_upload (BUCKET_2 E) (versioned_train (m + 1))))
              || negb (raises (gcs_upload (BUCKET_2 E) (versioned_valid (m + 1))))) eqn:Hw;
      [|done].
    constructor; [done|]. specialize (Hwrote eq_refl).
    clear -IH3 Hwrote. induction IH3 as [|p ps Hp _ IHps]; [constructor|].
    cbn [written]. destruct (wrote p); [constructor|]; auto. lia.
Qed.

(** C3, as amended: over a sequence of publish operations whose listings
    succeed, every operation assigns the latest version plus one, no blob
    that exists is overwritten or removed, and the numbers of the versions
    that were written are strictly increasing. *)
Theorem monotonic_versioning E ops w :
  Forall (listing_succeeds E) ops →
  Forall (fun p => new_version p = max_before p + 1) (publish_all E ops w).1 ∧
  (∀ key df, gcs w !! key = Some df → gcs (publish_all E ops w).2 !! key = Some df) ∧
  StronglySorted lt (written (publish_all E ops w).1).
Proof.
  intros Hops. destruct (publish_all_invariant E ops w Hops) as (H1 & H2 & _ & H4).
  auto.
Qed.
End versioning_facts.

Module versioning_examples.
Import cronjob versioning examples.

(** C3 fails as stated: when the listing raises, [get_latest_version]
    answers 0; the operation then assigns number 1 although version 1
    exists, and replaces its train file. *)
Lemma listing_failure_reuses_v1 :
  let raises := only (gcs_list "datasets") in
  let r := create_version raises env (pd.mkDataFrame ["price"] []) (pd.mkDataFrame ["price"] []) v1_only in
  max_version (listed_versions "datasets" (gcs v1_only)) = 1 ∧
  result r = inr (CreatedVersion 1) ∧
  gcs v1_only !! ("datasets", "versioned/v1/train.csv") = Some (frame 1) ∧
  gcs (world r) !! ("datasets", "versioned/v1/train.csv") = Some (pd.mkDataFrame ["price"] []).
Proof. repeat split; vm_compute; reflexivity. Qed.

Lemma monotonic_versioning_witness :
  let ops := [(no_faults, frame 3, frame 4); (no_faults, frame 5, frame 6)] in
  Forall (listing_succeeds env) ops ∧
  Forall (fun p => new_version p = max_before p + 1) (publish_all env ops v1_only).1 ∧
  (∀ key df, gcs v1_only !! key = Some df →
             gcs (publish_all env ops v1_only).2 !! key = Some df) ∧
  StronglySorted lt (written (publish_all env ops v1_only).1).
Proof.
  intros ops.
  assert (Hops : Forall (listing_succeeds env) ops) by (repeat constructor).
  split; [exact Hops|].
  exact (versioning_facts.monotonic_versioning env ops v1_only Hops).
Defined.

Example publish_twice :
  written (publish_all env [(no_faults, frame 3, frame 4); (no_faults, frame 5, frame 6)] v1_only).1
  = [2; 3].
Proof. vm_compute. reflexivity. Qed.
End versioning_examples.

(** ** Frames *)

Module pd_facts.
Import pd pd_records.

Lemma eqb_eq_true (a b : string) : String.eqb a b = true ↔ a = b.
Proof. apply String.eqb_eq. Qed.

Lemma index_of_None c cols : index_of c cols = None ↔ c ∉ cols.
Proof.
  induction cols as [|c' cols IH]; simpl.
  - split; [intros _; apply not_elem_of_nil|done].
  - rewrite not_elem_of_cons. destruct (String.eqb c c') eqn:Heq.
    + apply String.eqb_eq in Heq. split; [done|]. intros [? _]. done.
    + apply String.eqb_neq in Heq. destruct (index_of c cols); simpl.
      * split; [done|]. intros [_ Hn]. by apply IH in Hn.
      * split; [|done]. intros _. split; [done|]. by apply IH.
Qed.

Lemma has_column_true c df : has_column c df = true ↔ c ∈ columns df.
Proof.
  unfold has_column. destruct (index_of c (columns df)) eqn:Hi.
  - split; [|done]. intros _. destruct (decide (c ∈ columns df)) as [|Hn]; [done|].
    apply index_of_None in Hn. congruence.
  - apply index_of_None in Hi. split; [done|]. intros. done.
Qed.

Lemma get_None (d : Document) k : get d k = None ↔ k ∉ keys d.
Proof.
  induction d as [|[k' v] d IH]; simpl.
  - split; [intros _; apply not_elem_of_nil|done].
  - rewrite not_elem_of_cons. destruct (String.eqb k k') eqn:Heq.
    + apply String.eqb_eq in Heq. split; [done|]. intros [? _]. done.
    + apply String.eqb_neq in Heq. rewrite IH. split; [by split|by intros [_ ?]].
Qed.

(** [unique] keeps the labels and drops the repetitions. *)
Lemma elem_of_unique (l : list string) c : c ∈ unique l ↔ c ∈ l.
Proof.
  induction l as [|x l IH]; [done|]. cbn [unique].
  rewrite !elem_of_cons, list_elem_of_filter, IH. split.
  - intros [?|[_ ?]]; [by left|by right].
  - intros [?|?]; [by left|]. destruct (decide (c = x)); [by left|by right].
Qed.

Lemma NoDup_unique (l : list string) : NoDup (unique l).
Proof.
  induction l as [|x l IH]; [constructor|]. cbn [unique]. constructor.
  - rewrite list_elem_of_filter. by intros [? _].
  - by apply NoDup_filter.
Qed.

Lemma filter_every (P : string → Prop) `{!∀ c, Decision (P c)} (l : list string) :
  (∀ c, c ∈ l → P c) → filter P l = l.
Proof.
  induction l as [|x l IH]; intros Hall; [done|].
  rewrite filter_cons_True by (apply Hall, list_elem_of_here).
  rewrite IH; [done|]. intros c Hc. apply Hall. by right.
Qed.

(** [unique] keeps the first appearance of a label. *)
Lemma unique_app (l1 l2 : list string) :
  unique (l1 ++ l2) = unique l1 ++ filter (fun c => c ∉ l1) (unique l2).
Proof.
  induction l1 as [|x l1 IH]; cbn [app unique].
  { symmetry. apply filter_every. intros c _. apply not_elem_of_nil. }
  rewrite IH, filter_app, list_filter_filter. do 2 f_equal.
  apply list_filter_iff. intros c. rewrite not_elem_of_cons. tauto.
Qed.

Lemma unique_NoDup (l : list string) : NoDup l → unique l = l.
Proof.
  induction 1 as [|x l Hx Hl IH]; [done|]. cbn [unique]. rewrite IH. f_equal.
  apply filter_every. by intros c Hc ->.
Qed.

(** The header of a concatenation starts with the header of the first
    frame; the labels the other frames add come after it. *)
Lemma union_columns_first df dfs :
  NoDup (columns df) →
  union_columns (df :: dfs)
  = columns df ++ filter (fun c => c ∉ columns df) (union_columns dfs).
Proof.
  intros Hdf. unfold union_columns. cbn [map List.concat].
  by rewrite unique_app, unique_NoDup.
Qed.

End pd_facts.

(** ** The feature transform *)

Module transform_facts.
Import pd pd_records cronjob.


(** Line 83: after [.astype(str)] no cell is missing, so [.fillna] leaves
    every cell as it is. *)
Lemma fillna_after_astype_str E v :
  fillna (VStr "unknown") (astype_str E v) = VStr (str_value E v).
Proof. reflexivity. Qed.


(** C8 at the failing input: the record's street is missing; the ten
    street slots of its row are those of the text "nan". *)
Theorem missing_street_is_hashed_as_nan E :
  preprocess_data E (from_records [examples.street_missing])
  = inr {| columns := NUMERICAL_COLS ++ hash_columns "street" ++ hash_columns "city"
                      ++ hash_columns "statezip" ++ hash_columns "country" ++ ["price"];
           rows := [map (fun _ => VNum 1) NUMERICAL_COLS
                    ++ FeatureHasher_transform E "nan"
                    ++ FeatureHasher_transform E "Seattle"
                    ++ FeatureHasher_transform E "WA 98101"
                    ++ FeatureHasher_transform E "USA"
                    ++ [VNum 5]] |}.
Proof. vm_compute. reflexivity. Qed.

(** The slots of "nan" are not those of "unknown". *)
Example nan_is_not_unknown :
  FeatureHasher_transform examples.env "nan" ≠ FeatureHasher_transform examples.env "unknown".
Proof. vm_compute. discriminate. Qed.
End transform_facts.

(** ** Loading a range of versions *)

Module loading_facts.
Import pd train consumer.

Lemma load_version_readable raises bucket acc version w :
  load_version raises bucket acc version w =
  match readable raises bucket (gcs w) version with
  | Some (train_df, valid_df) => ([], w, inr (acc.1 ++ [train_df], acc.2 ++ [valid_df]))
  | None => ([WarnCouldNotLoad version], w, inr acc)
  end.
Proof.
  unfold load_version, readable, try_except, bind, read_csv_from_gcs, tell, ret.
  destruct (raises (gcs_read bucket (versioned_train version))); [done|].
  destruct (gcs w !! (bucket, versioned_train version)); [|done].
  destruct (raises (gcs_read bucket (versioned_valid version))); [done|].
  destruct (gcs w !! (bucket, versioned_valid version)); done.
Qed.

Lemma for_each_load_version raises bucket versions acc w :
  for_each versions (load_version raises bucket) acc w =
  (flat_map (fun version =>
               match readable raises bucket (gcs w) version with
               | None => [WarnCouldNotLoad version]
               | Some _ => []
               end) versions,
   w,
   inr (acc.1 ++ map fst (omap (readable raises bucket (gcs w)) versions),
        acc.2 ++ map snd (omap (readable raises bucket (gcs w)) versions))).
Proof.
  revert acc. induction versions as [|version versions IH]; intros acc.
  { cbn. rewrite !app_nil_r. by destruct acc. }
  cbn [for_each]. unfold bind at 1. rewrite load_version_readable.
  destruct (readable raises bucket (gcs w) version) as [[train_df valid_df]|] eqn:Hr;
    rewrite IH; cbn; rewrite Hr; cbn; by rewrite <- ?app_assoc.
Qed.

(** The load as one step: its warnings, the store it leaves, its result. *)
Lemma load_versioned_data_unfold raises bucket start_version end_version w :
  load_versioned_data raises bucket start_version end_version w =
  (skipped raises bucket (gcs w) start_version end_version,
   w,
   match loaded raises bucket (gcs w) start_version end_version with
   | [] => inl (ValueError "No training data found")
   | parts => inr (concat (map fst parts), concat (map snd parts))
   end).
Proof.
  unfold load_versioned_data, bind. rewrite for_each_load_version.
  unfold loaded, skipped. cbn [fst snd app].
  destruct (omap _ _) as [|part parts]; cbn; by rewrite ?app_nil_r.
Qed.

(** C9, as amended: the versions of the range that cannot be read are
    warned about and skipped, in order, and the store is left as it is;
    when at least one version is read, the result is the concatenation of
    the train parts and of the valid parts of the versions read, in
    increasing version order; when none is read, the load raises. *)
Theorem load_versioned_data_skips_unreadable raises bucket start_version end_version w :
  let r := load_versioned_data raises bucket start_version end_version w in
  events r = skipped raises bucket (gcs w) start_version end_version ∧
  world r = w ∧
  result r =
    match loaded raises bucket (gcs w) start_version end_version with
    | [] => inl (ValueError "No training data found")
    | parts => inr (concat (map fst parts), concat (map snd parts))
    end.
Proof. intros r. subst r. by rewrite load_versioned_data_unfold. Qed.

(** C9 fails as stated: when no version of the range can be read the skip
    does abort the run. *)
Lemma unreadable_range_aborts_the_run :
  let r := main no_faults examples.env examples.half_written_v1 in
  events r = [WarnCouldNotLoad 1] ∧
  result r = inl (ValueError "No training data found").
Proof. by vm_compute. Qed.
End loading_facts.

(** ** Stepping through a computation *)

Section stepping.
Context {A B C : Type}.
Implicit Types (w : World) (raises : Call → bool).

Lemma bind_assoc (m : M A) (k1 : A → M B) (k2 : B → M C) w :
  bind (bind m k1) k2 w = bind m (fun a => bind (k1 a) k2) w.
Proof.
  unfold bind. destruct (m w) as [[ev w'] [e|a]]; [done|].
  destruct (k1 a w') as [[ev1 w1] [e|b]]; [done|].
  destruct (k2 b w1) as [[ev2 w2] r]. by rewrite app_assoc.
Qed.

Lemma bind_ret (a : A) (k : A → M B) w : bind (ret a) k w = k a w.
Proof. unfold bind, ret. by destruct (k a w) as [[ev w'] r]. Qed.

Lemma bind_raise (e : Exn) (k : A → M B) w : bind (raise e) k w = ([], w, inl e).
Proof. done. Qed.

Lemma bind_call_raises raises c (k : unit → M B) w :
  raises c = true → bind (call raises c) k w = ([], w, inl (ClientError c)).
Proof. intros Hc. unfold bind, call. by rewrite Hc. Qed.

Lemma bind_call_returns raises c (k : unit → M B) w :
  raises c = false → bind (call raises c) k w = k tt w.
Proof.
  intros Hc. unfold bind, call. rewrite Hc. by destruct (k tt w) as [[ev w'] r].
Qed.

Lemma bind_modify (f : World → World) (k : unit → M B) w :
  bind (modify f) k w = k tt (f w).
Proof. unfold bind, modify. by destruct (k tt (f w)) as [[ev w'] r]. Qed.

Lemma bind_get_world (k : World → M B) w : bind get_world k w = k w w.
Proof. unfold bind, get_world. by destruct (k w w) as [[ev w'] r]. Qed.

Lemma bind_tell (e : Event) (k : unit → M B) w :
  bind (tell e) k w = (e :: events (k tt w), world (k tt w), result (k tt w)).
Proof. unfold bind, tell. by destruct (k tt w) as [[ev w'] r]. Qed.
End stepping.

(** ** The run the consumer logs *)

Module run_facts.
Import pd train consumer.

(** The loops that log parameters and metrics touch neither the tags nor
    the artifact of the active run. *)
Lemma for_each_log_param raises kvs g c e h rs :
  ∃ h' res,
    for_each kvs (fun _ kv => log_param raises kv.1 kv.2) tt (mkWorld g c e (h :: rs))
    = ([], mkWorld g c e (h' :: rs), res)
    ∧ tags h' = tags h ∧ artifact h' = artifact h
    ∧ (res = inr tt
       ∨ ∃ key, raises (mlflow_log_param key) = true
                ∧ res = inl (ClientError (mlflow_log_param key))).
Proof.
  revert h. induction kvs as [|[key value] kvs IH]; intros h.
  { exists h, (inr tt). auto. }
  cbn [for_each fst snd]. unfold log_param at 1. rewrite bind_assoc.
  destruct (raises (mlflow_log_param key)) eqn:Hr.
  - rewrite bind_call_raises by done. exists h. eauto 10.
  - rewrite bind_call_returns by done. unfold update_active.
    rewrite bind_modify. unfold set_runs. cbn [gcs collection_2 experiment_exists runs].
    match goal with |- context [mkWorld _ _ _ (?h1 :: _)] =>
      destruct (IH h1) as (h' & res & -> & Ht & Ha & Hres) end.
    exists h', res. auto.
Qed.

Lemma for_each_log_metric raises kvs g c e h rs :
  ∃ h' res,
    for_each kvs (fun _ kv => log_metric raises kv.1 kv.2) tt (mkWorld g c e (h :: rs))
    = ([], mkWorld g c e (h' :: rs), res)
    ∧ tags h' = tags h ∧ artifact h' = artifact h
    ∧ (res = inr tt ∨ ∃ key, res = inl (ClientError (mlflow_log_metric key))).
Proof.
  revert h. induction kvs as [|[key value] kvs IH]; intros h.
  { exists h, (inr tt). auto. }
  cbn [for_each fst snd]. unfold log_metric at 1. rewrite bind_assoc.
  destruct (raises (mlflow_log_metric key)) eqn:Hr.
  - rewrite bind_call_raises by done. exists h. eauto 10.
  - rewrite bind_call_returns by done. unfold update_active.
    rewrite bind_modify. unfold set_runs. cbn [gcs collection_2 experiment_exists runs].
    match goal with |- context [mkWorld _ _ _ (?h1 :: _)] =>
      destruct (IH h1) as (h' & res & -> & Ht & Ha & Hres) end.
    exists h', res. auto.
Qed.

(** The body of the [with] block, from a world whose active run is [h]. *)
Lemma training_run_steps raises E model s L prev Xt yt Xv yv g c e h rs :
  ∃ h' ev res,
    training_run raises E model s L prev Xt yt Xv yv (mkWorld g c e (h :: rs))
    = (ev, mkWorld g c e (h' :: rs), res) ∧
    match res with
    | inr ex =>
        ex = TrainingCompleted ∧ ev = [TrainCall model (rows Xt) yt] ∧
        artifact h' = Some (mkModel (rows Xt) yt) ∧ tags h' = tag_of L :: tags h
    | inl exn =>
        (exn = ClientError mlflow_register_model ∧ ev = [TrainCall model (rows Xt) yt] ∧
         artifact h' = Some (mkModel (rows Xt) yt) ∧ tags h' = tag_of L :: tags h)
        ∨ (artifact h' = artifact h ∧
           ((ev = [] ∧ ∃ key, raises (mlflow_log_param key) = true
                              ∧ exn = ClientError (mlflow_log_param key))
            ∨ (ev = [TrainCall model (rows Xt) yt] ∧
               (exn = ClientError mlflow_log_model → tags h' = tag_of L :: tags h))))
    end.
Proof.
  unfold training_run.
  destruct (for_each_log_param raises (run_params s L Xt Xv prev) g c e h rs)
    as (h1 & res1 & Hparams & Ht1 & Ha1 & Hres1).
  unfold bind at 1. rewrite Hparams.
  destruct Hres1 as [->|(key & Hkey & ->)].
  2:{ exists h1, [], (inl (ClientError (mlflow_log_param key))). eauto 10. }
  unfold train_model. rewrite !bind_assoc, bind_tell.
  match goal with |- context [events (?m ?w)] =>
    destruct (m w) as [[ev2 w2] r2] eqn:Hrest end.
  cbn [events world result fst snd].
  (* sklearn: fit, then predict *)
  cbn beta in Hrest. rewrite ?bind_assoc in Hrest.
  destruct (raises sklearn_fit) eqn:Hfit.
  { rewrite bind_call_raises in Hrest by done. injection Hrest as <- <- <-.
    exists h1, [TrainCall model (rows Xt) yt], (inl (ClientError sklearn_fit)).
    split; [done|]. right. split; [done|]. right. split; [done|]. discriminate. }
  rewrite bind_call_returns, bind_ret in Hrest by done.
  unfold evaluate_model in Hrest. rewrite ?bind_assoc in Hrest.
  destruct (raises sklearn_predict) eqn:Hpredict.
  { rewrite bind_call_raises in Hrest by done. injection Hrest as <- <- <-.
    exists h1, [TrainCall model (rows Xt) yt], (inl (ClientError sklearn_predict)).
    split; [done|]. right. split; [done|]. right. split; [done|]. discriminate. }
  rewrite bind_call_returns, bind_ret in Hrest by done.
  (* the metrics *)
  match type of Hrest with context [for_each ?ms _ _] =>
    destruct (for_each_log_metric raises ms g c e h1 rs)
      as (h2 & res2 & Hmetrics & Ht2 & Ha2 & Hres2) end.
  unfold bind at 1 in Hrest. rewrite Hmetrics in Hrest.
  destruct Hres2 as [->|[key ->]].
  2:{ injection Hrest as <- <- <-.
      exists h2, [TrainCall model (rows Xt) yt], (inl (ClientError (mlflow_log_metric key))).
      split; [done|]. right. split; [congruence|]. right. split; [done|]. discriminate. }
  (* the tag, then the model *)
  unfold set_tag, log_model, update_active in Hrest.
  rewrite !bind_assoc in Hrest.
  destruct (raises mlflow_set_tag) eqn:Htag.
  { rewrite bind_call_raises in Hrest by done. cbn in Hrest. injection Hrest as <- <- <-.
    exists h2, [TrainCall model (rows Xt) yt], (inl (ClientError mlflow_set_tag)).
    split; [done|]. right. split; [congruence|]. right. split; [done|]. discriminate. }
  rewrite bind_call_returns, bind_modify in Hrest by done.
  unfold set_runs in Hrest. cbn [gcs collection_2 experiment_exists runs] in Hrest.
  rewrite ?bind_assoc in Hrest.
  destruct (raises mlflow_log_model) eqn:Hmodel.
  { rewrite bind_call_raises in Hrest by done. cbn in Hrest. injection Hrest as <- <- <-.
    eexists _, [TrainCall model (rows Xt) yt], (inl (ClientError mlflow_log_model)).
    split; [done|]. cbn. right. split; [congruence|]. right. split; [done|].
    intros _. unfold tag_of. congruence. }
  rewrite bind_call_returns in Hrest by done. cbn beta in Hrest.
  rewrite ?bind_assoc, bind_modify in Hrest.
  unfold set_runs in Hrest. cbn [gcs collection_2 experiment_exists runs] in Hrest.
  rewrite ?bind_assoc in Hrest.
  destruct (raises mlflow_register_model) eqn:Hregister.
  { rewrite bind_call_raises in Hrest by done. cbn in Hrest. injection Hrest as <- <- <-.
    eexists _, [TrainCall model (rows Xt) yt], (inl (ClientError mlflow_register_model)).
    split; [done|]. cbn. left. repeat split. unfold tag_of. congruence. }
  rewrite bind_call_returns in Hrest by done.
  unfold ret in Hrest. cbn in Hrest. injection Hrest as <- <- <-.
  eexists _, [TrainCall model (rows Xt) yt], (inr TrainingCompleted).
  split; [done|]. cbn. repeat split. unfold tag_of. congruence.
Qed.

(** What the [with] block leaves: no run when the run cannot be started;
    else one more run, which has the model and the tag when the block
    completes, and no model when it raises. *)
Lemma with_start_run_outcome raises E model s L prev Xt yt Xv yv w :
  let r := with_start_run raises
             (training_run raises E model s L prev Xt yt Xv yv) w in
  (raises mlflow_start_run = true ∧ r = ([], w, inl (ClientError mlflow_start_run)))
  ∨ (raises mlflow_start_run = false ∧
     ∃ nr, new_run w (world r) nr ∧
       match result r with
       | inr ex =>
           ex = TrainingCompleted ∧ events r = [TrainCall model (rows Xt) yt] ∧
           status nr = FINISHED ∧
           artifact nr = Some (mkModel (rows Xt) yt) ∧ tags nr = [tag_of L]
       | inl exn =>
           status nr = FAILED ∧
           ((exn = ClientError mlflow_register_model ∧
             events r = [TrainCall model (rows Xt) yt] ∧
             artifact nr = Some (mkModel (rows Xt) yt) ∧ tags nr = [tag_of L])
            ∨ (artifact nr = None ∧
               ((events r = [] ∧ ∃ key, raises (mlflow_log_param key) = true
                                        ∧ exn = ClientError (mlflow_log_param key))
                ∨ (events r = [TrainCall model (rows Xt) yt] ∧
                   (exn = ClientError mlflow_log_model → tags nr = [tag_of L])))))
       end).
Proof.
  intros r. subst r. unfold with_start_run.
  destruct (raises mlflow_start_run) eqn:Hstart.
  { left. split; [done|]. by rewrite bind_call_raises. }
  right. split; [done|].
  rewrite bind_call_returns, bind_modify by done.
  destruct w as [g c e rs]. unfold set_runs.
  cbn [gcs collection_2 experiment_exists runs].
  match goal with |- context [mkWorld _ _ _ (?h :: _)] =>
    destruct (training_run_steps raises E model s L prev Xt yt Xv yv g c e h rs)
      as (h' & ev & res & -> & Hres) end.
  destruct res as [exn|ex]; cbn in *.
  - eexists. split; [done|]. cbn. split; [done|].
    destruct Hres as [(? & ? & ? & ?)|(Ha & Hres)]; [by left|right].
    split; [done|]. destruct Hres as [?|[? Htag]]; [by left|right].
    split; [done|]. intros Hexn. by apply Htag.
  - eexists. split; [done|]. cbn. destruct Hres as (? & ? & ? & ?). done.
Qed.

(** The validation in front of the [with] block only adds the warning to
    what the block does, or raises for a missing price column. *)
Lemma validate_and_train_unfold raises E model s L prev mt mv w :
  validate_and_train raises E model s L prev mt mv w =
  if negb (has_column "price" mt)
  then (width_warning mt, w, inl (ValueError "Price column not found in training data"))
  else if negb (has_column "price" mv)
  then (width_warning mt, w, inl (KeyError "['price'] not found in axis"))
  else
    let r := with_start_run raises
               (training_run raises E model s L prev
                  (drop "price" mt) (column "price" mt)
                  (drop "price" mv) (column "price" mv)) w in
    (width_warning mt ++ events r, world r, result r).
Proof.
  unfold validate_and_train, width_warning.
  destruct (decide (width mt ≠ 53)).
  - rewrite bind_tell.
    destruct (negb (has_column "price" mt)); [done|].
    destruct (negb (has_column "price" mv)); done.
  - rewrite bind_ret.
    destruct (negb (has_column "price" mt)); [done|].
    destruct (negb (has_column "price" mv)); [done|].
    cbn. by destruct (with_start_run _ _ _) as [[ev w'] res].
Qed.

Lemma trained_width_warning mt ev : trained (width_warning mt ++ ev) = trained ev.
Proof. unfold width_warning. by destruct (decide _). Qed.

Lemma not_trained_width_warning mt : trained (width_warning mt) = false.
Proof. unfold width_warning. by destruct (decide _). Qed.

(** Whatever the width of the merged data, a run whose train and valid
    data have a price column, and whose tracking run can be started,
    enters the training step. *)
Lemma validate_and_train_events raises E model s L prev mt mv w :
  has_column "price" mt = true →
  has_column "price" mv = true →
  raises mlflow_start_run = false →
  (∀ key, raises (mlflow_log_param key) = false) →
  events (validate_and_train raises E model s L prev mt mv w)
  = width_warning mt ++ [TrainCall model (rows (drop "price" mt)) (column "price" mt)].
Proof.
  intros Hmt Hmv Hstart Hparams. rewrite validate_and_train_unfold, Hmt, Hmv.
  cbn [negb events fst]. f_equal.
  destruct (with_start_run_outcome raises E model s L prev
              (drop "price" mt) (column "price" mt)
              (drop "price" mv) (column "price" mv) w)
    as [[Hs _]|(_ & nr & _ & Hres)]; [congruence|].
  destruct (result _) as [exn|ex].
  - destruct Hres as (_ & [(_ & Hev & _)|(_ & [(_ & key & Hkey & _)|[Hev _]])]);
      [done| |done].
    rewrite Hparams in Hkey. discriminate.
  - by destruct Hres as (_ & Hev & _).
Qed.

(** One call of [log_param] in front of what follows it. *)
Lemma bind_log_param {B} raises key value (k : unit → M B) w :
  bind (log_param raises key value) k w
  = if raises (mlflow_log_param key)
    then ([], w, inl (ClientError (mlflow_log_param key)))
    else k tt (set_runs (fun rs =>
                 match rs with
                 | r :: rs' =>
                     {| run_id := run_id r; status := status r;
                        params := params r ++ [(key, value)];
                        metrics := metrics r; tags := tags r; artifact := artifact r |} :: rs'
                 | [] => []
                 end) w).
Proof.
  unfold log_param. rewrite bind_assoc.
  destruct (raises (mlflow_log_param key)) eqn:Hr.
  - by rewrite bind_call_raises.
  - rewrite bind_call_returns by done. unfold update_active. by rewrite bind_modify.
Qed.

(** The loop over the parameters prints nothing; it returns when none of
    its calls raises, and else raises what the first raising call does. *)
Lemma for_each_log_param_result raises kvs w :
  let r := for_each kvs (fun _ kv => log_param raises kv.1 kv.2) tt w in
  events r = [] ∧
  if forallb (fun kv : string * string => negb (raises (mlflow_log_param kv.1))) kvs
  then result r = inr tt
  else ∃ key, raises (mlflow_log_param key) = true
              ∧ result r = inl (ClientError (mlflow_log_param key)).
Proof.
  revert w. induction kvs as [|[key value] kvs IH]; intros w; [done|].
  cbn [for_each forallb fst snd]. rewrite bind_log_param.
  destruct (raises (mlflow_log_param key)) eqn:Hr; cbn [negb andb].
  - cbn. split; [done|]. eauto.
  - apply IH.
Qed.

(** The body of the [with] block enters the training step exactly when
    the parameters can be logged. *)
Lemma training_run_enters raises E model s L prev Xt yt Xv yv g c e h rs :
  let r := training_run raises E model s L prev Xt yt Xv yv (mkWorld g c e (h :: rs)) in
  if forallb (fun kv : string * string => negb (raises (mlflow_log_param kv.1)))
             (run_params s L Xt Xv prev)
  then events r = [TrainCall model (rows Xt) yt]
  else events r = [] ∧
       ∃ key, raises (mlflow_log_param key) = true
              ∧ result r = inl (ClientError (mlflow_log_param key)).
Proof.
  intros r.
  destruct (for_each_log_param_result raises (run_params s L Xt Xv prev)
              (mkWorld g c e (h :: rs))) as [Hev1 Hres1].
  destruct (forallb _ _).
  - assert (Hhead : ∃ ev2, events r = TrainCall model (rows Xt) yt :: ev2).
    { subst r. unfold training_run. unfold bind at 1.
      destruct (for_each _ _ _ _) as [[ev1 w1] r1].
      cbn [events result fst snd] in Hev1, Hres1. subst ev1 r1.
      unfold train_model. rewrite !bind_assoc, bind_tell. cbn [events fst app]. eauto. }
    destruct Hhead as [ev2 Hhead].
    destruct (training_run_steps raises E model s L prev Xt yt Xv yv g c e h rs)
      as (h' & ev & res & Heq & Hres).
    subst r. rewrite Heq in Hhead |- *. cbn [events fst] in Hhead |- *.
    destruct res as [exn|ex].
    + destruct Hres as [(_ & Hev & _)|(_ & [(Hev & _)|[Hev _]])]; [done| |done].
      rewrite Hev in Hhead. discriminate Hhead.
    + by destruct Hres as (_ & Hev & _).
  - destruct Hres1 as (key & Hkey & Hres1).
    destruct (for_each _ _ _ _) as [[ev1 w1] r1] eqn:Hloop.
    cbn [events result fst snd] in Hev1, Hres1. subst ev1 r1.
    assert (Hr : r = ([], w1, inl (ClientError (mlflow_log_param key)))).
    { subst r. unfold training_run. unfold bind at 1. by rewrite Hloop. }
    rewrite Hr. cbn [events result fst snd]. eauto.
Qed.

(** A [with] block whose run can be started prints and returns what its
    body does. *)
Lemma with_start_run_started {A} raises (body : M A) w :
  raises mlflow_start_run = false →
  let w1 := set_runs (fun rs =>
              {| run_id := S (length rs); status := RUNNING; params := [];
                 metrics := []; tags := []; artifact := None |} :: rs) w in
  events (with_start_run raises body w) = events (body w1) ∧
  result (with_start_run raises body w) = result (body w1).
Proof.
  intros Hstart w1. unfold with_start_run.
  rewrite bind_call_returns, bind_modify by done. fold w1.
  by destruct (body w1) as [[ev w'] [exn|a]].
Qed.

(** A run whose train and valid data have a price column, whose tracking
    run can be started and whose parameters can be logged: it enters the
    training step on the data; a failing fit is the error of the run; a
    run that completes has logged the model fitted on the data, tagged
    with the latest version. *)
Lemma validate_and_train_trains raises E model s L prev mt mv w :
  has_column "price" mt = true →
  has_column "price" mv = true →
  raises mlflow_start_run = false →
  (∀ key, raises (mlflow_log_param key) = false) →
  let r := validate_and_train raises E model s L prev mt mv w in
  let X := rows (drop "price" mt) in
  let y := column "price" mt in
  events r = width_warning mt ++ [TrainCall model X y] ∧
  (raises sklearn_fit = true → result r = inl (ClientError sklearn_fit)) ∧
  (result r = inr TrainingCompleted →
   ∃ nr, runs (world r) = nr :: runs w ∧ status nr = FINISHED ∧
         artifact nr = Some {| fit_X := X; fit_y := y |} ∧ tags nr = [tag_of L]).
Proof.
  intros Hmt Hmv Hstart Hparams r X y.
  split; [by apply validate_and_train_events|].
  subst r. rewrite validate_and_train_unfold, Hmt, Hmv. cbn [negb]. cbn zeta.
  cbn [events world result fst snd].
  set (body := training_run raises E model s L prev (drop "price" mt) (column "price" mt)
                 (drop "price" mv) (column "price" mv)).
  split.
  - intros Hfit.
    destruct (with_start_run_started raises body w Hstart) as [_ ->]. cbn zeta.
    match goal with |- result (body ?w1) = _ => generalize w1 end. intros w1.
    subst body. unfold training_run. unfold bind at 1.
    destruct (for_each_log_param_result raises
                (run_params s L (drop "price" mt) (drop "price" mv) prev) w1) as [_ Hres1].
    assert (Hall : forallb (fun kv : string * string => negb (raises (mlflow_log_param kv.1)))
                     (run_params s L (drop "price" mt) (drop "price" mv) prev) = true).
    { apply forallb_forall. intros kv _. by rewrite Hparams. }
    rewrite Hall in Hres1.
    destruct (for_each _ _ _ _) as [[ev1 w2] r1]. cbn [result snd] in Hres1. subst r1.
    unfold train_model. rewrite !bind_assoc, bind_tell. cbn beta.
    rewrite ?bind_assoc, bind_call_raises by done. done.
  - intros Hdone.
    destruct (with_start_run_outcome raises E model s L prev
                (drop "price" mt) (column "price" mt)
                (drop "price" mv) (column "price" mv) w)
      as [[Hs _]|(_ & nr & (_ & _ & _ & Hruns) & Hres)]; [congruence|].
    fold body in Hruns, Hres. rewrite Hdone in Hres.
    destruct Hres as (_ & _ & Hstatus & Hartifact & Htags). eauto.
Qed.

(** C6, as amended: a run whose merged data does not have 53 columns
    prints the warning and goes on, whatever the width.  It enters the
    training step on that data exactly when the train and valid data have
    a price column, the tracking run can be started and the parameters of
    the run can be logged; otherwise it prints the warning only and raises
    the error of the first of these that fails. *)
Theorem width_mismatch_only_warns raises E model s L prev mt mv w :
  width mt ≠ 53 →
  let r := validate_and_train raises E model s L prev mt mv w in
  let X_train := drop "price" mt in
  let X_valid := drop "price" mv in
  let logged := forallb (fun kv : string * string => negb (raises (mlflow_log_param kv.1)))
                        (run_params s L X_train X_valid prev) in
  if has_column "price" mt && has_column "price" mv
     && negb (raises mlflow_start_run) && logged
  then events r = [WarnExpected53 (width mt);
                   TrainCall model (rows X_train) (column "price" mt)]
  else events r = [WarnExpected53 (width mt)] ∧
       ∃ exn, result r = inl exn ∧
         if negb (has_column "price" mt)
         then exn = ValueError "Price column not found in training data"
         else if negb (has_column "price" mv)
         then exn = KeyError "['price'] not found in axis"
         else if raises mlflow_start_run
         then exn = ClientError mlflow_start_run
         else ∃ key, raises (mlflow_log_param key) = true
                     ∧ exn = ClientError (mlflow_log_param key).
Proof.
  intros Hwidth r X_train X_valid logged. subst r.
  rewrite validate_and_train_unfold. unfold width_warning. rewrite decide_True by done.
  destruct (has_column "price" mt); cbn [negb andb]; [|eauto].
  destruct (has_column "price" mv); cbn [negb andb]; [|eauto].
  cbn zeta. cbn [events result fst snd].
  destruct (raises mlflow_start_run) eqn:Hstart; cbn [negb andb].
  { unfold with_start_run. rewrite bind_call_raises by done.
    cbn [events result fst snd app]. eauto. }
  destruct (with_start_run_started raises
              (training_run raises E model s L prev X_train (column "price" mt)
                 X_valid (column "price" mv)) w Hstart) as [Hev Hres].
  fold X_train X_valid. rewrite Hev, Hres.
  destruct w as [g c e rs]. unfold set_runs. cbn [gcs collection_2 experiment_exists runs].
  match goal with |- context [mkWorld g c e (?h :: rs)] =>
    pose proof (training_run_enters raises E model s L prev X_train (column "price" mt)
                  X_valid (column "price" mv) g c e h rs) as Henters end.
  cbn zeta in Henters. fold logged in Henters.
  destruct logged.
  - by rewrite Henters.
  - destruct Henters as (-> & key & Hkey & ->). split; [done|]. eauto.
Qed.

(** C6 fails as stated: the merged data of the run below has 2 columns;
    the run warns, trains on it and completes. *)
Lemma narrow_data_is_trained_on :
  let r := main no_faults examples.env examples.v1_only in
  events r = [WarnExpected53 2; TrainCall None [[VNum 1]] [VNum 100]] ∧
  result r = inr TrainingCompleted.
Proof. split; vm_compute; reflexivity. Qed.

Lemma width_mismatch_only_warns_witness :
  let mt := examples.frame 1 in
  let mv := examples.frame 2 in
  width mt ≠ 53 ∧
  events (validate_and_train no_faults examples.env None 1 1 None mt mv examples.v1_only)
  = [WarnExpected53 (width mt);
     TrainCall None (rows (drop "price" mt)) (column "price" mt)].
Proof.
  intros mt mv.
  assert (Hwidth : width mt ≠ 53) by (vm_compute; discriminate).
  split; [exact Hwidth|].
  exact (width_mismatch_only_warns no_faults examples.env None 1 1 None mt mv
           examples.v1_only Hwidth).
Defined.

(** Reading the best run and listing the versions change nothing. *)
Lemma bind_get_best {B} raises (k : option Model * nat * option nat → M B) w :
  bind (get_best_model_and_version raises) k w
  = k (match result (get_best_model_and_version raises w) with
       | inr best => best
       | inl _ => (None, 0, None)
       end) w.
Proof.
  unfold bind, get_best_model_and_version. cbn [result snd].
  by destruct (k _ w) as [[ev w'] r].
Qed.

Lemma bind_get_latest {B} raises bucket (k : nat → M B) w :
  bind (get_latest_version_from_gcs raises bucket) k w
  = k (if raises (gcs_list bucket) then 0
       else max_version (listed_versions bucket (gcs w))) w.
Proof.
  unfold bind, get_latest_version_from_gcs.
  destruct (raises (gcs_list bucket)); by destruct (k _ w) as [[ev w'] r].
Qed.

Lemma trained_app ev1 ev2 : trained (ev1 ++ ev2) = trained ev1 || trained ev2.
Proof. apply existsb_app. Qed.

Lemma trained_skipped raises bucket g s e : trained (skipped raises bucket g s e) = false.
Proof.
  unfold skipped. induction (seq s (e + 1 - s)) as [|v vs IH]; [done|].
  cbn [flat_map]. rewrite trained_app, IH.
  by destruct (readable raises bucket g v).
Qed.

Lemma main_outcome_experiment_exists raises E w :
  experiment_exists w = true → outcome E w (main raises E w).
Proof.
  intros Hexists. unfold outcome, main, get_or_create_experiment.
  rewrite !bind_assoc.
  destruct (raises mlflow_get_experiment_by_name) eqn:Hget.
  { rewrite bind_call_raises by done. cbn. auto 10. }
  rewrite bind_call_returns by done. cbn beta.
  rewrite ?bind_assoc, bind_get_world, Hexists. rewrite ?bind_assoc, bind_ret.
  destruct (raises mlflow_set_experiment) eqn:Hset.
  { rewrite bind_call_raises by done. cbn. auto 10. }
  rewrite bind_call_returns by done. cbn beta. rewrite bind_get_best.
  destruct (match result (get_best_model_and_version raises w) with
            | inr best => best | inl _ => (None, 0, None) end)
    as [[model W] prev].
  rewrite bind_get_latest.
  destruct (raises (gcs_list (BUCKET_2 E))) eqn:Hlist.
  { rewrite decide_True by done. cbn. auto 10. }
  set (L := max_version (listed_versions (BUCKET_2 E) (gcs w))).
  destruct (decide (L = 0)); [cbn; auto 10|].
  destruct (decide (L < W + 1)); [cbn; auto 10|].
  unfold bind. rewrite loading_facts.load_versioned_data_unfold.
  pose proof (trained_skipped raises (BUCKET_2 E) (gcs w) (W + 1) L) as Hskip.
  destruct (loaded raises (BUCKET_2 E) (gcs w) (W + 1) L) as [|part parts].
  { cbn. auto 10. }
  cbn [fst snd]. rewrite validate_and_train_unfold.
  set (mt := concat (map fst (part :: parts))).
  set (mv := concat (map snd (part :: parts))).
  destruct (negb (has_column "price" mt)).
  { cbn. rewrite trained_app, Hskip, not_trained_width_warning. auto 10. }
  destruct (negb (has_column "price" mv)).
  { cbn. rewrite trained_app, Hskip, not_trained_width_warning. auto 10. }
  cbn zeta.
  destruct (with_start_run_outcome raises E model (W + 1) L prev
              (drop "price" mt) (column "price" mt)
              (drop "price" mv) (column "price" mv) w)
    as [[_ Hr]|(_ & nr & (Hg & Hc & He & Hruns) & Hres)].
  { rewrite Hr. cbn. rewrite trained_app, Hskip, trained_width_warning. auto 10. }
  destruct (with_start_run _ _ _) as [[ev w'] res].
  cbn [events world result fst snd] in *.
  split; [done|]. split; [done|]. right. exists nr.
  split; [done|]. split; [congruence|].
  destruct res as [exn|ex].
  - destruct Hres as (_ & [(-> & _ & Ha & Htag)|(Ha & Hres)]).
    + left. rewrite Ha. eauto.
    + right. destruct Hres as [(_ & key & _ & ->)|[_ Htag]]; split; auto; discriminate.
  - destruct Hres as (-> & -> & ? & Ha & ?). rewrite Ha.
    rewrite trained_app, trained_width_warning. cbn. rewrite orb_true_r. eauto.
Qed.

(** A run that has to create the experiment goes on as a run that finds it. *)
Lemma main_creates_experiment raises E w :
  experiment_exists w = false →
  raises mlflow_get_experiment_by_name = false →
  raises mlflow_create_experiment = false →
  main raises E w = main raises E (set_experiment_exists true w).
Proof.
  intros Hexists Hget Hcreate. unfold main, get_or_create_experiment.
  rewrite ?bind_assoc, !bind_call_returns by done. cbn beta.
  rewrite ?bind_assoc, !bind_get_world, Hexists. cbn [experiment_exists set_experiment_exists].
  rewrite ?bind_assoc, bind_call_returns by done. cbn beta.
  by rewrite ?bind_assoc, bind_modify, bind_ret.
Qed.

Lemma main_outcome raises E w : outcome E w (main raises E w).
Proof.
  destruct (experiment_exists w) eqn:Hexists.
  { by apply main_outcome_experiment_exists. }
  destruct (raises mlflow_get_experiment_by_name) eqn:Hget.
  { unfold outcome, main, get_or_create_experiment.
    rewrite !bind_assoc, bind_call_raises by done. cbn. auto 10. }
  destruct (raises mlflow_create_experiment) eqn:Hcreate.
  { unfold outcome, main, get_or_create_experiment.
    rewrite ?bind_assoc, bind_call_returns by done. cbn beta.
    rewrite ?bind_assoc, bind_get_world, Hexists.
    rewrite ?bind_assoc, bind_call_raises by done. cbn. auto 10. }
  rewrite main_creates_experiment by done.
  exact (main_outcome_experiment_exists raises E (set_experiment_exists true w) eq_refl).
Qed.
End run_facts.

(** ** The watermark *)

Module watermark_facts.
Import pd train consumer run_facts.

(** A new run without a model leaves the watermark, or resets it: the
    best run is the one it was, or it is the new run, whose model cannot
    be loaded. *)
Lemma watermark_new_run_without_model w w' nr :
  runs w' = nr :: runs w → artifact nr = None →
  watermark w' = watermark w ∨ watermark w' = 0.
Proof.
  intros Hruns Hnone. unfold watermark, get_best_model_and_version, no_faults.
  cbn [result snd]. rewrite Hruns. cbn [best_run].
  destruct (best_run (runs w)) as [c|].
  - destruct (precedes c nr); [by left|]. right. by rewrite Hnone.
  - right. by rewrite Hnone.
Qed.

(** C1, as amended: a run that fails in logging the model has already
    set its tag; the watermark read from the store afterwards is the one
    read before, or 0. *)
Theorem failed_log_keeps_or_resets_watermark raises E w :
  result (main raises E w) = inl (ClientError mlflow_log_model) →
  (∃ nr, runs (world (main raises E w)) = nr :: runs w ∧ artifact nr = None ∧
         tags nr = [tag_of (max_version (listed_versions (BUCKET_2 E) (gcs w)))]) ∧
  (watermark (world (main raises E w)) = watermark w
   ∨ watermark (world (main raises E w)) = 0).
Proof.
  intros Hres. destruct (main_outcome raises E w) as (_ & _ & [(_ & _ & _ & Hne)|Hrun]).
  { done. }
  destruct Hrun as (nr & Hruns & _ & Hnr). rewrite Hres in Hnr.
  destruct Hnr as [(Hexn & _)|[Hnone Htag]]; [discriminate Hexn|]. split.
  - exists nr. auto.
  - by eapply watermark_new_run_without_model.
Qed.

(** C1 fails as stated: the run below fails in logging the model, and the
    watermark, 1 before the run, is 0 after it; the run left in the store
    carries the tag v2. *)
Lemma failed_log_resets_watermark :
  let w := examples.two_versions (1 # 4) in
  let r := main (only mlflow_log_model) examples.env w in
  result r = inl (ClientError mlflow_log_model) ∧
  watermark w = 1 ∧ watermark (world r) = 0 ∧
  (tags <$> hd_error (runs (world r))) = Some [("trained_till_version", "v2")].
Proof. by vm_compute. Qed.

(** When it is the registration that follows the logging that raises, the
    failed run has the model and the tag: the watermark, 1 before the run,
    is 2 after it. *)
Example failed_registration_advances_watermark :
  let w := examples.two_versions (1 # 4) in
  let r := main (only mlflow_register_model) examples.env w in
  result r = inl (ClientError mlflow_register_model) ∧
  (status <$> hd_error (runs (world r))) = Some FAILED ∧
  watermark w = 1 ∧ watermark (world r) = 2.
Proof. by vm_compute. Qed.

Lemma failed_log_keeps_or_resets_watermark_witness :
  let w := examples.two_versions (1 # 4) in
  let raises := only mlflow_log_model in
  result (main raises examples.env w) = inl (ClientError mlflow_log_model) ∧
  ((∃ nr, runs (world (main raises examples.env w)) = nr :: runs w ∧ artifact nr = None ∧
          tags nr = [tag_of (max_version (listed_versions (BUCKET_2 examples.env) (gcs w)))]) ∧
   (watermark (world (main raises examples.env w)) = watermark w
    ∨ watermark (world (main raises examples.env w)) = 0)).
Proof.
  intros w raises.
  assert (H : result (main raises examples.env w) = inl (ClientError mlflow_log_model))
    by (vm_compute; reflexivity).
  split; [exact H|].
  exact (failed_log_keeps_or_resets_watermark raises examples.env w H).
Defined.
End watermark_facts.

(** ** Running the consumer twice *)

Module idempotence_facts.
Import pd train consumer run_facts.




(** After a run that completed, a run whose tracking reads succeed and
    that finds the new run to be the best one reads the latest version as
    its watermark. *)
Lemma best_of_completed raises1 raises2 E w :
  result (main raises1 E w) = inr TrainingCompleted →
  best_run (runs (world (main raises1 E w))) = hd_error (runs (world (main raises1 E w))) →
  tracking_reads_succeed raises2 →
  experiment_exists (world (main raises1 E w)) = true ∧
  (best_of raises2 (world (main raises1 E w))).1.2
    = max_version (listed_versions (BUCKET_2 E) (gcs (world (main raises1 E w)))).
Proof.
  intros Hres Hbest (Hsearch & Hget & Hload).
  destruct (main_outcome raises1 E w) as (Hgcs & _ & [(_ & _ & Hne & _)|Hrun]); [done|].
  destruct Hrun as (nr & Hruns & Hexists & Hnr). rewrite Hres in Hnr.
  destruct Hnr as (_ & _ & [m Hm] & Htags & _). split; [done|].
  unfold best_of, get_best_model_and_version. cbn [result snd].
  rewrite Hsearch, Hget, Hload, Hbest, Hruns. cbn [hd_error].
  rewrite Htags, Hm, Hgcs. cbn [fst snd]. unfold tag_of.
  cbn [lookup_key String.eqb Ascii.eqb Bool.eqb default].
  unfold id. by rewrite py_facts.re_search_tag.
Qed.



End idempotence_facts.

(** ** The fallback of the consumer *)

Module fallback_facts.
Import pd train consumer run_facts.

(** The blanket [except] of [get_best_model_and_version]: the function
    returns, with no model and version 0. *)
Lemma get_best_reading_fails raises w :
  reading_fails raises w →
  get_best_model_and_version raises w = ([], w, inr (None, 0, None)).
Proof.
  unfold get_best_model_and_version.
  intros [Hs|(b & Hb & Hfail)]; [by rewrite Hs|]. rewrite Hb.
  destruct (raises mlflow_search_runs); [done|].
  destruct Hfail as [Hg|[Hl|Ha]].
  - by rewrite Hg.
  - rewrite Hl. by destruct (raises mlflow_get_run).
  - rewrite Ha. destruct (raises mlflow_get_run); [done|].
    by destruct (raises mlflow_load_model).
Qed.

Lemma best_of_reading_fails raises w :
  reading_fails raises w → best_of raises w = (None, 0, None).
Proof. intros Hfail. unfold best_of. by rewrite get_best_reading_fails. Qed.

Lemma fallback_in_existing_experiment raises E w :
  reading_fails raises w →
  experiment_exists w = true →
  raises mlflow_get_experiment_by_name = false →
  raises mlflow_set_experiment = false →
  raises (gcs_list (BUCKET_2 E)) = false →
  max_version (listed_versions (BUCKET_2 E) (gcs w)) ≠ 0 →
  let L := max_version (listed_versions (BUCKET_2 E) (gcs w)) in
  main raises E w
  = bind (load_versioned_data raises (BUCKET_2 E) 1 L)
         (fun merged => validate_and_train raises E None 1 L None merged.1 merged.2) w.
Proof.
  intros Hfail Hexists Hget Hset Hlist HL L.
  pose proof (best_of_reading_fails raises w Hfail) as Hbest.
  unfold main, get_or_create_experiment.
  rewrite ?bind_assoc, bind_call_returns by done. cbn beta.
  rewrite ?bind_assoc, bind_get_world, Hexists. rewrite ?bind_assoc, bind_ret.
  rewrite bind_call_returns by done. cbn beta. rewrite bind_get_best.
  fold (best_of raises w). rewrite Hbest, bind_get_latest, Hlist. fold L.
  rewrite decide_False by done. rewrite decide_False by lia. done.
Qed.

(** C10, as amended: when reading the best run or loading its model
    fails, the reading function returns no model and version 0 instead of
    raising.  A run that sets its experiment and lists a latest version
    [L] other than 0 then takes the range from version 1 to [L]: it
    loads every version of the range that can be read and, when there is
    one, the merged data have a price column, the tracking run can be
    started and the parameters logged, it trains from no model on their
    concatenation; a failing fit is the error of the run, and a run that
    completes has logged the model fitted on that concatenation, tagged
    with [L]. *)
Theorem fallback_retrains_from_version_1 raises E w :
  reading_fails raises w →
  raises mlflow_get_experiment_by_name = false →
  (experiment_exists w = false → raises mlflow_create_experiment = false) →
  raises mlflow_set_experiment = false →
  raises (gcs_list (BUCKET_2 E)) = false →
  max_version (listed_versions (BUCKET_2 E) (gcs w)) ≠ 0 →
  let L := max_version (listed_versions (BUCKET_2 E) (gcs w)) in
  let parts := loaded raises (BUCKET_2 E) (gcs w) 1 L in
  let merged_train := concat (map fst parts) in
  let merged_valid := concat (map snd parts) in
  let X := rows (drop "price" merged_train) in
  let y := column "price" merged_train in
  let r := main raises E w in
  get_best_model_and_version raises w = ([], w, inr (None, 0, None)) ∧
  r = bind (load_versioned_data raises (BUCKET_2 E) 1 L)
           (fun merged => validate_and_train raises E None 1 L None merged.1 merged.2)
           (if experiment_exists w then w else set_experiment_exists true w) ∧
  (parts ≠ [] →
   has_column "price" merged_train = true →
   has_column "price" merged_valid = true →
   raises mlflow_start_run = false →
   (∀ key, raises (mlflow_log_param key) = false) →
   events r = skipped raises (BUCKET_2 E) (gcs w) 1 L ++ width_warning merged_train
              ++ [TrainCall None X y] ∧
   (raises sklearn_fit = true → result r = inl (ClientError sklearn_fit)) ∧
   (result r = inr TrainingCompleted →
    ∃ nr, runs (world r) = nr :: runs w ∧ status nr = FINISHED ∧
          artifact nr = Some {| fit_X := X; fit_y := y |} ∧ tags nr = [tag_of L])).
Proof.
  intros Hfail Hget Hcreate Hset Hlist HL L parts merged_train merged_valid X y r.
  pose proof (get_best_reading_fails raises w Hfail) as Hbest.
  set (w1 := if experiment_exists w then w else set_experiment_exists true w).
  assert (Hw1 : gcs w1 = gcs w) by (subst w1; by destruct (experiment_exists w)).
  assert (Hruns1 : runs w1 = runs w) by (subst w1; by destruct (experiment_exists w)).
  assert (Hmain : r
    = bind (load_versioned_data raises (BUCKET_2 E) 1 L)
           (fun merged => validate_and_train raises E None 1 L None merged.1 merged.2) w1).
  { subst r w1. destruct (experiment_exists w) eqn:Hexists.
    - by apply fallback_in_existing_experiment.
    - rewrite main_creates_experiment by auto.
      by apply (fallback_in_existing_experiment raises E (set_experiment_exists true w)). }
  split; [done|]. split; [done|].
  intros Hparts Hmt Hmv Hstart Hparams.
  destruct (validate_and_train_trains raises E None 1 L None merged_train merged_valid w1
              Hmt Hmv Hstart Hparams) as (Hev & Hfit & Hdone).
  cbn zeta in Hev, Hfit, Hdone. fold X y in Hev, Hfit, Hdone. rewrite Hruns1 in Hdone.
  assert (Hr : r = (skipped raises (BUCKET_2 E) (gcs w) 1 L
                      ++ events (validate_and_train raises E None 1 L None
                                   merged_train merged_valid w1),
                    world (validate_and_train raises E None 1 L None
                             merged_train merged_valid w1),
                    result (validate_and_train raises E None 1 L None
                              merged_train merged_valid w1))).
  { rewrite Hmain. unfold bind. rewrite loading_facts.load_versioned_data_unfold, Hw1.
    fold parts. destruct parts as [|part parts'] eqn:Hp; [done|].
    cbn [fst snd]. fold merged_train merged_valid.
    by destruct (validate_and_train _ _ _ _ _ _ _ _ _) as [[ev w'] res]. }
  rewrite Hr. cbn [events world result fst snd]. rewrite Hev. done.
Qed.

(** C10 fails as stated: the search of the runs raises, and the function
    that reads the best run returns no model and version 0; version 1 is
    listed but its valid file cannot be read, so the run loads nothing and
    aborts with the error of the loader, without training. *)
Lemma fallback_run_aborts_without_training :
  let w := examples.half_written_v1 in
  let raises := only mlflow_search_runs in
  let r := main raises examples.env w in
  get_best_model_and_version raises w = ([], w, inr (None, 0, None)) ∧
  max_version (listed_versions "datasets" (gcs w)) = 1 ∧
  result r = inl (ValueError "No training data found") ∧
  trained (events r) = false ∧
  runs (world r) = runs w.
Proof. repeat split; vm_compute; reflexivity. Qed.

Lemma fallback_retrains_from_version_1_witness :
  let w := examples.two_versions (9 # 10) in
  let raises := only mlflow_load_model in
  let E := examples.env in
  let L := max_version (listed_versions (BUCKET_2 E) (gcs w)) in
  let merged_train := concat (map fst (loaded raises (BUCKET_2 E) (gcs w) 1 L)) in
  let X := rows (drop "price" merged_train) in
  let y := column "price" merged_train in
  let r := main raises E w in
  reading_fails raises w ∧ watermark w = 1 ∧ L = 2 ∧
  get_best_model_and_version raises w = ([], w, inr (None, 0, None)) ∧
  events r = skipped raises (BUCKET_2 E) (gcs w) 1 L ++ width_warning merged_train
             ++ [TrainCall None X y] ∧
  result r = inr TrainingCompleted ∧
  ∃ nr, runs (world r) = nr :: runs w ∧ status nr = FINISHED ∧
        artifact nr = Some {| fit_X := X; fit_y := y |} ∧ tags nr = [tag_of L].
Proof.
  intros w raises E L merged_train X y r.
  assert (Hfail : reading_fails raises w).
  { right. eexists. split; [vm_compute; reflexivity|]. right. left. reflexivity. }
  assert (HL : max_version (listed_versions (BUCKET_2 E) (gcs w)) ≠ 0)
    by (vm_compute; discriminate).
  destruct (fallback_retrains_from_version_1 raises E w Hfail eq_refl
              (fun _ => eq_refl) eq_refl eq_refl HL)
    as (Hbest & _ & Htrains).
  assert (Hparts : loaded raises (BUCKET_2 E) (gcs w) 1
                     (max_version (listed_versions (BUCKET_2 E) (gcs w))) ≠ [])
    by (vm_compute; discriminate).
  assert (Hmt : has_column "price" merged_train = true) by (vm_compute; reflexivity).
  assert (Hmv : has_column "price"
                  (concat (map snd (loaded raises (BUCKET_2 E) (gcs w) 1 L))) = true)
    by (vm_compute; reflexivity).
  destruct (Htrains Hparts Hmt Hmv eq_refl (fun _ => eq_refl)) as (Hev & _ & Hdone).
  assert (Hres : result r = inr TrainingCompleted) by (vm_compute; reflexivity).
  split; [exact Hfail|]. split; [vm_compute; reflexivity|].
  split; [vm_compute; reflexivity|]. split; [exact Hbest|].
  split; [exact Hev|]. split; [exact Hres|]. exact (Hdone Hres).
Defined.

(** At that input the run trains on the rows of versions 1 and 2. *)
Example fallback_trains_on_v1_and_v2 :
  events (main (only mlflow_load_model) examples.env (examples.two_versions (9 # 10)))
  = [WarnExpected53 2; TrainCall None [[VNum 1]; [VNum 3]] [VNum 100; VNum 300]].
Proof. vm_compute. reflexivity. Qed.
End fallback_facts.

(** ** The producer *)

Module producer_facts.
Import pd cronjob producer.

Section run.
Context (raises : Call → bool) (E : Env).
Hypothesis Hcalls : store_calls_succeed raises E.
Implicit Types (g : gmap (string * string) DataFrame) (w : World).

Lemma unversioned_instream_train :
  version_of_blob (BUCKET_2 E) (BUCKET_2 E, instream_train) = None.
Proof. unfold version_of_blob. cbn [fst snd]. by rewrite decide_True. Qed.

Lemma unversioned_instream_valid :
  version_of_blob (BUCKET_2 E) (BUCKET_2 E, instream_valid) = None.
Proof. unfold version_of_blob. cbn [fst snd]. by rewrite decide_True. Qed.

Lemma unversioned_data_csv :
  version_of_blob (BUCKET_2 E) (BUCKET_1 E, "data.csv") = None.
Proof. unfold version_of_blob. cbn [fst snd]. by destruct (decide _). Qed.

Global Instance without_unversioned_refl : Reflexive (without_unversioned (BUCKET_2 E)).
Proof. intros g key. by left. Qed.

Global Instance without_unversioned_trans : Transitive (without_unversioned (BUCKET_2 E)).
Proof.
  intros g1 g2 g3 H12 H23 key.
  destruct (H23 key) as [->|[-> ?]]; [apply H12|by right].
Qed.

Lemma without_unversioned_delete g key :
  version_of_blob (BUCKET_2 E) key = None →
  without_unversioned (BUCKET_2 E) g (delete key g).
Proof.
  intros Hkey key'. destruct (decide (key' = key)) as [->|Hne].
  - right. by rewrite lookup_delete_eq.
  - left. by rewrite lookup_delete_ne.
Qed.

(** Dropping blobs that carry no version keeps the latest version. *)
Lemma without_unversioned_max_version g g' :
  without_unversioned (BUCKET_2 E) g g' →
  max_version (listed_versions (BUCKET_2 E) g')
  = max_version (listed_versions (BUCKET_2 E) g).
Proof.
  intros Hg. rewrite !max_version_max_list.
  apply Nat.le_antisymm; apply max_list_mono; intros n;
    rewrite !elem_of_listed_versions; intros (key & df & Hin & Hv);
    exists key, df; (split; [|done]);
    destruct (Hg key) as [Heq|[Hnone Hun]]; congruence.
Qed.

Lemma take_existing_deletes blob w :
  version_of_blob (BUCKET_2 E) (BUCKET_2 E, blob) = None →
  ∃ w', take_existing raises E blob (gcs w !! (BUCKET_2 E, blob)) w
          = ([], w', inr (default DataFrame_ (gcs w !! (BUCKET_2 E, blob))))
        ∧ without_unversioned (BUCKET_2 E) (gcs w) (gcs w')
        ∧ gcs w' !! (BUCKET_2 E, blob) = None.
Proof.
  intros Hblob. unfold take_existing.
  destruct (gcs w !! (BUCKET_2 E, blob)) as [df|] eqn:Hin.
  - unfold bind, delete_blob_from_gcs, ret.
    destruct (Hcalls blob) as (_ & -> & _). rewrite Hin. cbn.
    eexists. split; [done|]. cbn. split.
    + by apply without_unversioned_delete.
    + apply lookup_delete_eq.
  - exists w. split; [done|]. split; [reflexivity|done].
Qed.

Lemma read_csv_from_gcs_reads bucket blob w :
  raises (gcs_read bucket blob) = false →
  read_csv_from_gcs raises bucket blob w = ([], w, inr (gcs w !! (bucket, blob))).
Proof. intros Hr. unfold read_csv_from_gcs. by rewrite Hr. Qed.

(** Step 2 removes at most data.csv. *)
Lemma load_data_csv_keeps_versions w :
  ∃ w' csv1_df,
    load_data_csv raises E w = ([], w', inr csv1_df)
    ∧ without_unversioned (BUCKET_2 E) (gcs w) (gcs w')
    ∧ ∀ key, gcs w !! key = None → gcs w' !! key = None.
Proof.
  unfold load_data_csv, bind, read_csv_from_gcs, delete_blob_from_gcs, ret.
  destruct (raises (gcs_read (BUCKET_1 E) "data.csv")).
  { exists w, DataFrame_. split; [done|]. split; [reflexivity|done]. }
  destruct (gcs w !! (BUCKET_1 E, "data.csv")) as [df|] eqn:Hin.
  2:{ exists w, DataFrame_. split; [done|]. split; [reflexivity|done]. }
  destruct (raises (gcs_delete (BUCKET_1 E) "data.csv")).
  { eexists w, _. split; [done|]. split; [reflexivity|done]. }
  rewrite Hin. cbn. eexists _, _. split; [done|]. cbn. split.
  - apply without_unversioned_delete, unversioned_data_csv.
  - intros key Hkey. destruct (decide (key = (BUCKET_1 E, "data.csv"))) as [->|Hne].
    + apply lookup_delete_eq.
    + by rewrite lookup_delete_ne.
Qed.

(** Step 3 does not touch the blobs. *)
Lemma read_mongodb_collection_keeps_blobs w :
  ∃ w' csv2_df,
    read_mongodb_collection raises w = ([], w', inr csv2_df) ∧ gcs w' = gcs w.
Proof.
  unfold read_mongodb_collection.
  destruct (raises mongo_find); [by eexists _, _|].
  destruct (collection_2 w); [by eexists _, _|].
  destruct (raises mongo_delete_many); [by eexists _, _|].
  destruct (raises mongo_close); by eexists _, _.
Qed.

(** Steps 1 to 3: the buffer is handed over whole and is gone from the
    store; the files of the versions are as they were. *)
Lemma read_inputs_takes_buffer w :
  ∃ w' csv1_df csv2_df,
    read_inputs raises E w
    = ([], w', inr (default DataFrame_ (gcs w !! (BUCKET_2 E, instream_train)),
                    default DataFrame_ (gcs w !! (BUCKET_2 E, instream_valid)),
                    csv1_df, csv2_df))
    ∧ without_unversioned (BUCKET_2 E) (gcs w) (gcs w')
    ∧ gcs w' !! (BUCKET_2 E, instream_train) = None
    ∧ gcs w' !! (BUCKET_2 E, instream_valid) = None.
Proof.
  unfold read_inputs.
  destruct (Hcalls instream_train) as (Hrt & _).
  destruct (Hcalls instream_valid) as (Hrv & _).
  unfold bind at 1. rewrite read_csv_from_gcs_reads by done.
  unfold bind at 1. rewrite read_csv_from_gcs_reads by done.
  destruct (take_existing_deletes instream_train w unversioned_instream_train)
    as (w1 & Ht & Hw1 & Hnt).
  unfold bind at 1. rewrite Ht.
  assert (Hv1 : gcs w !! (BUCKET_2 E, instream_valid)
                = gcs w1 !! (BUCKET_2 E, instream_valid)).
  { clear -Ht. unfold take_existing in Ht.
    destruct (gcs w !! (BUCKET_2 E, instream_train)); [|by injection Ht as <-].
    unfold bind, delete_blob_from_gcs, ret in Ht.
    destruct (raises _); [by injection Ht as <-|].
    destruct (gcs w !! (BUCKET_2 E, instream_train)); [|by injection Ht as <-].
    injection Ht as <-. cbn. by rewrite lookup_delete_ne. }
  rewrite Hv1.
  destruct (take_existing_deletes instream_valid w1 unversioned_instream_valid)
    as (w2 & Hv & Hw2 & Hnv).
  unfold bind at 1. rewrite Hv.
  destruct (load_data_csv_keeps_versions w2) as (w3 & csv1_df & Hcsv1 & Hw3 & Hnone3).
  unfold bind at 1. rewrite Hcsv1.
  destruct (read_mongodb_collection_keeps_blobs w3) as (w4 & csv2_df & Hcsv2 & Hw4).
  unfold bind at 1. rewrite Hcsv2. cbn.
  exists w4, csv1_df, csv2_df. split; [done|]. rewrite Hw4. split; [|split].
  - by repeat (etrans; [eassumption|]).
  - apply Hnone3. destruct (Hw2 (BUCKET_2 E, instream_train)) as [->|[? _]]; done.
  - by apply Hnone3.
Qed.

Lemma threshold_check
    w train1_df valid1_df csv1_df csv2_df merged_df preprocessed_df :
  result (read_inputs raises E w) = inr (train1_df, valid1_df, csv1_df, csv2_df) →
  merge_sources csv1_df csv2_df = Some merged_df →
  preprocess_data E (price_last merged_df) = inr preprocessed_df →
  let final_train_df := merge_existing train1_df (split E preprocessed_df).1 in
  let final_valid_df := merge_existing valid1_df (split E preprocessed_df).2 in
  let latest := max_version (listed_versions (BUCKET_2 E) (gcs w)) in
  let r := main raises E w in
  train1_df = default DataFrame_ (gcs w !! (BUCKET_2 E, instream_train)) ∧
  valid1_df = default DataFrame_ (gcs w !! (BUCKET_2 E, instream_valid)) ∧
  (BATCH_SIZE E ≤ len final_train_df →
   result r = inr (CreatedVersion (latest + 1)) ∧
   gcs (world r) !! (BUCKET_2 E, versioned_train (latest + 1)) = Some final_train_df ∧
   gcs (world r) !! (BUCKET_2 E, versioned_valid (latest + 1)) = Some final_valid_df ∧
   gcs (world r) !! (BUCKET_2 E, instream_train) = None ∧
   gcs (world r) !! (BUCKET_2 E, instream_valid) = None) ∧
  (len final_train_df < BATCH_SIZE E →
   result r = inr UploadedToInstream ∧
   gcs (world r) !! (BUCKET_2 E, instream_train) = Some final_train_df ∧
   gcs (world r) !! (BUCKET_2 E, instream_valid) = Some final_valid_df ∧
   ∀ key, version_of_blob (BUCKET_2 E) key ≠ None → gcs (world r) !! key = gcs w !! key).
Proof.
  intros Hinputs Hmerge Hpre final_train_df final_valid_df latest r.
  destruct (read_inputs_takes_buffer w)
    as (w1 & csv1 & csv2 & Hread & Hw1 & Hnt & Hnv).
  rewrite Hread in Hinputs. cbn [result snd] in Hinputs.
  injection Hinputs as <- <- -> ->.
  split; [done|]. split; [done|].
  assert (Hne : ∀ key key', version_of_blob (BUCKET_2 E) key = None →
                  version_of_blob (BUCKET_2 E) key' ≠ None → key ≠ key')
    by (intros key key' H1 H2 ->; done).
  pose proof unversioned_instream_train as Hut.
  pose proof unversioned_instream_valid as Huv.
  assert (Hmain : r =
    if decide (BATCH_SIZE E ≤ len final_train_df)
    then create_version raises E final_train_df final_valid_df w1
    else upload_to_instream raises E final_train_df final_valid_df w1).
  { subst r. unfold main. unfold bind at 1. rewrite Hread, Hmerge. cbn zeta.
    rewrite Hpre. destruct (split E preprocessed_df) as [new_train_df new_valid_df]. cbn [fst snd] in *.
    subst final_train_df final_valid_df.
    destruct (decide _);
      match goal with |- context [?m w1] => by destruct (m w1) as [[ev w'] res] end. }
  split.
  - intros Hge. rewrite Hmain, decide_True by done.
    unfold create_version, bind, get_latest_version, upload_csv_to_gcs, ret.
    destruct (Hcalls (versioned_train (latest + 1))) as (_ & _ & Hup_t & Hlist).
    destruct (Hcalls (versioned_valid (latest + 1))) as (_ & _ & Hup_v & _).
    rewrite Hlist, (without_unversioned_max_version _ _ Hw1). fold latest.
    rewrite Hup_t, Hup_v. cbn [result world fst snd set_gcs gcs].
    split; [done|].
    pose proof (version_of_versioned_train (BUCKET_2 E) (latest + 1)) as Hvt.
    pose proof (version_of_versioned_valid (BUCKET_2 E) (latest + 1)) as Hvv.
    split; [|split; [|split]].
    + rewrite lookup_insert_ne, lookup_insert_eq; [done|].
      intros Heq. apply (f_equal snd) in Heq. cbn [snd] in Heq.
      by apply eq_sym, versioning_facts.versioned_train_ne_valid in Heq.
    + by rewrite lookup_insert_eq.
    + rewrite !lookup_insert_ne; [done|..]; apply not_eq_sym, Hne; congruence.
    + rewrite !lookup_insert_ne; [done|..]; apply not_eq_sym, Hne; congruence.
  - intros Hlt. rewrite Hmain, decide_False by lia.
    unfold upload_to_instream, bind, upload_csv_to_gcs, ret.
    destruct (Hcalls instream_train) as (_ & _ & -> & _).
    destruct (Hcalls instream_valid) as (_ & _ & -> & _).
    cbn [result world fst snd set_gcs gcs].
    split; [done|]. split; [|split].
    + rewrite lookup_insert_ne, lookup_insert_eq; [done|]. intros [=].
    + by rewrite lookup_insert_eq.
    + intros key Hkey. rewrite !lookup_insert_ne by (apply Hne; done).
      destruct (Hw1 key) as [->|[_ ?]]; done.
Qed.

(** Step 7 puts the new rows after the buffer. *)
Lemma merge_existing_buffer_then_new existing new :
  merge_existing existing new = buffer_then_new existing new.
Proof.
  unfold merge_existing, buffer_then_new. destruct (empty existing); [done|].
  unfold concat. cbn [negb map List.concat]. by rewrite app_nil_r.
Qed.

(** C5, as amended: in a run whose calls on the store succeed and that
    reaches the threshold check, the merged parts are the buffer that was
    found followed by the newly split rows; at or above the batch size
    they are published as the next version and no buffer is left; below
    it they are written back as the buffer and the files of the versions
    are as they were. *)
Theorem threshold_decides_between_version_and_buffer w new_train_df new_valid_df :
  new_parts raises E w = Some (new_train_df, new_valid_df) →
  let latest := max_version (listed_versions (BUCKET_2 E) (gcs w)) in
  let final_train_df :=
    buffer_then_new (default DataFrame_ (gcs w !! (BUCKET_2 E, instream_train)))
                    new_train_df in
  let final_valid_df :=
    buffer_then_new (default DataFrame_ (gcs w !! (BUCKET_2 E, instream_valid)))
                    new_valid_df in
  let r := main raises E w in
  (BATCH_SIZE E ≤ len final_train_df →
   result r = inr (CreatedVersion (latest + 1)) ∧
   gcs (world r) !! (BUCKET_2 E, versioned_train (latest + 1)) = Some final_train_df ∧
   gcs (world r) !! (BUCKET_2 E, versioned_valid (latest + 1)) = Some final_valid_df ∧
   gcs (world r) !! (BUCKET_2 E, instream_train) = None ∧
   gcs (world r) !! (BUCKET_2 E, instream_valid) = None) ∧
  (len final_train_df < BATCH_SIZE E →
   result r = inr UploadedToInstream ∧
   gcs (world r) !! (BUCKET_2 E, instream_train) = Some final_train_df ∧
   gcs (world r) !! (BUCKET_2 E, instream_valid) = Some final_valid_df ∧
   ∀ key, version_of_blob (BUCKET_2 E) key ≠ None → gcs (world r) !! key = gcs w !! key).
Proof.
  unfold new_parts. intros Hparts.
  destruct (result (read_inputs raises E w))
    as [|[[[train1_df valid1_df] csv1_df] csv2_df]] eqn:Hinputs; [done|].
  destruct (merge_sources csv1_df csv2_df) as [merged_df|] eqn:Hmerge; [|done].
  destruct (preprocess_data E (price_last merged_df)) as [|preprocessed_df] eqn:Hpre; [done|].
  assert (Hsplit : split E preprocessed_df = (new_train_df, new_valid_df)) by congruence.
  destruct (threshold_check w _ _ _ _ _ _ Hinputs Hmerge Hpre)
    as (Ht & Hv & Hge & Hlt).
  rewrite Hsplit in Hge, Hlt. cbn [fst snd] in Hge, Hlt.
  rewrite !merge_existing_buffer_then_new, Ht, Hv in Hge, Hlt.
  cbn zeta. split; [exact Hge|exact Hlt].
Qed.
End run.

(** C5 fails as stated: the run below merges four train rows, the batch
    size is 2, and its uploads raise; it returns as if it had created
    version 1, but no version is in the store, nor is the buffer. *)
Lemma failed_uploads_publish_nothing :
  let w := examples.buffer_and_documents in
  let r := main uploads_fail examples.env w in
  (len <$> (fst <$> merged_parts uploads_fail examples.env w)) = Some 4 ∧
  BATCH_SIZE examples.env = 2 ∧
  result r = inr (CreatedVersion 1) ∧
  map_to_list (gcs (world r)) = [].
Proof. repeat split; vm_compute; reflexivity. Qed.

Lemma threshold_decides_between_version_and_buffer_witness :
  let w := examples.buffer_and_documents in
  let E := examples.env in
  store_calls_succeed no_faults E ∧
  ∃ new_train_df new_valid_df,
    new_parts no_faults E w = Some (new_train_df, new_valid_df) ∧
    let final_train_df := buffer_then_new (examples.frame 1) new_train_df in
    len new_train_df = 3 ∧ len final_train_df = 4 ∧
    BATCH_SIZE E ≤ len final_train_df ∧
    result (main no_faults E w) = inr (CreatedVersion 1) ∧
    gcs (world (main no_faults E w)) !! (BUCKET_2 E, versioned_train 1) = Some final_train_df ∧
    gcs (world (main no_faults E w)) !! (BUCKET_2 E, instream_train) = None.
Proof.
  intros w E.
  assert (Hcalls : store_calls_succeed no_faults E) by (intros blob; repeat split).
  split; [exact Hcalls|].
  destruct (new_parts no_faults E w) as [[new_train_df new_valid_df]|] eqn:Hparts;
    [|vm_compute in Hparts; discriminate Hparts].
  exists new_train_df, new_valid_df. split; [reflexivity|]. intros final_train_df.
  assert (Hnew : len new_train_df = 3).
  { vm_compute in Hparts. injection Hparts as <- _. reflexivity. }
  assert (Hlen : len final_train_df = 4).
  { subst final_train_df. vm_compute in Hparts. injection Hparts as <- _. reflexivity. }
  assert (Hge : BATCH_SIZE E ≤ len final_train_df) by (rewrite Hlen; vm_compute; lia).
  split; [exact Hnew|]. split; [exact Hlen|]. split; [exact Hge|].
  destruct (threshold_decides_between_version_and_buffer no_faults E Hcalls w
              new_train_df new_valid_df Hparts) as (Hpublish & _).
  destruct (Hpublish Hge) as (Hres & Htrain & _ & Hinstream & _).
  assert (Hlatest : max_version (listed_versions (BUCKET_2 E) (gcs w)) + 1 = 1)
    by (vm_compute; reflexivity).
  rewrite Hlatest in Hres, Htrain. auto.
Defined.
End producer_facts.

Module producer_examples.
Import pd cronjob.

(** C4 at the failing input: the buffer holds rows and the two sources
    yield nothing.  The run deletes the two files of the buffer and
    returns at "No new data to process": nothing is left in the store. *)
Theorem buffer_is_lost_when_sources_are_empty :
  let w := examples.buffer_only in
  let r := main no_faults examples.env w in
  gcs w !! ("datasets", instream_train) = Some (examples.frame 1) ∧
  gcs w !! ("datasets", instream_valid) = Some (examples.frame 2) ∧
  result r = inr NoNewData ∧
  map_to_list (gcs (world r)) = [].
Proof. repeat split; vm_compute; reflexivity. Qed.
End producer_examples.

(** * Further properties of the two jobs *)

(** ** The latest version *)

Module latest_version_facts.
Import cronjob.

(** Writing a blob of version [m] raises the latest version to [m] at most. *)
Lemma max_version_insert_le (bucket : string) (g : gmap (string * string) pd.DataFrame)
    (key : string * string) (df : pd.DataFrame) (m : nat) :
  version_of_blob bucket key = Some m →
  max_version (listed_versions bucket (<[key:=df]> g))
  ≤ m `max` max_version (listed_versions bucket g).
Proof.
  intros Hkey. rewrite (max_version_max_list (listed_versions bucket (<[key:=df]> g))).
  destruct (decide (listed_versions bucket (<[key:=df]> g) = [])) as [->|Hne]; [simpl; lia|].
  pose proof (max_list_elem_of _ Hne) as Hin.
  apply elem_of_listed_versions in Hin as (k & d & Hk & Hv).
  destruct (decide (k = key)) as [->|Hkne].
  - rewrite Hkey in Hv. injection Hv as <-. lia.
  - rewrite lookup_insert_ne in Hk by done.
    pose proof (listed_le_max_version bucket g k d _ Hk Hv). lia.
Qed.

(** X1: the latest version the two jobs read is the greatest number in
    a listed name [versioned/v<N>/...] of the bucket, a number some blob
    carries, or 0 when none does; it is 0 when the listing raises. *)
Theorem latest_version_is_the_greatest_listed raises bucket w :
  ∃ n, get_latest_version raises bucket w = ([], w, inr n) ∧
       train.get_latest_version_from_gcs raises bucket w = ([], w, inr n) ∧
       (raises (gcs_list bucket) = true → n = 0) ∧
       (raises (gcs_list bucket) = false →
        (∀ key df m, gcs w !! key = Some df → version_of_blob bucket key = Some m → m ≤ n) ∧
        (n = 0 ∨ ∃ key df, gcs w !! key = Some df ∧ version_of_blob bucket key = Some n)).
Proof.
  unfold get_latest_version, train.get_latest_version_from_gcs.
  destruct (raises (gcs_list bucket)).
  { exists 0. repeat split; done. }
  eexists. split; [done|]. split; [done|]. split; [done|]. intros _. split.
  - intros key df m Hin Hv. by eapply listed_le_max_version.
  - destruct (decide (listed_versions bucket (gcs w) = [])) as [->|Hne]; [by left|right].
    apply elem_of_listed_versions. rewrite max_version_max_list.
    by apply max_list_elem_of.
Qed.

End latest_version_facts.

(** ** A producer run, whatever calls raise *)

Module producer_run_facts.
Import pd cronjob producer.

Section any_faults.
Context (raises : Call → bool) (E : Env).
Implicit Types (w : World).

(** Step 1 for one file of the buffer: at most that file is removed. *)
Lemma take_existing_keeps_versions blob df w :
  version_of_blob (BUCKET_2 E) (BUCKET_2 E, blob) = None →
  ∃ w', take_existing raises E blob df w = ([], w', inr (default DataFrame_ df))
        ∧ without_unversioned (BUCKET_2 E) (gcs w) (gcs w').
Proof.
  intros Hblob. destruct df as [df|]; cbn [take_existing default].
  2:{ exists w. split; [done|reflexivity]. }
  unfold bind, delete_blob_from_gcs, ret.
  destruct (raises (gcs_delete (BUCKET_2 E) blob)).
  { exists w. split; [done|reflexivity]. }
  destruct (gcs w !! (BUCKET_2 E, blob)).
  - eexists. split; [done|]. cbn. by apply producer_facts.without_unversioned_delete.
  - exists w. split; [done|reflexivity].
Qed.

(** Steps 1 to 3 never raise, print nothing, and leave the files of the
    versions as they are. *)
Lemma read_inputs_keeps_versions w :
  ∃ w1 inputs,
    read_inputs raises E w = ([], w1, inr inputs)
    ∧ without_unversioned (BUCKET_2 E) (gcs w) (gcs w1).
Proof.
  unfold read_inputs.
  assert (Hread : ∀ bucket blob w0, ∃ df,
            read_csv_from_gcs raises bucket blob w0 = ([], w0, inr df)).
  { intros bucket blob w0. unfold read_csv_from_gcs.
    destruct (raises _); eauto. }
  destruct (Hread (BUCKET_2 E) instream_train w) as [t Ht].
  unfold bind at 1. rewrite Ht.
  destruct (Hread (BUCKET_2 E) instream_valid w) as [v Hv].
  unfold bind at 1. rewrite Hv.
  destruct (take_existing_keeps_versions instream_train t w
              (producer_facts.unversioned_instream_train E)) as (w1 & H1 & Hw1).
  unfold bind at 1. rewrite H1.
  destruct (take_existing_keeps_versions instream_valid v w1
              (producer_facts.unversioned_instream_valid E)) as (w2 & H2 & Hw2).
  unfold bind at 1. rewrite H2.
  destruct (producer_facts.load_data_csv_keeps_versions raises E w2)
    as (w3 & csv1_df & H3 & Hw3 & _).
  unfold bind at 1. rewrite H3.
  destruct (producer_facts.read_mongodb_collection_keeps_blobs raises w3)
    as (w4 & csv2_df & H4 & Hw4).
  unfold bind at 1. rewrite H4. cbn.
  eexists _, _. split; [done|]. rewrite Hw4.
  by repeat (etrans; [eassumption|]).
Qed.

(** [main] from Step 4 on, in the store Steps 1 to 3 leave. *)
Lemma main_after_inputs w :
  ∃ w1 train1_df valid1_df csv1_df csv2_df,
    read_inputs raises E w = ([], w1, inr (train1_df, valid1_df, csv1_df, csv2_df))
    ∧ without_unversioned (BUCKET_2 E) (gcs w) (gcs w1)
    ∧ main raises E w =
      match merge_sources csv1_df csv2_df with
      | None => ([], w1, inr NoNewData)
      | Some merged_df =>
          match preprocess_data E (price_last merged_df) with
          | inl e => ([], w1, inl e)
          | inr preprocessed_df =>
              let final_train_df := merge_existing train1_df (split E preprocessed_df).1 in
              let final_valid_df := merge_existing valid1_df (split E preprocessed_df).2 in
              if decide (BATCH_SIZE E ≤ len final_train_df)
              then create_version raises E final_train_df final_valid_df w1
              else upload_to_instream raises E final_train_df final_valid_df w1
          end
      end.
Proof.
  destruct (read_inputs_keeps_versions w)
    as (w1 & [[[train1_df valid1_df] csv1_df] csv2_df] & Hread & Hw1).
  exists w1, train1_df, valid1_df, csv1_df, csv2_df.
  split; [done|]. split; [done|].
  unfold main. unfold bind at 1. rewrite Hread.
  destruct (merge_sources csv1_df csv2_df) as [merged_df|]; [|done].
  cbn zeta. destruct (preprocess_data E (price_last merged_df)) as [e|pre]; [done|].
  destruct (split E pre) as [new_train_df new_valid_df]. cbn [fst snd].
  destruct (decide _);
    match goal with |- context [?m w1] => by destruct (m w1) as [[ev w'] res] end.
Qed.

(** The two branches of Steps 8 and 9 return. *)
Lemma create_version_returns train_df valid_df w :
  ∃ w' v, create_version raises E train_df valid_df w = ([], w', inr (CreatedVersion v)).
Proof.
  unfold create_version, bind, get_latest_version, upload_csv_to_gcs, ret.
  destruct (raises (gcs_list _)); cbn;
    repeat match goal with |- context [raises ?c] => destruct (raises c); cbn end;
    by eexists _, _.
Qed.

Lemma upload_to_instream_keeps_versions train_df valid_df w :
  ∃ w', upload_to_instream raises E train_df valid_df w = ([], w', inr UploadedToInstream)
        ∧ ∀ key, version_of_blob (BUCKET_2 E) key ≠ None → gcs w' !! key = gcs w !! key.
Proof.
  pose proof (producer_facts.unversioned_instream_train E) as Ht.
  pose proof (producer_facts.unversioned_instream_valid E) as Hv.
  unfold upload_to_instream, bind, upload_csv_to_gcs, ret.
  destruct (raises (gcs_upload (BUCKET_2 E) instream_train));
    destruct (raises (gcs_upload (BUCKET_2 E) instream_valid)); cbn;
    eexists; (split; [done|]); intros key Hkey; cbn;
    rewrite ?lookup_insert_ne by congruence; done.
Qed.

(** X2: whatever other calls raise, a producer run whose listing of the
    versions does not raise leaves every file of a published version in
    the store with its content. *)
Theorem producer_keeps_published_versions w key df :
  raises (gcs_list (BUCKET_2 E)) = false →
  version_of_blob (BUCKET_2 E) key ≠ None →
  gcs w !! key = Some df →
  gcs (world (main raises E w)) !! key = Some df.
Proof.
  intros Hlist Hkey Hin.
  destruct (main_after_inputs w)
    as (w1 & train1_df & valid1_df & csv1_df & csv2_df & _ & Hw1 & ->).
  assert (Hin1 : gcs w1 !! key = Some df).
  { destruct (Hw1 key) as [->|[_ ?]]; done. }
  destruct (merge_sources csv1_df csv2_df) as [merged_df|]; [|done].
  destruct (preprocess_data E (price_last merged_df)) as [e|pre]; [done|].
  cbn zeta. destruct (decide _).
  - by apply (versioning_facts.create_version_listed raises E _ _ w1 Hlist).
  - match goal with |- context [upload_to_instream raises E ?t ?v w1] =>
      destruct (upload_to_instream_keeps_versions t v w1) as (w' & -> & Hkeep) end.
    cbn. by rewrite Hkeep.
Qed.

(** X3: a producer run raises only when the transform does: no failure
    of a client call leaves [main], nothing is printed, and the run ends
    in the store that Steps 1 to 3 left, the buffer and the sources read
    and nothing written back. *)
Theorem producer_raises_only_from_the_transform w e :
  result (main raises E w) = inl e →
  events (main raises E w) = [] ∧
  (e = ValueError "Price column not found in dataframe" ∨ e = KeyError "not in index") ∧
  ∃ train1_df valid1_df csv1_df csv2_df merged_df,
    result (read_inputs raises E w) = inr (train1_df, valid1_df, csv1_df, csv2_df) ∧
    merge_sources csv1_df csv2_df = Some merged_df ∧
    preprocess_data E (price_last merged_df) = inl e ∧
    world (main raises E w) = world (read_inputs raises E w).
Proof.
  destruct (main_after_inputs w)
    as (w1 & train1_df & valid1_df & csv1_df & csv2_df & Hread & _ & ->).
  rewrite Hread.
  destruct (merge_sources csv1_df csv2_df) as [merged_df|] eqn:Hmerge; [|done].
  destruct (preprocess_data E (price_last merged_df)) as [e'|pre] eqn:Hpre.
  - cbn. intros [= ->]. split; [done|]. split.
    + unfold preprocess_data in Hpre.
      destruct (has_column "price" _); [|injection Hpre as <-; by left].
      destruct (foldl _ _ CATEGORICAL_COLS) as [df' feats].
      destruct (select NUMERICAL_COLS df'); [done|]. injection Hpre as <-. by right.
    + eauto 10.
  - cbn zeta. destruct (decide _).
    + match goal with |- context [create_version raises E ?t ?v w1] =>
        destruct (create_version_returns t v w1) as (w' & v' & ->) end. done.
    + match goal with |- context [upload_to_instream raises E ?t ?v w1] =>
        destruct (upload_to_instream_keeps_versions t v w1) as (w' & -> & _) end. done.
Qed.
End any_faults.

End producer_run_facts.

(** ** A consumer run, whatever calls raise *)

Module consumer_run_facts.
Import pd train consumer run_facts.

(** X4: whatever calls raise, a consumer run leaves the blobs and the
    collection as they are, and the runs of the experiment too, but for
    at most one new run in front of them; it trains only in a new run. *)
Theorem consumer_only_adds_a_run raises E w :
  let r := main raises E w in
  gcs (world r) = gcs w ∧ collection_2 (world r) = collection_2 w ∧
  (runs (world r) = runs w ∧ trained (events r) = false
   ∨ ∃ nr, runs (world r) = nr :: runs w).
Proof.
  intros r. subst r.
  destruct (main_outcome raises E w) as (Hg & Hc & [(Hr & Ht & _)|(nr & Hr & _)]); eauto 10.
Qed.

(** X5: when the bucket holds no version, or its listing raises, the
    consumer prints nothing and logs no run; it returns at "No versioned
    data", unless the set-up of the experiment has raised. *)
Theorem no_versions_no_run raises E w :
  raises (gcs_list (BUCKET_2 E)) = true
  ∨ max_version (listed_versions (BUCKET_2 E) (gcs w)) = 0 →
  let r := main raises E w in
  events r = [] ∧ runs (world r) = runs w ∧
  (result r = inr NoVersionedData
   ∨ ∃ c, raises c = true ∧ result r = inl (ClientError c) ∧
          (c = mlflow_get_experiment_by_name ∨ c = mlflow_create_experiment
           ∨ c = mlflow_set_experiment)).
Proof.
  intros HL r. subst r.
  assert (Hexists : ∀ w, experiment_exists w = true →
    raises (gcs_list (BUCKET_2 E)) = true
    ∨ max_version (listed_versions (BUCKET_2 E) (gcs w)) = 0 →
    events (main raises E w) = [] ∧ runs (world (main raises E w)) = runs w ∧
    (result (main raises E w) = inr NoVersionedData
     ∨ ∃ c, raises c = true ∧ result (main raises E w) = inl (ClientError c) ∧
            (c = mlflow_get_experiment_by_name ∨ c = mlflow_create_experiment
             ∨ c = mlflow_set_experiment))).
  { clear w HL. intros w Hexists HL. unfold main, get_or_create_experiment.
    rewrite ?bind_assoc.
    destruct (raises mlflow_get_experiment_by_name) eqn:Hget.
    { rewrite bind_call_raises by done. cbn. eauto 10. }
    rewrite bind_call_returns by done. cbn beta.
    rewrite ?bind_assoc, bind_get_world, Hexists. rewrite ?bind_assoc, bind_ret.
    destruct (raises mlflow_set_experiment) eqn:Hset.
    { rewrite bind_call_raises by done. cbn. eauto 10. }
    rewrite bind_call_returns by done. cbn beta. rewrite bind_get_best.
    destruct (match result (get_best_model_and_version raises w) with
              | inr best => best | inl _ => (None, 0, None) end) as [[model W] prev].
    rewrite bind_get_latest.
    destruct (raises (gcs_list (BUCKET_2 E))) eqn:Hlist.
    { rewrite decide_True by done. cbn. auto. }
    destruct HL as [?|HL0]; [done|]. rewrite decide_True by done. cbn. auto. }
  destruct (experiment_exists w) eqn:He; [by apply Hexists|].
  destruct (raises mlflow_get_experiment_by_name) eqn:Hget.
  { unfold main, get_or_create_experiment.
    rewrite ?bind_assoc, bind_call_raises by done. cbn. eauto 10. }
  destruct (raises mlflow_create_experiment) eqn:Hcreate.
  { unfold main, get_or_create_experiment.
    rewrite ?bind_assoc, bind_call_returns by done. cbn beta.
    rewrite ?bind_assoc, bind_get_world, He.
    rewrite ?bind_assoc, bind_call_raises by done. cbn. eauto 10. }
  rewrite main_creates_experiment by done.
  by apply (Hexists (set_experiment_exists true w)).
Qed.

(** X6: the tag a run writes is the watermark that is read back: after
    a run that completed and ranks best, the watermark is the latest
    version the run found. *)
Theorem completed_best_run_sets_watermark raises E w :
  result (main raises E w) = inr TrainingCompleted →
  best_run (runs (world (main raises E w))) = hd_error (runs (world (main raises E w))) →
  watermark (world (main raises E w))
  = max_version (listed_versions (BUCKET_2 E) (gcs w)).
Proof.
  intros Hres Hbest.
  assert (Hreads : tracking_reads_succeed no_faults) by done.
  destruct (idempotence_facts.best_of_completed raises no_faults E w Hres Hbest Hreads)
    as [_ Hw].
  destruct (main_outcome raises E w) as (Hg & _ & _).
  rewrite Hg in Hw. rewrite <- Hw. unfold watermark, best_of.
  unfold get_best_model_and_version. cbn [result snd].
  match goal with |- _ = (?x).1.2 => by destruct x as [[? ?] ?] end.
Qed.

(** The run from Step 6 on, when there is a range to train on. *)
Lemma main_pending_range raises E w model W prev :
  raises mlflow_get_experiment_by_name = false →
  (experiment_exists w = false → raises mlflow_create_experiment = false) →
  raises mlflow_set_experiment = false →
  raises (gcs_list (BUCKET_2 E)) = false →
  best_of raises w = (model, W, prev) →
  W < max_version (listed_versions (BUCKET_2 E) (gcs w)) →
  let L := max_version (listed_versions (BUCKET_2 E) (gcs w)) in
  main raises E w
  = bind (load_versioned_data raises (BUCKET_2 E) (W + 1) L)
         (fun merged => validate_and_train raises E model (W + 1) L prev merged.1 merged.2)
         (if experiment_exists w then w else set_experiment_exists true w).
Proof.
  intros Hget Hcreate Hset Hlist Hbest HW L.
  assert (Hexists : ∀ w, experiment_exists w = true →
    best_of raises w = (model, W, prev) →
    W < max_version (listed_versions (BUCKET_2 E) (gcs w)) →
    main raises E w
    = bind (load_versioned_data raises (BUCKET_2 E) (W + 1)
              (max_version (listed_versions (BUCKET_2 E) (gcs w))))
           (fun merged => validate_and_train raises E model (W + 1)
              (max_version (listed_versions (BUCKET_2 E) (gcs w))) prev merged.1 merged.2) w).
  { clear w Hcreate Hbest HW L. intros w Hexists Hbest HW.
    unfold main, get_or_create_experiment.
    rewrite ?bind_assoc, bind_call_returns by done. cbn beta.
    rewrite ?bind_assoc, bind_get_world, Hexists. rewrite ?bind_assoc, bind_ret.
    rewrite bind_call_returns by done. cbn beta. rewrite bind_get_best.
    fold (best_of raises w). rewrite Hbest, bind_get_latest, Hlist.
    rewrite decide_False by lia. rewrite decide_False by lia. done. }
  destruct (experiment_exists w) eqn:He; [by apply Hexists|].
  rewrite main_creates_experiment by auto.
  by apply (Hexists (set_experiment_exists true w)).
Qed.

(** X7: a run that reads the model, the watermark [W] and the run id of
    the best run, and finds a latest version [L] above [W], trains that
    model on the versions of [W+1 .. L] that can be read, and on no
    other, after the warnings for the ones that cannot. *)
Theorem consumer_trains_on_the_pending_range raises E w model W prev :
  raises mlflow_get_experiment_by_name = false →
  (experiment_exists w = false → raises mlflow_create_experiment = false) →
  raises mlflow_set_experiment = false →
  raises (gcs_list (BUCKET_2 E)) = false →
  raises mlflow_start_run = false →
  (∀ key, raises (mlflow_log_param key) = false) →
  get_best_model_and_version raises w = ([], w, inr (model, W, prev)) →
  let L := max_version (listed_versions (BUCKET_2 E) (gcs w)) in
  let parts := loaded raises (BUCKET_2 E) (gcs w) (W + 1) L in
  let merged_train := concat (map fst parts) in
  let merged_valid := concat (map snd parts) in
  W < L →
  parts ≠ [] →
  has_column "price" merged_train = true →
  has_column "price" merged_valid = true →
  events (main raises E w)
  = skipped raises (BUCKET_2 E) (gcs w) (W + 1) L ++ width_warning merged_train
    ++ [TrainCall model (rows (drop "price" merged_train)) (column "price" merged_train)].
Proof.
  intros Hget Hcreate Hset Hlist Hstart Hparams Hbest L parts merged_train merged_valid
    HW Hparts Hmt Hmv.
  assert (Hbest' : best_of raises w = (model, W, prev)).
  { unfold best_of. by rewrite Hbest. }
  rewrite (main_pending_range raises E w model W prev) by done.
  set (w1 := if experiment_exists w then w else set_experiment_exists true w).
  assert (Hw1 : gcs w1 = gcs w) by (subst w1; by destruct (experiment_exists w)).
  unfold bind. rewrite loading_facts.load_versioned_data_unfold, Hw1.
  fold L. fold parts. destruct parts as [|part parts'] eqn:Hp; [done|].
  cbn [fst snd]. fold merged_train merged_valid.
  pose proof (validate_and_train_events raises E model (W + 1) L prev
                merged_train merged_valid w1 Hmt Hmv Hstart Hparams) as Hev.
  destruct (validate_and_train _ _ _ _ _ _ _ _ _) as [[ev w'] res].
  cbn [events fst] in *. by rewrite Hev.
Qed.

End consumer_run_facts.

(** ** Cells of a frame *)

Module frame_facts.
Import pd.

Lemma index_of_lookup c cols i : index_of c cols = Some i → cols !! i = Some c.
Proof.
  revert i. induction cols as [|c' cols IH]; intros i; simpl; [done|].
  destruct (String.eqb c c') eqn:Heq.
  - apply String.eqb_eq in Heq. by intros [= <-]; subst.
  - destruct (index_of c cols) as [j|]; simpl; [|done].
    intros [= <-]. simpl. by apply IH.
Qed.

Lemma index_of_is_Some c cols : c ∈ cols → is_Some (index_of c cols).
Proof.
  intros Hin. destruct (index_of c cols) eqn:Hi; [by eexists|].
  by apply pd_facts.index_of_None in Hi.
Qed.

(** A row that tabulates [f] over its header has [f c] under [c]. *)
Lemma cell_tabulate cols (f : string → Value) c :
  cell cols (map f cols) c = if decide (c ∈ cols) then f c else VNaN.
Proof.
  unfold cell. destruct (index_of c cols) as [i|] eqn:Hi.
  - apply index_of_lookup in Hi as Hl.
    rewrite decide_True by (by eapply list_elem_of_lookup_2).
    apply nth_lookup_Some. by rewrite list_lookup_fmap, Hl.
  - apply pd_facts.index_of_None in Hi. by rewrite decide_False.
Qed.

Lemma cell_missing cols row c : c ∉ cols → cell cols row c = VNaN.
Proof. intros Hc. apply pd_facts.index_of_None in Hc. unfold cell. by rewrite Hc. Qed.

(** Writing under column [c] changes the cell of [c] and no other. *)
Lemma cell_insert cols row c i v c' :
  index_of c cols = Some i → length row = length cols →
  cell cols (<[i:=v]> row) c' = if decide (c' = c) then v else cell cols row c'.
Proof.
  intros Hi Hlen. apply index_of_lookup in Hi as Hl.
  assert (Hlt : i < length row).
  { rewrite Hlen. apply lookup_lt_is_Some. by eexists. }
  unfold cell. destruct (decide (c' = c)) as [->|Hne].
  - rewrite Hi. apply nth_lookup_Some. by apply list_lookup_insert_eq.
  - destruct (index_of c' cols) as [j|] eqn:Hj; [|done].
    apply index_of_lookup in Hj. rewrite !nth_lookup.
    rewrite list_lookup_insert_ne; [done|]. intros ->. congruence.
Qed.

Lemma zip_with_map_same {A B C D} (f : B → C → D) (a : A → B) (b : A → C) l :
  zip_with f (map a l) (map b l) = map (fun x => f (a x) (b x)) l.
Proof. induction l as [|x l IH]; simpl; [done|]. by rewrite IH. Qed.

Section rows_of.
Context {A : Type} (cols : list string) (rs : list A).
Implicit Types (T : A → list Value).

Lemma column_map T c :
  column c {| columns := cols; rows := map T rs |} = map (fun r => cell cols (T r) c) rs.
Proof. unfold column. cbn [columns rows]. by rewrite map_map. Qed.

(** [df[c] = h(df[c])] on a column that exists. *)
Lemma assign_existing T c i (h : Value → Value) :
  index_of c cols = Some i →
  assign c (map h (column c {| columns := cols; rows := map T rs |}))
         {| columns := cols; rows := map T rs |}
  = {| columns := cols; rows := map (fun r => <[i := h (cell cols (T r) c)]> (T r)) rs |}.
Proof.
  intros Hi. unfold assign. cbn [columns rows]. rewrite Hi, column_map, map_map.
  by rewrite zip_with_map_same.
Qed.

(** [df[c] = values] for a new column. *)
Lemma assign_new T c (p : A → Value) :
  index_of c cols = None →
  assign c (map p rs) {| columns := cols; rows := map T rs |}
  = {| columns := cols ++ [c]; rows := map (fun r => T r ++ [p r]) rs |}.
Proof.
  intros Hi. unfold assign. cbn [columns rows]. rewrite Hi.
  by rewrite zip_with_map_same.
Qed.

(** Frames side by side. *)
Lemma concat_axis1_map (fs : list (list string * (A → list Value))) :
  fs ≠ [] →
  concat_axis1 (map (fun cf => {| columns := cf.1; rows := map cf.2 rs |}) fs)
  = {| columns := List.concat (map fst fs);
       rows := map (fun r => List.concat (map (fun cf => cf.2 r) fs)) rs |}.
Proof.
  induction fs as [|[cs f] fs IH]; [done|]. intros _.
  destruct fs as [|cf fs].
  - cbn. rewrite app_nil_r. f_equal. apply map_ext. intros r. by rewrite app_nil_r.
  - assert (Hne : cf :: fs ≠ []) by done. specialize (IH Hne).
    change (concat_axis1 (map _ ((cs, f) :: cf :: fs)))
      with (let r := concat_axis1 (map (fun cf => {| columns := cf.1; rows := map cf.2 rs |})
                                       (cf :: fs)) in
            {| columns := cs ++ columns r; rows := zip_with app (map f rs) (rows r) |}).
    cbn zeta. rewrite IH. cbn [columns rows]. by rewrite zip_with_map_same.
Qed.
End rows_of.

Lemma has_column_drop c p df : c ≠ p → has_column c (drop p df) = has_column c df.
Proof.
  intros Hne. apply eq_true_iff_eq. rewrite !pd_facts.has_column_true.
  unfold drop. cbn [columns]. rewrite list_elem_of_filter.
  split; [by intros [_ ?]|by intros ?].
Qed.

(** After [drop], the cells of the other columns are as they were. *)
Lemma cell_drop p df row c :
  c ≠ p →
  cell (filter (fun c' => c' ≠ p) (columns df))
       (map (cell (columns df) row) (filter (fun c' => c' ≠ p) (columns df))) c
  = cell (columns df) row c.
Proof.
  intros Hne. rewrite cell_tabulate. case_decide as Hin; [done|].
  symmetry. apply cell_missing. intros Hc. apply Hin.
  apply list_elem_of_filter. done.
Qed.

End frame_facts.

(** ** The transform is row-wise *)

Module rowwise_facts.
Import pd cronjob transform frame_facts.

Section loops.
Context (E : Env) {A : Type} (cols : list string) (rs : list A).
Implicit Types (T : A → list Value).

(** The loop over the numerical columns: the cells of the columns it
    names, where the frame has them, become numbers; the others stay. *)
Lemma foldl_numerical_step cs T :
  NoDup cs → (∀ r, length (T r) = length cols) →
  ∃ T', foldl (numerical_step E) {| columns := cols; rows := map T rs |} cs
        = {| columns := cols; rows := map T' rs |}
      ∧ (∀ r, length (T' r) = length cols)
      ∧ ∀ r c, cell cols (T' r) c
               = if decide (c ∈ cs ∧ c ∈ cols) then numeric E (cell cols (T r) c)
                 else cell cols (T r) c.
Proof.
  revert T. induction cs as [|c0 cs IH]; intros T Hnd Hlen.
  { exists T. split; [done|]. split; [done|]. intros r c.
    rewrite decide_False; [done|]. intros [Hc _]. inversion Hc. }
  apply NoDup_cons in Hnd as [Hc0 Hnd]. cbn [foldl].
  unfold numerical_step at 2. unfold has_column. cbn [columns].
  destruct (index_of c0 cols) as [i|] eqn:Hi.
  - fold (numeric E). rewrite (assign_existing cols rs T c0 i (numeric E) Hi).
    destruct (IH (fun r => <[i := numeric E (cell cols (T r) c0)]> (T r)) Hnd)
      as (T' & -> & Hlen' & Hcell).
    { intros r. by rewrite length_insert. }
    exists T'. split; [done|]. split; [done|]. intros r c.
    rewrite Hcell, !(cell_insert cols (T r) c0 i) by done.
    assert (Hin0 : c0 ∈ cols) by (eapply list_elem_of_lookup_2, index_of_lookup, Hi).
    destruct (decide (c = c0)) as [->|Hne].
    + rewrite decide_False by (by intros [? _]). rewrite decide_True; [done|].
      split; [apply elem_of_cons; by left|done].
    + destruct (decide (c ∈ cs ∧ c ∈ cols)) as [[? ?]|Hn].
      * rewrite decide_True; [done|]. split; [apply elem_of_cons; by right|done].
      * rewrite decide_False; [done|]. intros [Hc ?]. apply Hn.
        apply elem_of_cons in Hc as [?|?]; done.
  - destruct (IH T Hnd Hlen) as (T' & -> & Hlen' & Hcell).
    exists T'. split; [done|]. split; [done|]. intros r c. rewrite Hcell.
    apply pd_facts.index_of_None in Hi.
    destruct (decide (c ∈ cs ∧ c ∈ cols)) as [[? ?]|Hn].
    + rewrite decide_True; [done|]. split; [apply elem_of_cons; by right|done].
    + rewrite decide_False; [done|]. intros [Hc ?]. apply Hn.
      apply elem_of_cons in Hc as [->|?]; done.
Qed.

(** The loop over the categorical columns: one frame of slots for each
    column the frame has; the cells of the other columns stay. *)
Lemma foldl_categorical_step cs T feats :
  NoDup cs → (∀ r, length (T r) = length cols) →
  ∃ T', foldl (categorical_step E) ({| columns := cols; rows := map T rs |}, feats) cs
        = ({| columns := cols; rows := map T' rs |},
           feats ++ map (hashed_df E cols rs T) (filter (fun c => c ∈ cols) cs))
      ∧ (∀ r, length (T' r) = length cols)
      ∧ ∀ r c, c ∉ cs → cell cols (T' r) c = cell cols (T r) c.
Proof.
  revert T feats. induction cs as [|c0 cs IH]; intros T feats Hnd Hlen.
  { exists T. cbn. by rewrite app_nil_r. }
  apply NoDup_cons in Hnd as [Hc0 Hnd]. cbn [foldl].
  unfold categorical_step at 2. unfold has_column. cbn [columns].
  destruct (index_of c0 cols) as [i|] eqn:Hi.
  - set (h := fun v => fillna (VStr "unknown") (astype_str E v)).
    rewrite (assign_existing cols rs T c0 i h Hi).
    set (T1 := fun r => <[i := h (cell cols (T r) c0)]> (T r)).
    assert (Hlen1 : ∀ r, length (T1 r) = length cols).
    { intros r. unfold T1. by rewrite length_insert. }
    assert (Hcell1 : ∀ r c, cell cols (T1 r) c
                            = if decide (c = c0) then h (cell cols (T r) c0)
                              else cell cols (T r) c).
    { intros r c. unfold T1. by rewrite (cell_insert cols (T r) c0 i). }
    destruct (IH T1 (feats ++ [hashed_df E cols rs T c0]) Hnd Hlen1) as (T' & Heq & Hlen' & Hcell).
    exists T'. split; [|split; [done|]].
    + assert (Hin0 : c0 ∈ cols) by (eapply list_elem_of_lookup_2, index_of_lookup, Hi).
      rewrite filter_cons_True by done. cbn [map].
      rewrite column_map.
      replace (map (fun x => FeatureHasher_transform E (token x))
                   (map (fun r => cell cols (T1 r) c0) rs))
        with (rows (hashed_df E cols rs T c0)).
      2:{ unfold hashed_df. cbn [rows]. rewrite map_map. apply map_ext. intros r.
          rewrite Hcell1, decide_True by done. done. }
      change {| columns := hash_columns c0; rows := rows (hashed_df E cols rs T c0) |}
        with (hashed_df E cols rs T c0).
      rewrite Heq. f_equal. rewrite <- app_assoc. cbn [app]. do 2 f_equal.
      apply map_ext_in. intros c Hc. unfold hashed_df. f_equal.
      apply map_ext. intros r. rewrite Hcell1, decide_False; [done|].
      intros ->. apply Hc0. apply list_elem_of_In in Hc.
      by apply list_elem_of_filter in Hc as [_ ?].
    + intros r c Hc. rewrite Hcell by (intros ?; apply Hc, elem_of_cons; by right).
      rewrite Hcell1, decide_False; [done|]. intros ->. apply Hc, elem_of_cons. by left.
  - destruct (IH T feats Hnd Hlen) as (T' & -> & Hlen' & Hcell).
    apply pd_facts.index_of_None in Hi.
    exists T'. rewrite filter_cons_False by done. split; [done|]. split; [done|].
    intros r c Hc. apply Hcell. intros ?. apply Hc, elem_of_cons. by right.
Qed.
End loops.

Lemma filter_ext_elem {B} (P1 P2 : B → Prop) `{!∀ x, Decision (P1 x)} `{!∀ x, Decision (P2 x)}
    (l : list B) :
  (∀ x, x ∈ l → (P1 x ↔ P2 x)) → filter P1 l = filter P2 l.
Proof.
  induction l as [|x l IH]; intros Hext; [done|].
  rewrite !filter_cons. rewrite IH by (intros y Hy; apply Hext, elem_of_cons; by right).
  apply decide_ext, Hext, elem_of_cons. by left.
Qed.

Lemma numerical_not_categorical :
  Forall (fun c => (c ∉ CATEGORICAL_COLS) ∧ (c ≠ "price")) NUMERICAL_COLS.
Proof. compute_done. Qed.

Lemma categorical_not_numerical :
  Forall (fun c => (c ∉ NUMERICAL_COLS) ∧ (c ≠ "price")) CATEGORICAL_COLS.
Proof. compute_done. Qed.

Lemma price_is_no_feature :
  "price" ∉ NUMERICAL_COLS ++ flat_map hash_columns CATEGORICAL_COLS.
Proof. compute_done. Qed.

Lemma NoDup_NUMERICAL_COLS : NoDup NUMERICAL_COLS.
Proof. compute_done. Qed.

Lemma NoDup_CATEGORICAL_COLS : NoDup CATEGORICAL_COLS.
Proof. compute_done. Qed.

(** The transform in closed form. *)
Lemma preprocess_data_transformed E df :
  preprocess_data E df =
  if has_column "price" df then
    if forallb (fun c => has_column c df) NUMERICAL_COLS
    then inr (transformed E df)
    else inl (KeyError "not in index")
  else inl (ValueError "Price column not found in dataframe").
Proof.
  unfold preprocess_data. destruct (has_column "price" df) eqn:Hprice; [|done].
  set (cols := columns df). set (rs := rows df).
  set (cols1 := filter (fun c' => c' ≠ "price") cols).
  set (T0 := fun r => map (cell cols r) cols1).
  assert (Hdrop : drop "price" df = {| columns := cols1; rows := map T0 rs |}) by reflexivity.
  rewrite Hdrop.
  assert (Hlen0 : ∀ r, length (T0 r) = length cols1).
  { intros r. unfold T0. by rewrite length_map. }
  assert (Hcell0 : ∀ r c, c ≠ "price" → cell cols1 (T0 r) c = cell cols r c).
  { intros r c Hc. by apply (cell_drop "price" df r c). }
  destruct (foldl_numerical_step E cols1 rs NUMERICAL_COLS T0 NoDup_NUMERICAL_COLS Hlen0)
    as (T2 & -> & Hlen2 & Hcell2).
  destruct (foldl_categorical_step E cols1 rs CATEGORICAL_COLS T2 [] NoDup_CATEGORICAL_COLS Hlen2)
    as (T3 & -> & Hlen3 & Hcell3).
  cbn [app].
  assert (Hhas : ∀ c, c ≠ "price" →
            has_column c {| columns := cols1; rows := map T3 rs |} = has_column c df).
  { intros c Hc. rewrite <- (has_column_drop c "price" df Hc). done. }
  unfold select.
  assert (Hall : forallb (fun c => has_column c {| columns := cols1; rows := map T3 rs |})
                   NUMERICAL_COLS
                 = forallb (fun c => has_column c df) NUMERICAL_COLS).
  { pose proof numerical_not_categorical as Hn. revert Hn.
    generalize NUMERICAL_COLS. intros l Hn.
    induction Hn as [|c cs [_ Hc] _ IH]; [done|]. cbn [forallb]. by rewrite Hhas, IH. }
  rewrite Hall. destruct (forallb (fun c => has_column c df) NUMERICAL_COLS) eqn:Hnum; [|done].
  f_equal. unfold reindex. cbn [columns rows]. rewrite map_map.
  set (cats1 := filter (fun c => c ∈ cols1) CATEGORICAL_COLS).
  pose proof categorical_not_numerical as Hcn. rewrite Forall_forall in Hcn.
  pose proof numerical_not_categorical as Hnc. rewrite Forall_forall in Hnc.
  assert (Hcats : cats1 = categorical_present df).
  { apply filter_ext_elem. intros c Hc. destruct (Hcn c Hc) as [_ Hne].
    unfold cols1. rewrite list_elem_of_filter. split; [by intros [_ ?]|by intros ?]. }
  set (fs := (NUMERICAL_COLS, fun r => map (cell cols1 (T3 r)) NUMERICAL_COLS)
             :: map (fun c => (hash_columns c,
                        fun r => FeatureHasher_transform E (str_value E (cell cols1 (T2 r) c))))
                    cats1).
  replace ({| columns := NUMERICAL_COLS;
              rows := map (fun r => map (cell cols1 (T3 r)) NUMERICAL_COLS) rs |}
           :: map (hashed_df E cols1 rs T2) cats1)
    with (map (fun cf : list string * (list Value → list Value) =>
                 {| columns := cf.1; rows := map cf.2 rs |}) fs)
    by (unfold fs; cbn [map fst snd]; by rewrite map_map).
  rewrite concat_axis1_map by done.
  assert (Hpricecol : column "price" df = map (fun r => cell cols r "price") rs) by done.
  rewrite Hpricecol, assign_new.
  2:{ apply pd_facts.index_of_None. unfold fs. cbn [map fst List.concat].
      rewrite map_map. cbn [fst]. rewrite <- flat_map_concat_map.
      intros Hin. apply price_is_no_feature.
      apply elem_of_app in Hin as [?|Hin]; apply elem_of_app; [by left|right].
      apply list_elem_of_In, in_flat_map in Hin as (c & Hc & Hin).
      apply list_elem_of_In, in_flat_map. exists c. split; [|done].
      apply list_elem_of_In. apply list_elem_of_In in Hc.
      by apply list_elem_of_filter in Hc as [_ ?]. }
  unfold transformed. rewrite <- Hcats. f_equal.
  - unfold fs. cbn [map fst List.concat]. rewrite map_map. cbn [fst].
    by rewrite <- flat_map_concat_map, <- app_assoc.
  - apply map_ext. intros r. unfold transform_row, fs. cbn [map snd List.concat].
    rewrite map_map. cbn [snd]. rewrite <- app_assoc.
    f_equal; [|f_equal].
    + apply map_ext_in. intros c Hc. apply list_elem_of_In in Hc.
      destruct (Hnc c Hc) as [Hcat Hne].
      rewrite Hcell3, Hcell2 by done. rewrite decide_True, Hcell0; [done|done|].
      split; [done|].
      assert (Hc1 : has_column c df = true).
      { rewrite forallb_forall in Hnum. by apply Hnum, list_elem_of_In. }
      apply pd_facts.has_column_true in Hc1. unfold cols1.
      apply list_elem_of_filter. done.
    + rewrite flat_map_concat_map. f_equal. apply map_ext_in. intros c Hc.
      apply list_elem_of_In, list_elem_of_filter in Hc as [_ Hc].
      destruct (Hcn c Hc) as [Hnum' Hne].
      rewrite Hcell2, decide_False, Hcell0; [done|done|]. by intros [? _].
Qed.

(** X8: the transform is row-wise.  On a frame with a price column and
    the twelve numerical columns it returns, for each input row, the
    numbers read in the numerical cells (0 where none is read), the slots
    of the text of each categorical column the frame has, and the price
    as it is; without a numerical column it raises [KeyError], without
    the price column [ValueError]. *)
Theorem preprocess_data_is_row_wise E df :
  preprocess_data E df =
  if has_column "price" df then
    if forallb (fun c => has_column c df) NUMERICAL_COLS
    then inr (transformed E df)
    else inl (KeyError "not in index")
  else inl (ValueError "Price column not found in dataframe").
Proof. apply preprocess_data_transformed. Qed.

End rowwise_facts.

(** ** The shape of the transformed frame *)

Module shape_facts.
Import pd cronjob transform frames frame_facts.

Lemma length_FeatureHasher_transform E x :
  length (FeatureHasher_transform E x) = HASH_FEATURES.
Proof. unfold FeatureHasher_transform. by rewrite length_map, length_seq. Qed.

Lemma FeatureHasher_transform_numbers E x :
  Forall (fun v => is_number v = true) (FeatureHasher_transform E x).
Proof.
  unfold FeatureHasher_transform. apply Forall_forall. intros v Hv.
  apply list_elem_of_fmap in Hv as (i & -> & _). by destruct (_ =? _)%Z.
Qed.

Lemma numeric_is_number E v : is_number (numeric E v) = true.
Proof.
  unfold numeric, to_numeric. destruct v as [x|s| |]; try done.
  by destruct (to_number E s).
Qed.

Lemma len_transformed E df : len (transformed E df) = len df.
Proof. unfold transformed, len. cbn [rows]. by rewrite length_map. Qed.

Lemma preprocess_data_len E df out : preprocess_data E df = inr out → len out = len df.
Proof.
  rewrite rowwise_facts.preprocess_data_transformed.
  destruct (has_column "price" df); [|done].
  destruct (forallb _ _); [|done]. intros [= <-]. apply len_transformed.
Qed.

(** The feature part of an output row, when the frame has the four
    categorical columns. *)
Lemma transform_row_features E cols row :
  length (transform_row E cols CATEGORICAL_COLS row) = 53 ∧
  Forall (fun v => is_number v = true) (take 52 (transform_row E cols CATEGORICAL_COLS row)) ∧
  transform_row E cols CATEGORICAL_COLS row !! 52 = Some (cell cols row "price").
Proof.
  unfold transform_row.
  set (nums := map _ NUMERICAL_COLS). set (slots := flat_map _ CATEGORICAL_COLS).
  assert (Hn : length nums = 12) by (unfold nums; by rewrite length_map).
  assert (Hs : length slots = 40).
  { unfold slots. cbn [flat_map CATEGORICAL_COLS]. rewrite !length_app.
    rewrite !length_FeatureHasher_transform. done. }
  split; [|split].
  - rewrite !length_app, Hn, Hs. done.
  - rewrite app_assoc, take_app_length' by (rewrite length_app; lia).
    apply Forall_app. split.
    + unfold nums. apply Forall_forall. intros v Hv.
      apply list_elem_of_fmap in Hv as (c & -> & _). apply numeric_is_number.
    + unfold slots. cbn [flat_map CATEGORICAL_COLS]. rewrite app_nil_r.
      repeat (apply Forall_app; split); apply FeatureHasher_transform_numbers.
  - rewrite app_assoc, lookup_app_r by (rewrite length_app; lia).
    rewrite length_app, Hn, Hs. done.
Qed.

(** X9: on a frame that has the price and the sixteen feature columns,
    the transform returns the 53 columns of the docstring, in their
    order, with one row of 53 cells for each input row; the 52 features
    are numbers and the price column is the input's. *)
Theorem transform_output_has_53_columns E df :
  has_column "price" df = true →
  (∀ c, c ∈ NUMERICAL_COLS ++ CATEGORICAL_COLS → has_column c df = true) →
  ∃ out, preprocess_data E df = inr out ∧
    columns out = NUMERICAL_COLS ++ flat_map hash_columns CATEGORICAL_COLS ++ ["price"] ∧
    width out = 53 ∧ len out = len df ∧
    Forall (fun row => length row = 53 ∧
                       Forall (fun v => is_number v = true) (take 52 row))
           (rows out) ∧
    column "price" out = column "price" df.
Proof.
  intros Hprice Hall. rewrite rowwise_facts.preprocess_data_transformed, Hprice.
  assert (Hnum : forallb (fun c => has_column c df) NUMERICAL_COLS = true).
  { apply forallb_forall. intros c Hc. apply Hall, elem_of_app. left.
    by apply list_elem_of_In. }
  assert (Hcats : categorical_present df = CATEGORICAL_COLS).
  { unfold categorical_present.
    assert (Hin : ∀ c, c ∈ CATEGORICAL_COLS → c ∈ columns df).
    { intros c Hc. apply pd_facts.has_column_true, Hall, elem_of_app. by right. }
    revert Hin. generalize CATEGORICAL_COLS. intros l Hin.
    induction l as [|c l IH]; [done|].
    rewrite filter_cons_True by (apply Hin, elem_of_cons; by left).
    rewrite IH; [done|]. intros c' Hc'. apply Hin, elem_of_cons. by right. }
  rewrite Hnum. eexists. split; [done|]. unfold transformed. rewrite Hcats.
  cbn [columns rows]. split; [done|]. split; [done|].
  split; [unfold len; cbn [rows]; by rewrite length_map|].
  split.
  - apply Forall_forall. intros row Hrow.
    apply list_elem_of_fmap in Hrow as (r & -> & _).
    destruct (transform_row_features E (columns df) r) as (? & ? & _). done.
  - unfold column. cbn [columns rows]. rewrite map_map. apply map_ext. intros r.
    destruct (transform_row_features E (columns df) r) as (_ & _ & Hp).
    unfold cell at 1.
    replace (index_of "price" _) with (Some 52) by (by vm_compute).
    by apply nth_lookup_Some.
Qed.

End shape_facts.

(** ** Draining the collection *)

Module collection_facts.
Import pd pd_records cronjob frame_facts.

Lemma len_drop c df : len (drop c df) = len df.
Proof. unfold len, drop, reindex. cbn [rows]. by rewrite length_map. Qed.

Lemma has_column_drop_same c df : has_column c (drop c df) = false.
Proof.
  apply not_true_is_false. rewrite pd_facts.has_column_true.
  unfold drop. cbn [columns]. rewrite list_elem_of_filter. by intros [? _].
Qed.

Lemma len_from_records docs : len (from_records docs) = length docs.
Proof. unfold len, from_records. cbn [rows]. by rewrite length_map. Qed.

(** The cell of a record under a field is the field's value. *)
Lemma column_from_records docs c :
  column c (from_records docs) = map (fun d => default VNaN (get d c)) docs.
Proof.
  unfold column, from_records. cbn [columns rows]. rewrite map_map.
  apply map_ext_in. intros d Hd. rewrite cell_tabulate.
  case_decide as Hc; [done|]. destruct (get d c) eqn:Hget; [|done].
  exfalso. apply Hc. rewrite pd_facts.elem_of_unique, list_elem_of_In, in_concat.
  exists (keys d). split; [by apply in_map|].
  apply list_elem_of_In. destruct (decide (c ∈ keys d)) as [|Hn]; [done|].
  apply pd_facts.get_None in Hn. congruence.
Qed.

Lemma column_drop c p df : c ≠ p → column c (drop p df) = column c df.
Proof.
  intros Hne. unfold column, drop, reindex. cbn [columns rows]. rewrite map_map.
  apply map_ext. intros row. by apply cell_drop.
Qed.

(** X10: [read_mongodb_collection] never raises and touches nothing but
    the collection.  When find and delete succeed the collection is left
    empty; the frame then has a row for each document, its cells the
    values of the fields, and no [_id] column, unless closing the client
    raises, in which case the documents are gone and the frame is empty.
    When find or delete raises the collection is left as it is. *)
Theorem read_mongodb_collection_drains raises w :
  let r := read_mongodb_collection raises w in
  events r = [] ∧ gcs (world r) = gcs w ∧ runs (world r) = runs w ∧
  ∃ csv2_df, result r = inr csv2_df ∧ has_column "_id" csv2_df = false ∧
    if raises mongo_find || raises mongo_delete_many
    then collection_2 (world r) = collection_2 w ∧ csv2_df = DataFrame_
    else collection_2 (world r) = [] ∧
         if raises mongo_close then collection_2 w ≠ [] → csv2_df = DataFrame_
         else len csv2_df = length (collection_2 w) ∧
              ∀ c, c ≠ "_id" →
                column c csv2_df = map (fun d => default VNaN (get d c)) (collection_2 w).
Proof.
  intros r. subst r. unfold read_mongodb_collection.
  destruct (raises mongo_find) eqn:Hfind.
  { cbn. repeat split; try done. by exists DataFrame_. }
  destruct (collection_2 w) as [|d docs] eqn:Hdocs.
  { cbn. repeat split; try done. exists DataFrame_. rewrite Hdocs.
    destruct (raises mongo_delete_many); [done|]. by destruct (raises mongo_close). }
  destruct (raises mongo_delete_many) eqn:Hdelete.
  { cbn. repeat split; try done. by exists DataFrame_. }
  set (df := from_records (d :: docs)).
  assert (Hdf : has_column "_id" (if has_column "_id" df then drop "_id" df else df) = false).
  { destruct (has_column "_id" df) eqn:Hid; [apply has_column_drop_same|done]. }
  destruct (raises mongo_close) eqn:Hclose.
  { cbn. repeat split; try done. by exists DataFrame_. }
  cbn. repeat split; try done. eexists. split; [done|]. split; [exact Hdf|].
  split; [done|]. split.
  - destruct (has_column "_id" df); rewrite ?len_drop; apply len_from_records.
  - intros c Hc. destruct (has_column "_id" df); rewrite ?column_drop by done;
      apply column_from_records.
Qed.

End collection_facts.

(** ** From the sources to the two parts *)

Module conservation_facts.
Import pd cronjob producer frames.

Lemma len_concat_pair a b : len (concat [a; b]) = len a + len b.
Proof.
  unfold len, concat, reindex. cbn [rows map List.concat].
  by rewrite !length_app, !length_map, Nat.add_0_r.
Qed.

Lemma empty_proper df : proper df → empty df = true → len df = 0.
Proof.
  unfold proper, empty, len. intros Hp.
  destruct (columns df); [by rewrite Hp|]. by destruct (rows df).
Qed.

Lemma len_merge_existing existing new :
  proper existing → len (merge_existing existing new) = len existing + len new.
Proof.
  intros Hp. unfold merge_existing. destruct (empty existing) eqn:He; cbn [negb].
  - by rewrite (empty_proper _ Hp He).
  - apply len_concat_pair.
Qed.

Lemma len_merge_sources csv1_df csv2_df merged_df :
  proper csv1_df → proper csv2_df →
  merge_sources csv1_df csv2_df = Some merged_df →
  len merged_df = len csv1_df + len csv2_df.
Proof.
  intros H1 H2. unfold merge_sources.
  destruct (empty csv1_df) eqn:He1; destruct (empty csv2_df) eqn:He2; cbn [negb andb];
    intros [= <-].
  - rewrite (empty_proper _ H1 He1). done.
  - rewrite (empty_proper _ H2 He2). lia.
  - apply len_concat_pair.
Qed.

Lemma len_price_last df : len (price_last df) = len df.
Proof.
  unfold price_last. destruct (has_column "price" df); [|done].
  unfold len, reindex. cbn [rows]. by rewrite length_map.
Qed.

Lemma len_split E df :
  (∀ rs, length (sample E rs) = length rs) →
  len (split E df).1 + len (split E df).2 = len df.
Proof.
  intros Hsample. unfold split, head, tail, len. cbn [fst snd rows].
  by rewrite <- length_app, take_drop, Hsample.
Qed.

(** X11: no row is lost or made on the way from Step 4 to Step 7: the
    two parts a run has merged hold as many rows as the buffer it took
    and the two sources it read, when the shuffle keeps the number of
    rows and no frame has rows without columns. *)
Theorem producer_conserves_rows raises E w train1_df valid1_df csv1_df csv2_df
    final_train_df final_valid_df :
  (∀ rs, length (sample E rs) = length rs) →
  result (read_inputs raises E w) = inr (train1_df, valid1_df, csv1_df, csv2_df) →
  proper train1_df → proper valid1_df → proper csv1_df → proper csv2_df →
  merged_parts raises E w = Some (final_train_df, final_valid_df) →
  len final_train_df + len final_valid_df
  = len train1_df + len valid1_df + len csv1_df + len csv2_df.
Proof.
  intros Hsample Hinputs Ht Hv H1 H2. unfold merged_parts. rewrite Hinputs.
  destruct (merge_sources csv1_df csv2_df) as [merged_df|] eqn:Hmerge; [|done].
  destruct (preprocess_data E (price_last merged_df)) as [|pre] eqn:Hpre; [done|].
  intros [= <- <-]. rewrite !len_merge_existing by done.
  pose proof (len_split E pre Hsample) as Hsplit.
  apply shape_facts.preprocess_data_len in Hpre. rewrite len_price_last in Hpre.
  apply len_merge_sources in Hmerge; [|done..].
  unfold split in Hsplit. cbn [fst snd] in Hsplit. lia.
Qed.

End conservation_facts.

(** ** From the producer to the consumer *)

Module pipeline_facts.
Import pd cronjob producer.

(** X12: what the producer publishes is what the consumer finds: after
    a run that reaches the batch size, the consumer lists the new number
    as the latest version and reads under it the two parts the producer
    merged. *)
Theorem published_version_is_what_the_consumer_reads raises raises' E w
    final_train_df final_valid_df :
  store_calls_succeed raises E →
  merged_parts raises E w = Some (final_train_df, final_valid_df) →
  BATCH_SIZE E ≤ len final_train_df →
  store_calls_succeed raises' E →
  let latest := max_version (listed_versions (BUCKET_2 E) (gcs w)) in
  let r := main raises E w in
  result r = inr (CreatedVersion (latest + 1)) ∧
  train.get_latest_version_from_gcs raises' (BUCKET_2 E) (world r)
    = ([], world r, inr (latest + 1)) ∧
  consumer.readable raises' (BUCKET_2 E) (gcs (world r)) (latest + 1)
    = Some (final_train_df, final_valid_df).
Proof.
  intros Hcalls Hparts Hge Hcalls' latest r.
  destruct (producer_run_facts.main_after_inputs raises E w)
    as (w1 & train1_df & valid1_df & csv1_df & csv2_df & Hread & Hw1 & Hmain).
  unfold merged_parts in Hparts. rewrite Hread in Hparts. cbn [result snd] in Hparts.
  destruct (merge_sources csv1_df csv2_df) as [merged_df|]; [|done].
  destruct (preprocess_data E (price_last merged_df)) as [|pre]; [done|].
  assert (Ht : merge_existing train1_df (split E pre).1 = final_train_df) by congruence.
  assert (Hv : merge_existing valid1_df (split E pre).2 = final_valid_df) by congruence.
  cbn zeta in Hmain. rewrite Ht, Hv in Hmain.
  rewrite decide_True in Hmain by done.
  subst r. rewrite Hmain.
  destruct (Hcalls (versioned_train (latest + 1))) as (_ & _ & Hup_t & Hlist).
  destruct (Hcalls (versioned_valid (latest + 1))) as (_ & _ & Hup_v & _).
  destruct (Hcalls' (versioned_train (latest + 1))) as (Hr_t & _ & _ & Hlist').
  destruct (Hcalls' (versioned_valid (latest + 1))) as (Hr_v & _).
  pose proof (producer_facts.without_unversioned_max_version E _ _ Hw1) as Hlatest.
  fold latest in Hlatest.
  unfold create_version, bind, get_latest_version, upload_csv_to_gcs, ret.
  rewrite Hlist, Hlatest, Hup_t, Hup_v. cbn [result world fst snd set_gcs gcs].
  split; [done|].
  assert (Hne : (BUCKET_2 E, versioned_valid (latest + 1))
                ≠ (BUCKET_2 E, versioned_train (latest + 1))).
  { intros Heq. apply (f_equal snd) in Heq. cbn [snd] in Heq.
    by apply eq_sym, versioning_facts.versioned_train_ne_valid in Heq. }
  split.
  - unfold train.get_latest_version_from_gcs. rewrite Hlist'. cbn [gcs]. do 2 f_equal.
    apply Nat.le_antisymm.
    + etrans; [apply latest_version_facts.max_version_insert_le,
               version_of_versioned_valid|].
      apply Nat.max_lub; [done|].
      etrans; [apply latest_version_facts.max_version_insert_le,
               version_of_versioned_train|].
      rewrite Hlatest. lia.
    + apply max_version_insert_ge, version_of_versioned_valid.
  - unfold consumer.readable. rewrite Hr_t, Hr_v.
    rewrite lookup_insert_ne, lookup_insert_eq by done.
    by rewrite lookup_insert_eq.
Qed.

End pipeline_facts.

(** ** Step 4 and the transform *)

Module reorder_facts.
Import pd cronjob transform frame_facts.

Lemma cell_price_last df row c :
  has_column "price" df = true →
  cell (filter (fun col => col ≠ "price") (columns df) ++ ["price"])
       (map (cell (columns df) row) (filter (fun col => col ≠ "price") (columns df) ++ ["price"]))
       c
  = cell (columns df) row c.
Proof.
  intros Hprice. apply pd_facts.has_column_true in Hprice.
  rewrite cell_tabulate. case_decide as Hin; [done|].
  symmetry. apply cell_missing. intros Hc. apply Hin, elem_of_app.
  destruct (decide (c = "price")) as [->|Hne].
  - right. apply list_elem_of_here.
  - left. by apply list_elem_of_filter.
Qed.

Lemma columns_price_last df c : c ∈ columns (price_last df) ↔ c ∈ columns df.
Proof.
  unfold price_last. destruct (has_column "price" df) eqn:Hprice; [|done].
  apply pd_facts.has_column_true in Hprice. cbn [columns].
  rewrite elem_of_app, list_elem_of_filter, list_elem_of_singleton. split.
  - intros [[_ ?]| ->]; done.
  - intros Hc. destruct (decide (c = "price")); [by right|by left].
Qed.

(** X23: step 4 of the producer, which moves the price column to the
    end, changes nothing of what the transform returns: the transform of
    the reordered frame is the transform of the frame. *)
Theorem price_last_does_not_change_the_transform E df :
  preprocess_data E (price_last df) = preprocess_data E df.
Proof.
  rewrite !rowwise_facts.preprocess_data_transformed.
  assert (Hhas : ∀ c, has_column c (price_last df) = has_column c df).
  { intros c. apply eq_true_iff_eq. rewrite !pd_facts.has_column_true.
    apply columns_price_last. }
  rewrite Hhas.
  assert (Hall : forallb (fun c => has_column c (price_last df)) NUMERICAL_COLS
                 = forallb (fun c => has_column c df) NUMERICAL_COLS).
  { generalize NUMERICAL_COLS. intros l. induction l as [|c l IH]; [done|].
    cbn [forallb]. by rewrite Hhas, IH. }
  rewrite Hall. destruct (has_column "price" df) eqn:Hprice; [|done].
  destruct (forallb (fun c => has_column c df) NUMERICAL_COLS); [|reflexivity].
  f_equal. unfold transformed.
  assert (Hcats : categorical_present (price_last df) = categorical_present df).
  { unfold categorical_present. apply list_filter_iff. intros c. apply columns_price_last. }
  rewrite Hcats. f_equal.
  unfold price_last. rewrite Hprice. cbn [columns rows]. unfold reindex.
  rewrite map_map. apply map_ext. intros row.
  unfold transform_row. f_equal; [|f_equal].
  - apply map_ext. intros c. by rewrite cell_price_last.
  - apply flat_map_ext. intros c. by rewrite cell_price_last.
  - by rewrite cell_price_last.
Qed.

End reorder_facts.

(** ** The features of the prediction service *)

Module serving_facts.
Import pd pd_records mlapp serving frames frame_facts.

Lemma get_dict_set k v d c :
  get (dict_set k v d) c = if decide (c = k) then Some v else get d c.
Proof.
  induction d as [|[k' v'] d IH]; cbn [dict_set get].
  - destruct (decide (c = k)) as [->|Hne]; [by rewrite String.eqb_refl|].
    by apply String.eqb_neq in Hne as ->.
  - destruct (String.eqb k k') eqn:Hk; cbn [get].
    + apply String.eqb_eq in Hk as <-.
      destruct (decide (c = k)) as [->|Hne]; [by rewrite String.eqb_refl|].
      by apply String.eqb_neq in Hne as ->.
    + rewrite IH. destruct (String.eqb c k') eqn:Hc; [|done].
      apply String.eqb_eq in Hc as ->. apply String.eqb_neq in Hk.
      by rewrite decide_False by done.
Qed.

(** The one-row frame of a record: a column for each key, the value of
    the key in its cell. *)
Lemma from_records_one d :
  ∃ cols row, from_records [d] = {| columns := cols; rows := [row] |}
    ∧ length row = length cols
    ∧ (∀ c, c ∈ cols ↔ get d c ≠ None)
    ∧ ∀ c, cell cols row c = default VNaN (get d c).
Proof.
  eexists _, _. split; [reflexivity|]. split; [by rewrite length_map|].
  assert (Hcols : ∀ c, c ∈ unique (List.concat (map keys [d])) ↔ get d c ≠ None).
  { intros c. cbn [map List.concat]. rewrite app_nil_r, pd_facts.elem_of_unique.
    split.
    - intros Hc Hn. by apply pd_facts.get_None in Hn.
    - intros Hc. destruct (decide (c ∈ keys d)) as [|Hn]; [done|].
      by apply pd_facts.get_None in Hn. }
  split; [done|]. intros c. rewrite cell_tabulate. case_decide as Hc; [done|].
  destruct (get d c) eqn:Hget; [|done]. exfalso. apply Hc, Hcols. congruence.
Qed.

Section loops.
Context (E : Env) (cols : list string).

Lemma assign_one_row row c i (h : Value → Value) :
  index_of c cols = Some i →
  assign c (map h (column c {| columns := cols; rows := [row] |}))
         {| columns := cols; rows := [row] |}
  = {| columns := cols; rows := [<[i := h (cell cols row c)]> row] |}.
Proof.
  intros Hi. exact (assign_existing cols [tt] (fun _ => row) c i h Hi).
Qed.

Lemma foldl_numerical_step_row cs row feats :
  NoDup cs → length row = length cols →
  ∃ row', foldl (numerical_step E) ({| columns := cols; rows := [row] |}, feats) cs
          = ({| columns := cols; rows := [row'] |},
             feats ++ map (fun c => if decide (c ∈ cols)
                                    then transform.numeric E (cell cols row c)
                                    else VNum 0) cs)
        ∧ length row' = length cols
        ∧ ∀ c, c ∉ cs → cell cols row' c = cell cols row c.
Proof.
  revert row feats. induction cs as [|c0 cs IH]; intros row feats Hnd Hlen.
  { exists row. cbn. by rewrite app_nil_r. }
  apply NoDup_cons in Hnd as [Hc0 Hnd]. cbn [foldl].
  unfold numerical_step at 2. unfold has_column. cbn [columns].
  destruct (index_of c0 cols) as [i|] eqn:Hi.
  - fold (transform.numeric E). rewrite (assign_one_row row c0 i _ Hi).
    set (row1 := <[i := transform.numeric E (cell cols row c0)]> row).
    assert (Hlen1 : length row1 = length cols) by (unfold row1; by rewrite length_insert).
    assert (Hcell1 : ∀ c, cell cols row1 c
                          = if decide (c = c0) then transform.numeric E (cell cols row c0)
                            else cell cols row c).
    { intros c. unfold row1. by rewrite (cell_insert cols row c0 i). }
    destruct (IH row1 (feats ++ [values_0 (column c0 {| columns := cols; rows := [row1] |})])
                Hnd Hlen1) as (row' & -> & Hlen' & Hcell).
    assert (Hin0 : c0 ∈ cols) by (eapply list_elem_of_lookup_2, index_of_lookup, Hi).
    exists row'. split; [|split; [done|]].
    + f_equal. rewrite <- app_assoc. f_equal. cbn [map app]. f_equal.
      * rewrite decide_True by done. unfold values_0, column. cbn [columns rows map nth].
        rewrite Hcell1. by destruct (decide (c0 = c0)).
      * apply map_ext_in. intros c Hc. apply list_elem_of_In in Hc.
        rewrite Hcell1. by destruct (decide (c = c0)) as [->|?].
    + intros c Hc. rewrite Hcell by (intros ?; apply Hc, elem_of_cons; by right).
      rewrite Hcell1. destruct (decide (c = c0)) as [->|?]; [|done].
      exfalso. apply Hc, elem_of_cons. by left.
  - destruct (IH row (feats ++ [VNum 0]) Hnd Hlen) as (row' & -> & Hlen' & Hcell).
    apply pd_facts.index_of_None in Hi.
    exists row'. split; [|split; [done|]].
    + f_equal. rewrite <- app_assoc. f_equal. cbn [map app].
      by rewrite decide_False by done.
    + intros c Hc. apply Hcell. intros ?. apply Hc, elem_of_cons. by right.
Qed.

Lemma foldl_categorical_step_row cs row feats :
  foldl (categorical_step E {| columns := cols; rows := [row] |}) feats cs
  = feats ++ flat_map (fun c =>
                if decide (c ∈ cols)
                then cronjob.FeatureHasher_transform E
                       (if isna (cell cols row c) then "unknown"
                        else cronjob.str_value E (cell cols row c))
                else replicate HASH_FEATURES (VNum 0)) cs.
Proof.
  revert feats. induction cs as [|c0 cs IH]; intros feats.
  { cbn. by rewrite app_nil_r. }
  cbn [foldl flat_map]. rewrite IH, app_assoc. f_equal.
  unfold categorical_step, has_column. cbn [columns].
  destruct (index_of c0 cols) as [i|] eqn:Hi.
  - assert (Hin0 : c0 ∈ cols) by (eapply list_elem_of_lookup_2, index_of_lookup, Hi).
    rewrite decide_True by done. unfold values_0, column. cbn [columns rows map nth].
    by destruct (isna (cell cols row c0)).
  - apply pd_facts.index_of_None in Hi. by rewrite decide_False.
Qed.
End loops.

Lemma NoDup_numerical_fields : NoDup NUMERICAL_COLS.
Proof. compute_done. Qed.

Lemma fields_are_not_price :
  Forall (fun c => c ≠ "price") (NUMERICAL_COLS ++ CATEGORICAL_COLS).
Proof. compute_done. Qed.

Lemma categorical_fields_not_numerical :
  Forall (fun c => c ∉ NUMERICAL_COLS) CATEGORICAL_COLS.
Proof. compute_done. Qed.

(** The features in closed form. *)
Lemma preprocess_data_for_prediction_features E data :
  preprocess_data_for_prediction E data = features E data.
Proof.
  unfold preprocess_data_for_prediction.
  destruct (from_records_one (dict_set "price" (VNum 0) data))
    as (cols & row & -> & Hlen & Hcols & Hcell).
  destruct (foldl_numerical_step_row E cols NUMERICAL_COLS row [] NoDup_numerical_fields Hlen)
    as (row' & -> & Hlen' & Hcell').
  rewrite foldl_categorical_step_row. cbn [app]. unfold features.
  pose proof fields_are_not_price as Hnp. rewrite Forall_forall in Hnp.
  pose proof categorical_fields_not_numerical as Hcn. rewrite Forall_forall in Hcn.
  assert (Hget : ∀ c, c ≠ "price" → get (dict_set "price" (VNum 0) data) c = get data c).
  { intros c Hc. by rewrite get_dict_set, decide_False. }
  f_equal.
  - apply map_ext_in. intros c Hc. apply list_elem_of_In in Hc.
    assert (Hne : c ≠ "price") by (apply Hnp, elem_of_app; by left).
    unfold numerical_feature. rewrite Hcell. specialize (Hcols c).
    rewrite Hget in Hcols |- * by done.
    destruct (get data c) as [v|].
    + rewrite decide_True; [done|]. by apply Hcols.
    + rewrite decide_False; [done|]. intros Hin. by apply Hcols in Hin.
  - rewrite !flat_map_concat_map. f_equal. apply map_ext_in. intros c Hc.
    apply list_elem_of_In in Hc.
    assert (Hne : c ≠ "price") by (apply Hnp, elem_of_app; by right).
    unfold categorical_feature. rewrite Hcell' by (by apply Hcn). rewrite Hcell.
    specialize (Hcols c). rewrite Hget in Hcols |- * by done.
    destruct (get data c) as [v|].
    + rewrite decide_True; [done|]. by apply Hcols.
    + rewrite decide_False; [done|]. intros Hin. by apply Hcols in Hin.
Qed.

(** X13: the features of a request are computed field by field: for
    each numerical field the number read in its value, 0 where none is
    read or the field is absent; for each categorical field the slots of
    its text, those of "unknown" where the value is missing, ten zeros
    where the field is absent. *)
Theorem prediction_features_field_by_field E data :
  preprocess_data_for_prediction E data
  = map (numerical_feature E data) NUMERICAL_COLS
    ++ flat_map (categorical_feature E data) CATEGORICAL_COLS.
Proof. apply preprocess_data_for_prediction_features. Qed.

(** X14: whatever the request holds, the service computes 52 features,
    all numbers. *)
Theorem prediction_features_are_52_numbers E data :
  length (preprocess_data_for_prediction E data) = 52 ∧
  Forall (fun v => is_number v = true) (preprocess_data_for_prediction E data).
Proof.
  rewrite preprocess_data_for_prediction_features. unfold features.
  assert (Hcat : ∀ c, length (categorical_feature E data c) = 10 ∧
                      Forall (fun v => is_number v = true) (categorical_feature E data c)).
  { intros c. unfold categorical_feature. destruct (get data c).
    - split; [apply shape_facts.length_FeatureHasher_transform
             |apply shape_facts.FeatureHasher_transform_numbers].
    - split; [done|]. by repeat constructor. }
  split.
  - rewrite length_app, length_map. cbn [flat_map CATEGORICAL_COLS].
    rewrite !length_app. rewrite !(proj1 (Hcat _)). done.
  - apply Forall_app. split.
    + apply Forall_forall. intros v Hv. apply list_elem_of_fmap in Hv as (c & -> & _).
      unfold numerical_feature. destruct (get data c); [|done].
      apply shape_facts.numeric_is_number.
    + cbn [flat_map CATEGORICAL_COLS]. rewrite app_nil_r.
      repeat (apply Forall_app; split); apply Hcat.
Qed.

(** X15: the service computes the features the producer trains on: for
    a record with the sixteen fields and no missing categorical value,
    the producer's transform of the record with a price is the one row of
    the service's features followed by the price. *)
Theorem serving_features_match_the_training_row E data price :
  (∀ c, c ∈ NUMERICAL_COLS ++ CATEGORICAL_COLS → is_Some (get data c)) →
  (∀ c v, c ∈ CATEGORICAL_COLS → get data c = Some v → isna v = false) →
  cronjob.preprocess_data E (from_records [dict_set "price" price data])
  = inr {| columns := cronjob.NUMERICAL_COLS
                      ++ flat_map cronjob.hash_columns cronjob.CATEGORICAL_COLS ++ ["price"];
           rows := [preprocess_data_for_prediction E data ++ [price]] |}.
Proof.
  intros Hall Hcat.
  rewrite rowwise_facts.preprocess_data_transformed.
  destruct (from_records_one (dict_set "price" price data))
    as (cols & row & Hdf & Hlen & Hcols & Hcell).
  pose proof fields_are_not_price as Hnp. rewrite Forall_forall in Hnp.
  assert (Hget : ∀ c, c ≠ "price" → get (dict_set "price" price data) c = get data c).
  { intros c Hc. by rewrite get_dict_set, decide_False. }
  assert (Hhas : ∀ c, c ∈ NUMERICAL_COLS ++ CATEGORICAL_COLS →
                      c ∈ columns (from_records [dict_set "price" price data])).
  { intros c Hc. rewrite Hdf. cbn [columns]. apply Hcols. rewrite Hget by (by apply Hnp).
    destruct (Hall c Hc) as [v ->]. done. }
  assert (Hprice : has_column "price" (from_records [dict_set "price" price data]) = true).
  { apply pd_facts.has_column_true. rewrite Hdf. cbn [columns]. apply Hcols.
    by rewrite get_dict_set, decide_True. }
  rewrite Hprice.
  assert (Hnum : forallb (fun c => has_column c (from_records [dict_set "price" price data]))
                   cronjob.NUMERICAL_COLS = true).
  { apply forallb_forall. intros c Hc. apply pd_facts.has_column_true, Hhas, elem_of_app.
    left. by apply list_elem_of_In. }
  rewrite Hnum. f_equal. unfold transform.transformed.
  assert (Hcats : transform.categorical_present (from_records [dict_set "price" price data])
                  = cronjob.CATEGORICAL_COLS).
  { unfold transform.categorical_present.
    assert (Hin : ∀ c, c ∈ cronjob.CATEGORICAL_COLS →
                       c ∈ columns (from_records [dict_set "price" price data])).
    { intros c Hc. apply Hhas, elem_of_app. by right. }
    revert Hin. generalize cronjob.CATEGORICAL_COLS. intros l Hin.
    induction l as [|c l IH]; [done|].
    rewrite filter_cons_True by (apply Hin, elem_of_cons; by left).
    rewrite IH; [done|]. intros c' Hc'. apply Hin, elem_of_cons. by right. }
  rewrite Hcats, Hdf. cbn [columns rows map]. do 2 f_equal.
  rewrite preprocess_data_for_prediction_features.
  unfold transform.transform_row, features. rewrite <- app_assoc. f_equal; [|f_equal].
  - apply map_ext_in. intros c Hc. apply list_elem_of_In in Hc.
    assert (Hc' : c ∈ NUMERICAL_COLS ++ CATEGORICAL_COLS) by (apply elem_of_app; by left).
    unfold numerical_feature. rewrite Hcell, Hget by (by apply Hnp).
    by destruct (Hall c Hc') as [v ->].
  - rewrite !flat_map_concat_map. f_equal. apply map_ext_in. intros c Hc.
    apply list_elem_of_In in Hc.
    assert (Hc' : c ∈ NUMERICAL_COLS ++ CATEGORICAL_COLS) by (apply elem_of_app; by right).
    unfold categorical_feature. rewrite Hcell, Hget by (by apply Hnp).
    destruct (Hall c Hc') as [v Hv]. rewrite Hv. cbn [default].
    by rewrite (Hcat c v Hc Hv).
  - by rewrite Hcell, get_dict_set, decide_True.
Qed.

End serving_facts.

(** ** Loading the best model *)

Module model_search_facts.
Import mlapp model_search.

Lemma greater_false a b : greater a (Some b) = false → (a <= b)%Q.
Proof.
  unfold greater, train.Qlt_bool. intros H. apply negb_false_iff in H.
  by apply Qle_bool_iff.
Qed.

Lemma greater_true a b : greater a (Some b) = true → (b <= a)%Q.
Proof.
  unfold greater, train.Qlt_bool. intros H. apply negb_true_iff in H.
  apply Qlt_le_weak, Qnot_le_lt. intros Hle. apply Qle_bool_iff in Hle. congruence.
Qed.

Lemma consider_chosen raises seen best e best' :
  chosen seen best → consider raises best e = Some best' → chosen (seen ++ [e]) best'.
Proof.
  intros Hbest. unfold consider.
  assert (Hskip : candidate e = None → chosen (seen ++ [e]) best).
  { intros Hnone. unfold chosen in *.
    destruct (best_run best) as [run|], (best_metric best) as [a|],
      (best_experiment best) as [e0|]; try done.
    - destruct Hbest as (Hin & Hc & Hmax). split; [apply elem_of_app; by left|].
      split; [done|]. intros e' run' a' He'. apply elem_of_app in He' as [He'|He'].
      + by apply Hmax.
      + apply list_elem_of_singleton in He' as ->. by rewrite Hnone.
    - intros e' He'. apply elem_of_app in He' as [He'|He']; [by apply Hbest|].
      by apply list_elem_of_singleton in He' as ->. }
  unfold candidate in Hskip |- *.
  destruct (String.eqb (lifecycle_stage e) "deleted") eqn:Hdel.
  { intros [= <-]. by apply Hskip. }
  destruct (raises (search_runs (experiment_id e))); [done|].
  destruct (train.best_run (experiment_runs e)) as [run|] eqn:Hrun.
  2:{ intros [= <-]. by apply Hskip. }
  destruct (train.lookup_key "accuracy" (metrics run)) as [a|] eqn:Hacc.
  2:{ intros [= <-]. by apply Hskip. }
  assert (Hcand : candidate e = Some (run, a)).
  { unfold candidate. by rewrite Hdel, Hrun, Hacc. }
  clear Hskip. unfold chosen in *.
  destruct (best_run best) as [run0|] eqn:Hr, (best_metric best) as [a0|] eqn:Hm,
    (best_experiment best) as [e0|] eqn:He0; try done.
  - destruct Hbest as (Hin & Hc & Hmax).
    destruct (greater a (Some a0)) eqn:Hgt; intros [= <-]; cbn.
    + split; [apply elem_of_app; right; by apply list_elem_of_singleton|].
      split; [done|]. intros e' run' a' He' Hc'.
      apply elem_of_app in He' as [He'|He'].
      * eapply Qle_trans; [by eapply Hmax|]. by apply greater_true.
      * apply list_elem_of_singleton in He' as ->.
        rewrite Hcand in Hc'. injection Hc' as <- <-. apply Qle_refl.
    + rewrite Hr, Hm, He0. split; [apply elem_of_app; by left|]. split; [done|].
      intros e' run' a' He' Hc'. apply elem_of_app in He' as [He'|He'].
      * by eapply Hmax.
      * apply list_elem_of_singleton in He' as ->.
        rewrite Hcand in Hc'. injection Hc' as <- <-. by apply greater_false.
  - cbn. intros [= <-]. cbn.
    split; [apply elem_of_app; right; by apply list_elem_of_singleton|].
    split; [done|]. intros e' run' a' He' Hc'.
    apply elem_of_app in He' as [He'|He'].
    + by rewrite Hbest in Hc'.
    + apply list_elem_of_singleton in He' as ->.
      rewrite Hcand in Hc'. injection Hc' as <- <-. apply Qle_refl.
Qed.

Lemma search_chosen raises seen best experiments best' :
  chosen seen best → search raises best experiments = Some best' →
  chosen (seen ++ experiments) best'.
Proof.
  revert seen best. induction experiments as [|e es IH]; intros seen best Hbest.
  { cbn. intros [= <-]. by rewrite app_nil_r. }
  cbn [search]. destruct (consider raises best e) as [best1|] eqn:Hc; [|done].
  intros Hs. replace (seen ++ e :: es) with ((seen ++ [e]) ++ es)
    by (by rewrite <- app_assoc).
  eapply IH; [|done]. by eapply consider_chosen.
Qed.

(** X16: after [load_best_model_from_mlflow] a model is loaded only
    from the first run of an experiment that is not deleted, whose
    accuracy no such run of any experiment exceeds, and the experiment
    name and run id are that experiment's and that run's; with no model
    loaded the experiment name is "dummy". *)
Theorem loaded_model_is_the_best_candidate raises experiments g :
  let g' := load_best_model_from_mlflow raises experiments g in
  match loaded_model g' with
  | Some model =>
      ∃ e run a, e ∈ experiments ∧ candidate e = Some (run, a) ∧
        artifact run = Some model ∧
        experiment_name g' = Some (name e) ∧ model_run_id g' = Some (run_id run) ∧
        ∀ e' run' a', e' ∈ experiments → candidate e' = Some (run', a') → (a' <= a)%Q
  | None => experiment_name g' = Some "dummy"
  end.
Proof.
  intros g'. subst g'. unfold load_best_model_from_mlflow.
  destruct (raises search_experiments); [done|].
  destruct (search raises _ experiments) as [best|] eqn:Hsearch; [|done].
  apply (search_chosen raises []) in Hsearch; [|by intros e He; inversion He].
  cbn [app] in Hsearch. unfold chosen in Hsearch.
  destruct (best_run best) as [run|]; [|done].
  destruct (best_experiment best) as [e|]; [|done].
  destruct (best_metric best) as [a|]; [|done].
  destruct Hsearch as (Hin & Hc & Hmax).
  destruct (raises (load_model (run_id run))); [done|].
  destruct (artifact run) as [model|] eqn:Hmodel; [|done].
  cbn. exists e, run, a. eauto 10.
Qed.

End model_search_facts.

(** ** The endpoint /predict *)

Module predict_facts.
Import pd pd_records mlapp serving.

Lemma use_model_chain L raises g features :
  (if bool_decide (experiment_name g = Some "linear_regression")
   then use_model L raises g features
   else if bool_decide (experiment_name g = Some "random_forest")
   then use_model L raises g features
   else if bool_decide (experiment_name g = Some "xgboost")
   then use_model L raises g features
   else use_model L raises g features)
  = use_model L raises g features.
Proof. by repeat case_bool_decide. Qed.

Lemma max_0_nonneg x : (0 <= max_0 x)%Q.
Proof.
  unfold max_0, train.Qlt_bool. destruct (Qle_bool x 0) eqn:Hx; cbn; [apply Qle_refl|].
  apply Qlt_le_weak, Qnot_le_lt. intros Hle. apply Qle_bool_iff in Hle. congruence.
Qed.

(** X17: every request to /predict leaves the gauge of active requests
    as it found it and counts once: as a success with status 200, or as
    an error, with its error type, with status 400 or 500; no price below
    0 is observed. *)
Theorem predict_accounts_for_every_request L E raises g m body :
  let r := predict L E raises g m body in
  let label := experiment_label g in
  active_requests r.1 = active_requests m ∧
  (Forall (fun p => (0 <= p)%Q) (predicted_price_histogram m) →
   Forall (fun p => (0 <= p)%Q) (predicted_price_histogram r.1)) ∧
  ((r.2.1 = 200 ∧
    prediction_counter r.1 = inc ("success", label) (prediction_counter m) ∧
    prediction_errors r.1 = prediction_errors m)
   ∨ ((r.2.1 = 400 ∨ r.2.1 = 500) ∧
      prediction_counter r.1 = inc ("error", label) (prediction_counter m) ∧
      ∃ error_type, prediction_errors r.1 = inc (error_type, label) (prediction_errors m))).
Proof.
  intros r label. subst r label. unfold predict.
  assert (Hgauge : ∀ z : Z, (z + 1 - 1 = z)%Z) by (intros; lia).
  destruct body as [| |data|]; cbn [processing_error bad_request fst snd active_requests
    prediction_counter prediction_errors predicted_price_histogram];
    try (split; [apply Hgauge|]; split; [done|]; right; eauto 10).
  destruct data as [|item data];
    cbn [processing_error bad_request fst snd active_requests
         prediction_counter prediction_errors predicted_price_histogram];
    [split; [apply Hgauge|]; split; [done|]; right; eauto 10|].
  destruct (List.filter _ _) as [|field missing];
    [|cbn; split; [apply Hgauge|]; split; [done|]; right; eauto 10].
  rewrite use_model_chain.
  destruct (use_model L raises g _) as [price|];
    cbn [processing_error fst snd active_requests
         prediction_counter prediction_errors predicted_price_histogram].
  - split; [apply Hgauge|]. split; [|left; done].
    intros Hall. apply Forall_app. split; [done|].
    constructor; [apply max_0_nonneg|constructor].
  - split; [apply Hgauge|]. split; [done|]. right; eauto 10.
Qed.

Lemma missing_fields_spec (data : Document) field :
  field ∈ List.filter (fun field => negb (bool_decide (field ∈ keys data)))
                      (NUMERICAL_COLS ++ CATEGORICAL_COLS)
  ↔ field ∈ NUMERICAL_COLS ++ CATEGORICAL_COLS ∧ get data field = None.
Proof.
  rewrite list_elem_of_In, filter_In, <- list_elem_of_In, pd_facts.get_None.
  rewrite negb_true_iff, bool_decide_eq_false. tauto.
Qed.

(** X18: a request whose object lacks a required field is answered 400:
    with "No data provided" when the object is empty, and else with the
    list of the required fields it lacks, in the order of the required
    fields, whatever model is loaded. *)
Theorem predict_rejects_a_request_without_a_required_field L E raises g m data field :
  field ∈ NUMERICAL_COLS ++ CATEGORICAL_COLS →
  get data field = None →
  let answer := (predict L E raises g m (Object data)).2 in
  (data = [] → answer = (400, NoDataProvided)) ∧
  (data ≠ [] →
   ∃ missing_fields,
     answer = (400, MissingRequiredFields missing_fields) ∧
     field ∈ missing_fields ∧
     missing_fields
     = List.filter (fun f => bool_decide (get data f = None))
                   (NUMERICAL_COLS ++ CATEGORICAL_COLS)).
Proof.
  intros Hfield Hget answer. subst answer. split; [by intros ->|].
  intros Hne. destruct data as [|item data]; [done|]. unfold predict.
  pose proof (missing_fields_spec (item :: data)) as Hspec.
  assert (Hfilter : List.filter (fun field => negb (bool_decide (field ∈ keys (item :: data))))
                      (NUMERICAL_COLS ++ CATEGORICAL_COLS)
                    = List.filter (fun f => bool_decide (get (item :: data) f = None))
                        (NUMERICAL_COLS ++ CATEGORICAL_COLS)).
  { apply List.filter_ext. intros f. apply eq_true_iff_eq.
    rewrite negb_true_iff, bool_decide_eq_false, bool_decide_eq_true.
    symmetry. apply pd_facts.get_None. }
  rewrite <- Hfilter.
  destruct (List.filter _ _) as [|f0 missing] eqn:Hmissing.
  { exfalso. assert (H : field ∈ @nil string) by (by apply Hspec). inversion H. }
  eexists. split; [done|]. split; [by apply Hspec|done].
Qed.

(** The answer to a request with the sixteen fields. *)
Lemma predict_with_the_sixteen_fields L E raises g m data :
  (∀ field, field ∈ NUMERICAL_COLS ++ CATEGORICAL_COLS → is_Some (get data field)) →
  loaded_model g = None ∨ raises model_predict = false →
  (predict L E raises g m (Object data)).2
  = (200, Result (round_2 L (max_0 (match loaded_model g with
                                    | None => 50000
                                    | Some model => predict_price L model (features E data)
                                    end)))).
Proof.
  intros Hall Hmodel. unfold predict.
  destruct data as [|item data].
  { destruct (Hall "bedrooms") as [v Hv]; [by apply list_elem_of_here|done]. }
  pose proof (missing_fields_spec (item :: data)) as Hspec.
  destruct (List.filter _ _) as [|f0 missing] eqn:Hmissing.
  2:{ exfalso. assert (H : f0 ∈ f0 :: missing) by apply list_elem_of_here.
      apply Hspec in H as [Hin Hnone]. destruct (Hall f0 Hin) as [v Hv]. congruence. }
  rewrite use_model_chain, serving_facts.preprocess_data_for_prediction_features.
  unfold use_model. destruct (loaded_model g) as [model|]; [|done].
  destruct Hmodel as [?|Hp]; [done|]. by rewrite Hp.
Qed.

(** X19: a request with the sixteen fields is answered 200 with the
    rounded price, never below 0: 50000 when no model is loaded, else
    what the model predicts on the features, whatever the experiment
    name. *)
Theorem predict_answers_with_the_price L E raises g m data :
  (∀ field, field ∈ NUMERICAL_COLS ++ CATEGORICAL_COLS → is_Some (get data field)) →
  loaded_model g = None ∨ raises model_predict = false →
  (predict L E raises g m (Object data)).2
  = (200, Result (round_2 L (max_0 (match loaded_model g with
                                    | None => 50000
                                    | Some model => predict_price L model (features E data)
                                    end)))).
Proof. apply predict_with_the_sixteen_fields. Qed.

End predict_facts.

(** ** The database service *)

Module dbapp_facts.
Import pd pd_records dbapp mongo.

Lemma without_id_stored record id :
  without_id (stored_fields record ++ [("_id", id)]) = without_id (stored_fields record).
Proof. unfold without_id. rewrite List.filter_app. cbn. by rewrite app_nil_r. Qed.

(** What an insert that succeeds has done. *)
Lemma do_insert_one_Some raises name record s s' id :
  do_insert_one raises name record s = (s', Some id) →
  ∃ d, without_id d = without_id (stored_fields record) ∧
       (∀ k v, get record k = Some v → lookup d k = Some (Val v)) ∧
       collections s' = <[name := collection s name ++ [d]]> (collections s) ∧
       STORE_REQUESTS s' = STORE_REQUESTS s ∧ RETRIEVE_REQUESTS s' = RETRIEVE_REQUESTS s ∧
       DOCUMENTS_INSERTED s' = DOCUMENTS_INSERTED s ∧ ERROR_COUNT s' = ERROR_COUNT s.
Proof.
  assert (Hlookup : ∀ k v tail, get record k = Some v →
            lookup (stored_fields record ++ tail) k = Some (Val v)).
  { intros k v tail. unfold lookup, stored_fields.
    induction record as [|[k' v'] record IH]; cbn; [done|].
    destruct (String.eqb k k'); [by intros [= ->]|]. apply IH. }
  unfold do_insert_one. destruct (raises insert_one); [done|].
  destruct (get record "_id") as [id0|] eqn:Hid.
  - destruct (existsb _ _); [done|]. intros [= <- <-]. cbn.
    exists (stored_fields record). split; [done|]. split; [|done].
    intros k v Hget. rewrite <- (app_nil_r (stored_fields record)). by apply Hlookup.
  - intros [= <- <-]. cbn. eexists. split; [apply without_id_stored|].
    split; [|done]. intros k v Hget. by apply Hlookup.
Qed.

Lemma do_insert_one_None raises name record s s' :
  do_insert_one raises name record s = (s', None) → s' = s.
Proof.
  unfold do_insert_one. destruct (raises insert_one); [by intros [= <-]|].
  destruct (get record "_id"); [|done].
  destruct (existsb _ _); [by intros [= <-]|done].
Qed.

Lemma collection_insert (g : gmap string (list Stored)) s name docs name' :
  collections s = <[name := docs]> g →
  collection s name' = if decide (name' = name) then docs else default [] (g !! name').
Proof.
  intros Hs. unfold collection. rewrite Hs. destruct (decide (name' = name)) as [->|Hne].
  - by rewrite lookup_insert_eq.
  - by rewrite lookup_insert_ne.
Qed.

(** A store that answers 201 has appended one document, which holds the
    fields of the record. *)
Lemma store_data_201 C raises s table record_data :
  let r := store_data C raises s (Request table record_data) in
  r.2.1 = 201 →
  ∃ name record d,
    (name = "collection_1" ∨ name = "collection_2") ∧
    table = JString name ∧ record_data = JObject record ∧
    without_id d = without_id (stored_fields record) ∧
    (∀ k v, get record k = Some v → lookup d k = Some (Val v)) ∧
    collections r.1
      = <[table_of C name := collection s (table_of C name) ++ [d]]> (collections s) ∧
    DOCUMENTS_INSERTED r.1 = S (DOCUMENTS_INSERTED s) ∧
    ERROR_COUNT r.1 = ERROR_COUNT s.
Proof.
  intros r. subst r. unfold store_data.
  destruct (falsy table || falsy record_data); [done|].
  destruct table as [|name| |]; try done.
  destruct (String.eqb name "collection_1") eqn:H1.
  - apply String.eqb_eq in H1 as ->.
    destruct record_data as [| |record|]; try done.
    unfold insert_and_answer.
    destruct (do_insert_one raises _ record (count_store s)) as [s' [id|]] eqn:Hins; [|done].
    intros _. apply do_insert_one_Some in Hins as (d & Hd & Hf & Hc & _ & _ & Hn & He).
    exists "collection_1", record, d. cbn in *. rewrite Hc, Hn, He. eauto 10.
  - destruct (String.eqb name "collection_2") eqn:H2.
    + apply String.eqb_eq in H2 as ->.
      destruct record_data as [| |record|]; try done.
      destruct (raises find_one); [done|].
      destruct (List.find _ _); [done|].
      unfold insert_and_answer.
      destruct (do_insert_one raises _ record (count_store s)) as [s' [id|]] eqn:Hins; [|done].
      intros _. apply do_insert_one_Some in Hins as (d & Hd & Hf & Hc & _ & _ & Hn & He).
      exists "collection_2", record, d. cbn in *. rewrite Hc, Hn, He. eauto 10.
    + apply String.eqb_neq in H1, H2.
      assert (Hcode : ∀ (x : State * (nat * StoreResponse)), x.2.1 = 400 → x.2.1 = 201 → False)
        by (intros x -> ; discriminate).
      intros H. exfalso. revert H. apply Hcode.
      repeat match goal with
             | |- context [match ?x with _ => _ end] => destruct x; try done
             end.
Qed.

(** What /retrieve returns after a store that answered 201. *)
Lemma retrieve_after_store C raises raises' s name record :
  name = "collection_1" ∨ name = "collection_2" →
  (store_data C raises s (Request (JString name) (JObject record))).2.1 = 201 →
  raises' find = false →
  let s' := (store_data C raises s (Request (JString name) (JObject record))).1 in
  let old := map without_id (collection s (table_of C name)) in
  (retrieve_data C raises' s' name).2
  = (200, Retrieved name (S (length old)) (old ++ [without_id (stored_fields record)])).
Proof.
  intros Hname H201 Hfind s' old.
  destruct (store_data_201 C raises s _ _ H201)
    as (name0 & record0 & d & _ & [= <-] & [= <-] & Hd & _ & Hc & _).
  fold s' in Hc. unfold retrieve_data. rewrite Hfind.
  assert (Hactual : (if String.eqb name "collection_1" then predictions_table C
                     else if String.eqb name "collection_2" then corrections_table C
                     else name) = table_of C name).
  { unfold table_of. by destruct Hname as [->| ->]. }
  rewrite Hactual. cbn [snd].
  assert (Hcoll : collection
            {| collections := collections s'; next_object_id := next_object_id s';
               STORE_REQUESTS := STORE_REQUESTS s';
               RETRIEVE_REQUESTS := S (RETRIEVE_REQUESTS s');
               DOCUMENTS_INSERTED := DOCUMENTS_INSERTED s';
               ERROR_COUNT := ERROR_COUNT s' |} (table_of C name)
          = collection s (table_of C name) ++ [d]).
  { unfold collection at 1. cbn [collections]. by rewrite Hc, lookup_insert_eq. }
  rewrite Hcoll, map_app, length_app, length_map. cbn [map length]. rewrite Hd.
  unfold old. rewrite length_map. do 3 f_equal. lia.
Qed.

(** X20: a record that /store has answered 201 for is what /retrieve
    returns last for the same table, without its [_id], after the
    documents that were there. *)
Theorem stored_record_is_retrieved C raises raises' s name record :
  name = "collection_1" ∨ name = "collection_2" →
  (store_data C raises s (Request (JString name) (JObject record))).2.1 = 201 →
  raises' find = false →
  let s' := (store_data C raises s (Request (JString name) (JObject record))).1 in
  let old := map without_id (collection s (table_of C name)) in
  (retrieve_data C raises' s' name).2
  = (200, Retrieved name (S (length old)) (old ++ [without_id (stored_fields record)])).
Proof. apply retrieve_after_store. Qed.

Lemma get_query_of record k :
  get (query_of record) k = if decide (k = "price") then None else get record k.
Proof.
  unfold query_of. induction record as [|[k' v'] record IH]; cbn [List.filter get fst].
  - by destruct (decide _).
  - destruct (String.eqb k' "price") eqn:Hp; cbn [negb get].
    + apply String.eqb_eq in Hp as ->. rewrite IH.
      destruct (decide (k = "price")) as [->|Hne]; [done|].
      apply String.eqb_neq in Hne. by rewrite Hne.
    + rewrite IH. destruct (String.eqb k k') eqn:Hk; [|done].
      apply String.eqb_eq in Hk as ->. apply String.eqb_neq in Hp.
      by rewrite decide_False.
Qed.

(** A second store of the fields of a stored correction. *)
Lemma store_again_already_exists C raises raises' s record record' :
  equality_filter C →
  (store_data C raises s (Request (JString "collection_2") (JObject record))).2.1 = 201 →
  query_of record' = query_of record →
  record' ≠ [] →
  raises' find_one = false →
  let s1 := (store_data C raises s (Request (JString "collection_2") (JObject record))).1 in
  store_data C raises' s1 (Request (JString "collection_2") (JObject record'))
  = (count_store s1, (200, AlreadyExists)).
Proof.
  intros Hfilter H201 Hquery Hne Hfind s1.
  destruct (store_data_201 C raises s _ _ H201)
    as (name0 & record0 & d & _ & [= <-] & [= <-] & _ & Hfields & Hc & _).
  fold s1 in Hc. unfold store_data.
  destruct record' as [|item record']; [done|]. cbn [falsy orb String.eqb Ascii.eqb Bool.eqb].
  rewrite Hfind. fold (query_of (item :: record')). rewrite Hquery.
  assert (Hin : In d (collection (count_store s1) (corrections_table C))).
  { unfold collection. cbn [count_store collections]. rewrite Hc.
    unfold table_of. cbn [String.eqb Ascii.eqb Bool.eqb]. rewrite lookup_insert_eq.
    cbn [default]. apply in_or_app. right. by left. }
  assert (Hmatch : matches C (query_of record) d = true).
  { apply Hfilter. intros k v Hget. apply Hfields.
    rewrite get_query_of in Hget. by destruct (decide (k = "price")). }
  destruct (List.find _ _) as [existing|] eqn:Hfound; [done|].
  pose proof (find_none _ _ Hfound d Hin) as Hnone. congruence.
Qed.

(** X21: a correction is stored once: after /store has answered 201
    for a record in collection_2, a record with the same fields, whatever
    its price, is answered 200 "already exists" and changes nothing but
    the request counter, when the filter of the driver is an equality
    filter. *)
Theorem correction_is_stored_once C raises raises' s record record' :
  equality_filter C →
  (store_data C raises s (Request (JString "collection_2") (JObject record))).2.1 = 201 →
  query_of record' = query_of record →
  record' ≠ [] →
  raises' find_one = false →
  let s1 := (store_data C raises s (Request (JString "collection_2") (JObject record))).1 in
  store_data C raises' s1 (Request (JString "collection_2") (JObject record'))
  = (count_store s1, (200, AlreadyExists)).
Proof. apply store_again_already_exists. Qed.

(** X22: /store counts what it does: the request counter goes up by
    one; the status is 200, 201, 400 or 500; the error counter goes up
    exactly with status 500; with status 201 one document is appended to
    one collection and the counter of inserted documents goes up by one;
    otherwise the collections and that counter are as they were. *)
Theorem store_data_counts_what_it_inserts C raises s request :
  let r := store_data C raises s request in
  STORE_REQUESTS r.1 = S (STORE_REQUESTS s) ∧
  RETRIEVE_REQUESTS r.1 = RETRIEVE_REQUESTS s ∧
  (r.2.1 = 200 ∨ r.2.1 = 201 ∨ r.2.1 = 400 ∨ r.2.1 = 500) ∧
  ERROR_COUNT r.1 = (if decide (r.2.1 = 500) then S (ERROR_COUNT s) else ERROR_COUNT s) ∧
  if decide (r.2.1 = 201)
  then DOCUMENTS_INSERTED r.1 = S (DOCUMENTS_INSERTED s) ∧
       ∃ name d, collections r.1 = <[name := collection s name ++ [d]]> (collections s)
  else DOCUMENTS_INSERTED r.1 = DOCUMENTS_INSERTED s ∧ collections r.1 = collections s.
Proof.
  intros r. subst r.
  assert (Hinsert : ∀ name table record,
    let r := insert_and_answer raises name table record (count_store s) in
    STORE_REQUESTS r.1 = S (STORE_REQUESTS s) ∧
    RETRIEVE_REQUESTS r.1 = RETRIEVE_REQUESTS s ∧
    (r.2.1 = 200 ∨ r.2.1 = 201 ∨ r.2.1 = 400 ∨ r.2.1 = 500) ∧
    ERROR_COUNT r.1 = (if decide (r.2.1 = 500) then S (ERROR_COUNT s) else ERROR_COUNT s) ∧
    if decide (r.2.1 = 201)
    then DOCUMENTS_INSERTED r.1 = S (DOCUMENTS_INSERTED s) ∧
         ∃ name d, collections r.1 = <[name := collection s name ++ [d]]> (collections s)
    else DOCUMENTS_INSERTED r.1 = DOCUMENTS_INSERTED s ∧ collections r.1 = collections s).
  { intros name table record r. subst r. unfold insert_and_answer.
    destruct (do_insert_one raises name record (count_store s)) as [s' [id|]] eqn:Hins.
    - apply do_insert_one_Some in Hins as (d & _ & _ & Hc & Hs & Hr & Hn & He).
      cbn in *. rewrite Hs, Hr, Hn, He. repeat split; auto. eauto.
    - apply do_insert_one_None in Hins as ->. cbn. repeat split; auto. }
  unfold store_data. destruct request as [|table record_data].
  { cbn. repeat split; auto. }
  destruct (falsy table || falsy record_data); [cbn; repeat split; auto|].
  destruct table as [|name| |]; try (cbn; repeat split; auto; fail).
  destruct (String.eqb name "collection_1") eqn:H1.
  { apply String.eqb_eq in H1 as ->.
    destruct record_data as [| |record|]; try (cbn; repeat split; auto; fail).
    apply Hinsert. }
  destruct (String.eqb name "collection_2") eqn:H2.
  { apply String.eqb_eq in H2 as ->.
    destruct record_data as [| |record|]; try (cbn; repeat split; auto; fail).
    destruct (raises find_one); [cbn; repeat split; auto|].
    destruct (List.find _ _); [cbn; repeat split; auto|]. apply Hinsert. }
  apply String.eqb_neq in H1, H2.
  assert (Hother : ∀ x : State * (nat * StoreResponse),
            x = (count_store s, (400, InvalidTableName)) →
            STORE_REQUESTS x.1 = S (STORE_REQUESTS s) ∧
            RETRIEVE_REQUESTS x.1 = RETRIEVE_REQUESTS s ∧
            (x.2.1 = 200 ∨ x.2.1 = 201 ∨ x.2.1 = 400 ∨ x.2.1 = 500) ∧
            ERROR_COUNT x.1 = (if decide (x.2.1 = 500) then S (ERROR_COUNT s)
                               else ERROR_COUNT s) ∧
            if decide (x.2.1 = 201)
            then DOCUMENTS_INSERTED x.1 = S (DOCUMENTS_INSERTED s) ∧
                 ∃ name d, collections x.1
                           = <[name := collection s name ++ [d]]> (collections s)
            else DOCUMENTS_INSERTED x.1 = DOCUMENTS_INSERTED s
                 ∧ collections x.1 = collections s).
  { intros x ->. cbn. repeat split; auto. }
  apply Hother.
  repeat match goal with
         | |- context [match ?x with _ => _ end] => destruct x; try done
         end.
Qed.

End dbapp_facts.


(** ** The front end over the two services *)

Module webapp_facts.
Import pd pd_records webapp deployment.

(** The dict of a form that is read has the sixteen fields, in order. *)
Lemma read_form_keys L form fields data :
  read_form L form fields = Some data → keys data = map fst fields.
Proof.
  revert data. induction fields as [|[k c] fields IH]; intros data; cbn [read_form].
  { by intros [= <-]. }
  destruct (form_get form k); [|done]. destruct (convert L c _); [|done].
  destruct (read_form L form fields) as [data'|]; [|done].
  intros [= <-]. cbn. f_equal. by apply IH.
Qed.

Lemma read_form_fields L form data :
  read_form L form FORM_FIELDS = Some data →
  (∀ field, field ∈ mlapp.NUMERICAL_COLS ++ mlapp.CATEGORICAL_COLS → is_Some (get data field))
  ∧ get data "_id" = None ∧ get data "price" = None ∧ data ≠ [].
Proof.
  intros Hread. apply read_form_keys in Hread.
  assert (Hget : ∀ k, get data k = None ↔ k ∉ map fst FORM_FIELDS).
  { intros k. rewrite <- Hread. apply pd_facts.get_None. }
  split; [|split; [|split]].
  - intros field Hfield. destruct (get data field) eqn:Hf; [by eexists|].
    apply Hget in Hf. exfalso. apply Hf. cbn in Hfield |- *.
    repeat (apply elem_of_cons in Hfield as [->|Hfield]; [compute_done|]).
    inversion Hfield.
  - apply Hget. compute_done.
  - apply Hget. compute_done.
  - intros ->. discriminate Hread.
Qed.

Lemma dict_set_new k v (d : Document) :
  get d k = None → mlapp.dict_set k v d = d ++ [(k, v)].
Proof.
  induction d as [|[k' v'] d IH]; [done|]. cbn [get mlapp.dict_set app].
  destruct (String.eqb k k'); [done|]. intros Hget. by rewrite IH.
Qed.

Lemma without_id_no_id (record : Document) :
  get record "_id" = None →
  dbapp.without_id (mongo.stored_fields record) = mongo.stored_fields record.
Proof.
  unfold dbapp.without_id, mongo.stored_fields.
  induction record as [|[k v] record IH]; [done|]. cbn [get map List.filter fst].
  destruct (String.eqb "_id" k) eqn:Hk; [done|]. intros Hget.
  rewrite String.eqb_sym, Hk. cbn [negb]. f_equal. by apply IH.
Qed.

(** A record without [_id] is stored when the insert does not raise. *)
Lemma store_data_stores C raises s record :
  record ≠ [] → get record "_id" = None → raises dbapp.insert_one = false →
  (dbapp.store_data C raises s
     (dbapp.Request (dbapp.JString "collection_1") (dbapp.JObject record))).2.1 = 201.
Proof.
  intros Hne Hid Hins. unfold dbapp.store_data.
  destruct record as [|item record]; [done|].
  cbn [dbapp.falsy orb String.eqb Ascii.eqb Bool.eqb].
  unfold dbapp.insert_and_answer, dbapp.do_insert_one. by rewrite Hins, Hid.
Qed.

(** What [predict] does with a form it can read when the ML service
    answers: the record goes to /store and the result page is shown, whatever
    /store answers. *)
Lemma predict_reaches_the_store L D s m form data :
  read_form L form FORM_FIELDS = Some data →
  mlapp.loaded_model (ml_globals D) = None ∨ ml_raises D mlapp.model_predict = false →
  predict L (services D) s m form
  = (((mlapp.predict (ml_lib D) (ml_env D) (ml_raises D) (ml_globals D) s.1
         (mlapp.Object data)).1,
      (dbapp.store_data (db_config D) (db_raises D) s.2
         (dbapp.Request (dbapp.JString "collection_1")
            (dbapp.JObject (data ++ [("price", VNum (price_of D data))])))).1),
     {| PREDICTION_REQUESTS := S (PREDICTION_REQUESTS m);
        CORRECTION_REQUESTS := CORRECTION_REQUESTS m;
        ERROR_COUNT := ERROR_COUNT m;
        LAST_PREDICTED_PRICE := Some (price_of D data) |},
     result_html (price_of D data) data).
Proof.
  intros Hread Hmodel.
  destruct (read_form_fields L form data Hread) as (Hall & _ & Hprice & _).
  unfold predict. rewrite Hread. cbn [services post_predict post_store].
  rewrite (predict_facts.predict_with_the_sixteen_fields (ml_lib D) (ml_env D)
             (ml_raises D) (ml_globals D) s.1 data Hall Hmodel).
  cbn [fst snd]. fold (price_of D data).
  by rewrite (dict_set_new "price" (VNum (price_of D data)) data Hprice).
Qed.

(** What /retrieve returns after [predict] has stored its record. *)
Lemma retrieve_after_predict L D s m form data :
  read_form L form FORM_FIELDS = Some data →
  mlapp.loaded_model (ml_globals D) = None ∨ ml_raises D mlapp.model_predict = false →
  db_raises D dbapp.insert_one = false →
  db_raises D dbapp.find = false →
  let old := map dbapp.without_id
                 (dbapp.collection s.2 (dbapp.predictions_table (db_config D))) in
  (dbapp.retrieve_data (db_config D) (db_raises D)
     (predict L (services D) s m form).1.1.2 "collection_1").2
  = (200, dbapp.Retrieved "collection_1" (S (length old))
            (old ++ [mongo.stored_fields (data ++ [("price", VNum (price_of D data))])])).
Proof.
  intros Hread Hmodel Hins Hfind old.
  destruct (read_form_fields L form data Hread) as (_ & Hid & _ & _).
  rewrite (predict_reaches_the_store L D s m form data Hread Hmodel). cbn [fst snd].
  set (record := data ++ [("price", VNum (price_of D data))]).
  assert (Hne' : record ≠ []) by (unfold record; by destruct data).
  assert (Hid' : get record "_id" = None).
  { apply pd_facts.get_None. unfold record, keys. rewrite map_app, elem_of_app.
    intros [Hin|Hin]; [by apply pd_facts.get_None in Hid|].
    apply list_elem_of_singleton in Hin. discriminate Hin. }
  pose proof (store_data_stores (db_config D) (db_raises D) s.2 record
                Hne' Hid' Hins) as H201.
  pose proof (dbapp_facts.retrieve_after_store (db_config D) (db_raises D) (db_raises D) s.2
                "collection_1" record (or_introl eq_refl) H201 Hfind) as Hretrieve.
  cbn zeta in Hretrieve. rewrite Hretrieve. unfold old, mongo.table_of. cbn.
  by rewrite (without_id_no_id record Hid').
Qed.

(** X24: a form with the sixteen fields, sent to the front end while the
    ML service answers and the database inserts, is answered with the
    result page for the price of the ML service; the price becomes the
    last predicted price, no error is counted, and /retrieve of
    collection_1 then lists the sixteen fields followed by the price as
    the last record. *)
Theorem prediction_is_answered_and_stored L D s m form data :
  read_form L form FORM_FIELDS = Some data →
  mlapp.loaded_model (ml_globals D) = None ∨ ml_raises D mlapp.model_predict = false →
  db_raises D dbapp.insert_one = false →
  db_raises D dbapp.find = false →
  let r := predict L (services D) s m form in
  let price := price_of D data in
  let old := map dbapp.without_id
                 (dbapp.collection s.2 (dbapp.predictions_table (db_config D))) in
  r.2 = result_html price data ∧
  LAST_PREDICTED_PRICE r.1.2 = Some price ∧
  ERROR_COUNT r.1.2 = ERROR_COUNT m ∧
  (dbapp.retrieve_data (db_config D) (db_raises D) r.1.1.2 "collection_1").2
  = (200, dbapp.Retrieved "collection_1" (S (length old))
            (old ++ [mongo.stored_fields (data ++ [("price", VNum price)])])).
Proof.
  intros Hread Hmodel Hins Hfind r price old. subst r price old.
  split; [|split; [|split]];
    [by rewrite (predict_reaches_the_store L D s m form data Hread Hmodel)..|].
  exact (retrieve_after_predict L D s m form data Hread Hmodel Hins Hfind).
Qed.

(** X25: when the insert of the database raises, the front end still
    answers the form with the result page and counts no error: the record
    is lost, the collections are as before, and only the database service
    counts an error. *)
Theorem prediction_is_answered_when_the_store_fails L D s m form data :
  read_form L form FORM_FIELDS = Some data →
  mlapp.loaded_model (ml_globals D) = None ∨ ml_raises D mlapp.model_predict = false →
  db_raises D dbapp.insert_one = true →
  let r := predict L (services D) s m form in
  r.2 = result_html (price_of D data) data ∧
  ERROR_COUNT r.1.2 = ERROR_COUNT m ∧
  dbapp.collections r.1.1.2 = dbapp.collections s.2 ∧
  dbapp.DOCUMENTS_INSERTED r.1.1.2 = dbapp.DOCUMENTS_INSERTED s.2 ∧
  dbapp.ERROR_COUNT r.1.1.2 = S (dbapp.ERROR_COUNT s.2).
Proof.
  intros Hread Hmodel Hins r. subst r.
  rewrite (predict_reaches_the_store L D s m form data Hread Hmodel). cbn [fst snd].
  split; [done|]. split; [done|].
  unfold dbapp.store_data.
  destruct (data ++ [("price", VNum (price_of D data))]) as [|item record] eqn:Hrecord.
  { by destruct data. }
  cbn [dbapp.falsy orb String.eqb Ascii.eqb Bool.eqb].
  unfold dbapp.insert_and_answer, dbapp.do_insert_one. by rewrite Hins.
Qed.

(** X26: a prediction the front end answers with the error page has
    stored nothing: the database is as before, and the front end has
    counted the request and one error. *)
Theorem failed_prediction_stores_nothing L D s m form :
  let r := predict L (services D) s m form in
  r.2 = error_html →
  r.1.1.2 = s.2 ∧ ERROR_COUNT r.1.2 = S (ERROR_COUNT m) ∧
  PREDICTION_REQUESTS r.1.2 = S (PREDICTION_REQUESTS m).
Proof.
  intros r. subst r. unfold predict.
  destruct (read_form L form FORM_FIELDS) as [data|]; [|done].
  cbn [services post_predict post_store].
  destruct (mlapp.predict _ _ _ _ _ _) as [m' [code response]]. cbn [fst snd].
  destruct response; done.
Qed.

Lemma query_of_dict_set_price v (d : Document) :
  mongo.query_of (mlapp.dict_set "price" v d) = mongo.query_of d.
Proof.
  unfold mongo.query_of. induction d as [|[k' v'] d IH]; [done|].
  cbn [mlapp.dict_set]. destruct (String.eqb "price" k') eqn:Hk.
  - apply String.eqb_eq in Hk as <-. cbn [List.filter fst].
    by rewrite String.eqb_refl.
  - cbn [List.filter fst]. by rewrite IH.
Qed.

Lemma dict_set_not_nil k v (d : Document) : mlapp.dict_set k v d ≠ [].
Proof. destruct d as [|[k' v'] d]; [done|]. cbn. by destruct (String.eqb k k'). Qed.

Lemma correct_prediction_stores L D s m form user_data price :
  read_correction L form = Some (user_data, price) →
  correct_prediction L (services D) s m form
  = ((s.1, (dbapp.store_data (db_config D) (db_raises D) s.2
              (dbapp.Request (dbapp.JString "collection_2")
                 (dbapp.JObject (mlapp.dict_set "price" (VNum price) user_data)))).1),
     {| PREDICTION_REQUESTS := PREDICTION_REQUESTS m;
        CORRECTION_REQUESTS := S (CORRECTION_REQUESTS m);
        ERROR_COUNT := ERROR_COUNT m;
        LAST_PREDICTED_PRICE := LAST_PREDICTED_PRICE m |},
     correction_success_html price).
Proof.
  unfold read_correction, correct_prediction.
  destruct (form_get form "user_data") as [text|]; [|done].
  destruct (json_loads L text) as [d|]; [|done].
  destruct (form_get form "corrected_price") as [text'|]; [|done].
  destruct (float L text') as [p|]; [|done]. by intros [= -> ->].
Qed.

(** X27: a correction is stored once through the front end: after a
    correction that /store answered 201 for, a second correction with the
    same fields, whatever its price, gets the success page too, but the
    collections and the count of inserted documents stay as they are. *)
Theorem second_correction_is_not_stored L D s m form form' user_data price user_data' price' :
  mongo.equality_filter (db_config D) →
  db_raises D dbapp.find_one = false →
  read_correction L form = Some (user_data, price) →
  read_correction L form' = Some (user_data', price') →
  mongo.query_of user_data' = mongo.query_of user_data →
  (dbapp.store_data (db_config D) (db_raises D) s.2
     (dbapp.Request (dbapp.JString "collection_2")
        (dbapp.JObject (mlapp.dict_set "price" (VNum price) user_data)))).2.1 = 201 →
  let r1 := correct_prediction L (services D) s m form in
  let r2 := correct_prediction L (services D) r1.1.1 r1.1.2 form' in
  r1.2 = correction_success_html price ∧
  r2.2 = correction_success_html price' ∧
  dbapp.collections r2.1.1.2 = dbapp.collections r1.1.1.2 ∧
  dbapp.DOCUMENTS_INSERTED r2.1.1.2 = dbapp.DOCUMENTS_INSERTED r1.1.1.2.
Proof.
  intros Hfilter Hfind Hform Hform' Hquery H201 r1 r2. subst r2 r1.
  rewrite (correct_prediction_stores L D s m form user_data price Hform).
  cbn [fst snd].
  rewrite (correct_prediction_stores L D _ _ form' user_data' price' Hform').
  cbn [fst snd].
  rewrite (dbapp_facts.store_again_already_exists (db_config D) (db_raises D) (db_raises D)
             s.2 (mlapp.dict_set "price" (VNum price) user_data)
             (mlapp.dict_set "price" (VNum price') user_data') Hfilter H201).
  - done.
  - by rewrite !query_of_dict_set_price.
  - apply dict_set_not_nil.
  - done.
Qed.

Lemma document_of_stored_fields (record : Document) :
  document_of (mongo.stored_fields record) = record.
Proof.
  unfold document_of, mongo.stored_fields.
  induction record as [|[k v] record IH]; [done|]. cbn. by rewrite IH.
Qed.

Lemma retrieve_data_collections C raises s name :
  dbapp.collections (dbapp.retrieve_data C raises s name).1 = dbapp.collections s.
Proof. unfold dbapp.retrieve_data. by destruct (raises dbapp.find). Qed.

Lemma retrieve_data_corrections C raises s :
  raises dbapp.find = false →
  (dbapp.retrieve_data C raises s "collection_2").2.2
  = let documents := map dbapp.without_id (dbapp.collection s (dbapp.corrections_table C)) in
    dbapp.Retrieved "collection_2" (length documents) documents.
Proof. intros Hfind. unfold dbapp.retrieve_data. by rewrite Hfind. Qed.

(** X28: the page of all predictions, asked for after a prediction went
    through, lists the prediction last among the predictions: the sixteen
    fields and the price, without an _id; the page leaves the collections
    as they are and counts no error. *)
Theorem stored_prediction_is_shown L D s m form data :
  read_form L form FORM_FIELDS = Some data →
  mlapp.loaded_model (ml_globals D) = None ∨ ml_raises D mlapp.model_predict = false →
  db_raises D dbapp.insert_one = false →
  db_raises D dbapp.find = false →
  let r := predict L (services D) s m form in
  let shown := show_predictions (services D) r.1.1 r.1.2 in
  let old := map dbapp.without_id
                 (dbapp.collection s.2 (dbapp.predictions_table (db_config D))) in
  let corrections := map dbapp.without_id
                         (dbapp.collection r.1.1.2 (dbapp.corrections_table (db_config D))) in
  shown.2 = show_predictions_html
              (map document_of old ++ [data ++ [("price", VNum (price_of D data))]])
              (map document_of corrections) ∧
  dbapp.collections shown.1.1.2 = dbapp.collections r.1.1.2 ∧
  ERROR_COUNT shown.1.2 = ERROR_COUNT m.
Proof.
  intros Hread Hmodel Hins Hfind r shown old corrections.
  pose proof (retrieve_after_predict L D s m form data Hread Hmodel Hins Hfind) as Hretrieve.
  cbn zeta in Hretrieve. fold r old in Hretrieve.
  assert (Herr : ERROR_COUNT r.1.2 = ERROR_COUNT m).
  { unfold r. by rewrite (predict_reaches_the_store L D s m form data Hread Hmodel). }
  subst shown. unfold show_predictions. cbn [services get_retrieve fst snd].
  rewrite Hretrieve. cbn [fst snd].
  rewrite (retrieve_data_corrections (db_config D) (db_raises D) _ Hfind). cbn zeta.
  unfold dbapp.collection. rewrite !retrieve_data_collections.
  split; [|done]. f_equal.
  rewrite map_app. cbn [map]. by rewrite document_of_stored_fields.
Qed.

(** X29: when the find of the database raises, the page of all
    predictions is not the error page: it lists no prediction and no
    correction, the front end counts nothing, and the database service
    counts its two errors. *)
Theorem show_predictions_hides_a_failed_find D s m :
  db_raises D dbapp.find = true →
  let r := show_predictions (services D) s m in
  r.2 = show_predictions_html [] [] ∧
  r.1.2 = m ∧
  dbapp.collections r.1.1.2 = dbapp.collections s.2 ∧
  dbapp.ERROR_COUNT r.1.1.2 = 2 + dbapp.ERROR_COUNT s.2.
Proof.
  intros Hfind r. subst r. unfold show_predictions. cbn [services get_retrieve fst snd].
  unfold dbapp.retrieve_data. rewrite Hfind. done.
Qed.

End webapp_facts.

(** ** The further properties at concrete inputs *)

Module more_witnesses.
Import pd pd_records cronjob producer consumer frames examples more_examples.

Lemma producer_keeps_published_versions_witness :
  let w := published_and_documents in
  let key := ("datasets", "versioned/v1/train.csv") in
  uploads_fail (gcs_list (BUCKET_2 env)) = false ∧
  version_of_blob (BUCKET_2 env) key ≠ None ∧
  gcs w !! key = Some (frame 1) ∧
  gcs (world (main uploads_fail env w)) !! key = Some (frame 1).
Proof.
  intros w key.
  assert (H1 : uploads_fail (gcs_list (BUCKET_2 env)) = false) by reflexivity.
  assert (H2 : version_of_blob (BUCKET_2 env) key ≠ None) by (vm_compute; discriminate).
  assert (H3 : gcs w !! key = Some (frame 1)) by (vm_compute; reflexivity).
  split; [exact H1|]. split; [exact H2|]. split; [exact H3|].
  exact (producer_run_facts.producer_keeps_published_versions uploads_fail env w key
           (frame 1) H1 H2 H3).
Defined.

Lemma producer_raises_only_from_the_transform_witness :
  let w := unpriced_document in
  let e := ValueError "Price column not found in dataframe" in
  result (main no_faults env w) = inl e ∧
  events (main no_faults env w) = [] ∧
  world (main no_faults env w) = world (read_inputs no_faults env w) ∧
  collection_2 (world (main no_faults env w)) = [].
Proof.
  intros w e.
  assert (H : result (main no_faults env w) = inl e) by (vm_compute; reflexivity).
  destruct (producer_run_facts.producer_raises_only_from_the_transform no_faults env w e H)
    as (Hev & _ & (t & v & c1 & c2 & m & _ & _ & _ & Hw)).
  split; [exact H|]. split; [exact Hev|]. split; [exact Hw|].
  vm_compute. reflexivity.
Defined.

Lemma no_versions_no_run_witness :
  let w := buffer_only in
  max_version (listed_versions (BUCKET_2 env) (gcs w)) = 0 ∧
  events (train.main no_faults env w) = [] ∧
  runs (world (train.main no_faults env w)) = runs w ∧
  result (train.main no_faults env w) = inr train.NoVersionedData.
Proof.
  intros w.
  assert (H : max_version (listed_versions (BUCKET_2 env) (gcs w)) = 0)
    by (vm_compute; reflexivity).
  destruct (consumer_run_facts.no_versions_no_run no_faults env w (or_intror H))
    as (Hev & Hruns & _).
  split; [exact H|]. split; [exact Hev|]. split; [exact Hruns|].
  vm_compute. reflexivity.
Defined.

Lemma completed_best_run_sets_watermark_witness :
  let w := two_versions (1 # 4) in
  let r := train.main no_faults env w in
  result r = inr train.TrainingCompleted ∧
  train.best_run (runs (world r)) = hd_error (runs (world r)) ∧
  watermark w = 1 ∧
  watermark (world r) = max_version (listed_versions (BUCKET_2 env) (gcs w)) ∧
  max_version (listed_versions (BUCKET_2 env) (gcs w)) = 2.
Proof.
  intros w r.
  assert (H1 : result r = inr train.TrainingCompleted) by (vm_compute; reflexivity).
  assert (H2 : train.best_run (runs (world r)) = hd_error (runs (world r)))
    by (vm_compute; reflexivity).
  split; [exact H1|]. split; [exact H2|]. split; [vm_compute; reflexivity|].
  split; [|vm_compute; reflexivity].
  exact (consumer_run_facts.completed_best_run_sets_watermark no_faults env w H1 H2).
Defined.

Lemma consumer_trains_on_the_pending_range_witness :
  let w := two_versions (1 # 4) in
  let model := {| fit_X := [[VNum 1]]; fit_y := [VNum 100] |} in
  train.get_best_model_and_version no_faults w = ([], w, inr (Some model, 1, Some 1)) ∧
  max_version (listed_versions (BUCKET_2 env) (gcs w)) = 2 ∧
  events (train.main no_faults env w)
  = [WarnExpected53 2; TrainCall (Some model) [[VNum 3]] [VNum 300]].
Proof.
  intros w model.
  assert (Hbest : train.get_best_model_and_version no_faults w
                  = ([], w, inr (Some model, 1, Some 1))) by (vm_compute; reflexivity).
  assert (HL : max_version (listed_versions (BUCKET_2 env) (gcs w)) = 2)
    by (vm_compute; reflexivity).
  split; [exact Hbest|]. split; [exact HL|].
  rewrite (consumer_run_facts.consumer_trains_on_the_pending_range no_faults env w
             (Some model) 1 (Some 1) eq_refl (fun _ => eq_refl) eq_refl eq_refl eq_refl
             (fun _ => eq_refl) Hbest).
  - vm_compute. reflexivity.
  - rewrite HL. lia.
  - vm_compute. discriminate.
  - vm_compute. reflexivity.
  - vm_compute. reflexivity.
Defined.

Lemma transform_output_has_53_columns_witness :
  let df := from_records [complete] in
  has_column "price" df = true ∧
  ∃ out, preprocess_data env df = inr out ∧ width out = 53 ∧ len out = 1 ∧
         column "price" out = [VNum 5].
Proof.
  intros df.
  assert (Hprice : has_column "price" df = true) by (vm_compute; reflexivity).
  assert (Hall : ∀ c, c ∈ NUMERICAL_COLS ++ CATEGORICAL_COLS → has_column c df = true).
  { intros c Hc. cbn in Hc.
    repeat (apply elem_of_cons in Hc as [->|Hc]; [vm_compute; reflexivity|]).
    inversion Hc. }
  destruct (shape_facts.transform_output_has_53_columns env df Hprice Hall)
    as (out & Hout & _ & Hwidth & Hlen & _ & Hcol).
  split; [exact Hprice|]. exists out. split; [exact Hout|]. split; [exact Hwidth|].
  split; [exact Hlen|]. exact Hcol.
Defined.

Lemma producer_conserves_rows_witness :
  let w := buffer_and_documents in
  ∃ final_train_df final_valid_df,
    merged_parts no_faults env w = Some (final_train_df, final_valid_df) ∧
    len final_train_df + len final_valid_df = 5.
Proof.
  intros w.
  destruct (merged_parts no_faults env w) as [[final_train_df final_valid_df]|] eqn:Hparts;
    [|vm_compute in Hparts; discriminate Hparts].
  exists final_train_df, final_valid_df. split; [reflexivity|].
  assert (Hinputs : result (read_inputs no_faults env w)
                    = inr (frame 1, DataFrame_, DataFrame_,
                           from_records [priced; priced; priced; priced]))
    by (vm_compute; reflexivity).
  rewrite (conservation_facts.producer_conserves_rows no_faults env w _ _ _ _
             final_train_df final_valid_df (fun _ => eq_refl) Hinputs).
  - vm_compute. reflexivity.
  - intros H. discriminate H.
  - intros _. reflexivity.
  - intros _. reflexivity.
  - intros H. vm_compute in H. discriminate H.
  - exact Hparts.
Defined.

Lemma published_version_is_what_the_consumer_reads_witness :
  let w := buffer_and_documents in
  ∃ final_train_df final_valid_df,
    merged_parts no_faults env w = Some (final_train_df, final_valid_df) ∧
    result (main no_faults env w) = inr (CreatedVersion 1) ∧
    train.get_latest_version_from_gcs no_faults (BUCKET_2 env) (world (main no_faults env w))
      = ([], world (main no_faults env w), inr 1) ∧
    readable no_faults (BUCKET_2 env) (gcs (world (main no_faults env w))) 1
      = Some (final_train_df, final_valid_df).
Proof.
  intros w.
  assert (Hcalls : store_calls_succeed no_faults env) by (intros blob; repeat split).
  destruct (merged_parts no_faults env w) as [[final_train_df final_valid_df]|] eqn:Hparts;
    [|vm_compute in Hparts; discriminate Hparts].
  exists final_train_df, final_valid_df. split; [reflexivity|].
  assert (Hge : BATCH_SIZE env ≤ len final_train_df).
  { vm_compute in Hparts. injection Hparts as <- _. vm_compute. lia. }
  assert (Hlatest : max_version (listed_versions (BUCKET_2 env) (gcs w)) + 1 = 1)
    by (vm_compute; reflexivity).
  pose proof (pipeline_facts.published_version_is_what_the_consumer_reads no_faults no_faults
                env w final_train_df final_valid_df Hcalls Hparts Hge Hcalls) as H.
  cbn zeta in H. rewrite Hlatest in H. exact H.
Defined.

End more_witnesses.

Module service_witnesses.
Import pd pd_records examples more_examples.

Lemma serving_features_match_the_training_row_witness :
  let data := sixteen_fields in
  (∀ c, c ∈ mlapp.NUMERICAL_COLS ++ mlapp.CATEGORICAL_COLS → is_Some (get data c)) ∧
  cronjob.preprocess_data env (from_records [mlapp.dict_set "price" (VNum 5) data])
  = inr {| columns := cronjob.NUMERICAL_COLS
                      ++ flat_map cronjob.hash_columns cronjob.CATEGORICAL_COLS ++ ["price"];
           rows := [mlapp.preprocess_data_for_prediction env data ++ [VNum 5]] |}.
Proof.
  intros data.
  assert (Hall : ∀ c, c ∈ mlapp.NUMERICAL_COLS ++ mlapp.CATEGORICAL_COLS →
                      is_Some (get data c)).
  { intros c Hc. cbn in Hc.
    repeat (apply elem_of_cons in Hc as [->|Hc]; [by eexists|]). inversion Hc. }
  assert (Hcat : ∀ c v, c ∈ mlapp.CATEGORICAL_COLS → get data c = Some v → isna v = false).
  { intros c v Hc. cbn in Hc.
    repeat (apply elem_of_cons in Hc as [->|Hc]; [by intros [= <-]|]). inversion Hc. }
  split; [exact Hall|].
  exact (serving_facts.serving_features_match_the_training_row env data (VNum 5) Hall Hcat).
Defined.

Lemma predict_rejects_a_request_without_a_required_field_witness :
  let data := [("bedrooms", VNum 3); ("city", VStr "Seattle")] in
  let answer := (mlapp.predict lib env (fun _ => false)
                   no_model no_metrics (mlapp.Object data)).2 in
  "street" ∈ mlapp.NUMERICAL_COLS ++ mlapp.CATEGORICAL_COLS ∧
  get data "street" = None ∧
  ∃ missing_fields,
    answer = (400, mlapp.MissingRequiredFields missing_fields) ∧ "street" ∈ missing_fields ∧
    length missing_fields = 14.
Proof.
  intros data answer.
  assert (H1 : "street" ∈ mlapp.NUMERICAL_COLS ++ mlapp.CATEGORICAL_COLS) by compute_done.
  assert (H2 : get data "street" = None) by reflexivity.
  split; [exact H1|]. split; [exact H2|].
  destruct (predict_facts.predict_rejects_a_request_without_a_required_field
              lib env (fun _ => false) no_model
              no_metrics data "street" H1 H2) as (_ & Hmissing).
  destruct Hmissing as (missing_fields & Hr & Hin & Heq); [discriminate|].
  exists missing_fields. split; [exact Hr|]. split; [exact Hin|].
  rewrite Heq. reflexivity.
Defined.

Lemma predict_answers_with_the_price_witness :
  let data := sixteen_fields in
  (∀ field, field ∈ mlapp.NUMERICAL_COLS ++ mlapp.CATEGORICAL_COLS → is_Some (get data field)) ∧
  (mlapp.predict lib env (fun _ => false) no_model no_metrics (mlapp.Object data)).2
  = (200, mlapp.Result (mlapp.max_0 50000)).
Proof.
  intros data.
  assert (Hall : ∀ c, c ∈ mlapp.NUMERICAL_COLS ++ mlapp.CATEGORICAL_COLS →
                      is_Some (get data c)).
  { intros c Hc. cbn in Hc.
    repeat (apply elem_of_cons in Hc as [->|Hc]; [by eexists|]). inversion Hc. }
  split; [exact Hall|].
  exact (predict_facts.predict_answers_with_the_price lib env (fun _ => false) no_model
           no_metrics data Hall (or_introl eq_refl)).
Defined.

Lemma stored_record_is_retrieved_witness :
  let record := correction 5 in
  let request := dbapp.Request (dbapp.JString "collection_1") (dbapp.JObject record) in
  let s' := (dbapp.store_data config (fun _ => false) empty_database request).1 in
  (dbapp.store_data config (fun _ => false) empty_database request).2.1 = 201 ∧
  (dbapp.retrieve_data config (fun _ => false) s' "collection_1").2
  = (200, dbapp.Retrieved "collection_1" 1 [mongo.stored_fields record]).
Proof.
  intros record request s'.
  assert (H201 : (dbapp.store_data config (fun _ => false) empty_database request).2.1 = 201)
    by (vm_compute; reflexivity).
  split; [exact H201|].
  exact (dbapp_facts.stored_record_is_retrieved config (fun _ => false) (fun _ => false)
           empty_database "collection_1" record (or_introl eq_refl) H201 eq_refl).
Defined.

(** The filter of the concrete runs is an equality filter. *)
Lemma fields_equal_is_an_equality_filter : mongo.equality_filter config.
Proof.
  intros query d Hfields. cbn [dbapp.matches config]. unfold mongo.fields_equal.
  apply forallb_forall. intros k Hk.
  destruct (get query k) as [v|] eqn:Hget; [|done].
  rewrite (Hfields k v Hget). destruct v as [x|s| |]; cbn; try done.
  - apply Qeq_bool_iff. reflexivity.
  - apply String.eqb_refl.
Defined.

Lemma correction_is_stored_once_witness :
  let first := dbapp.Request (dbapp.JString "collection_2") (dbapp.JObject (correction 5)) in
  let second := dbapp.Request (dbapp.JString "collection_2") (dbapp.JObject (correction 7)) in
  let s1 := (dbapp.store_data config (fun _ => false) empty_database first).1 in
  (dbapp.store_data config (fun _ => false) empty_database first).2.1 = 201 ∧
  dbapp.store_data config (fun _ => false) s1 second
  = (dbapp.count_store s1, (200, dbapp.AlreadyExists)).
Proof.
  intros first second s1.
  assert (H201 : (dbapp.store_data config (fun _ => false) empty_database first).2.1 = 201)
    by (vm_compute; reflexivity).
  split; [exact H201|].
  refine (dbapp_facts.correction_is_stored_once config (fun _ => false) (fun _ => false)
            empty_database (correction 5) (correction 7)
            fields_equal_is_an_equality_filter H201 eq_refl _ eq_refl).
  discriminate.
Defined.

End service_witnesses.

Module webapp_witnesses.
Import pd pd_records webapp deployment deployed.

Lemma prediction_is_answered_and_stored_witness :
  let data := prediction_data in
  let r := predict web_lib (services deployment) start no_requests prediction_form in
  read_form web_lib prediction_form FORM_FIELDS = Some data ∧
  r.2 = result_html (mlapp.max_0 50000) data ∧
  (dbapp.retrieve_data more_examples.config (fun _ => false) r.1.1.2 "collection_1").2
  = (200, dbapp.Retrieved "collection_1" 1
            [mongo.stored_fields (data ++ [("price", VNum (mlapp.max_0 50000))])]).
Proof.
  intros data r.
  assert (Hread : read_form web_lib prediction_form FORM_FIELDS = Some data) by reflexivity.
  destruct (webapp_facts.prediction_is_answered_and_stored web_lib deployment start
              no_requests prediction_form data Hread (or_introl eq_refl) eq_refl eq_refl)
    as (Hpage & _ & _ & Hstored).
  split; [exact Hread|]. split; [exact Hpage|exact Hstored].
Defined.

Lemma failed_prediction_stores_nothing_witness :
  let r := predict web_lib (services deployment) start no_requests [] in
  r.2 = error_html ∧ r.1.1.2 = start.2 ∧ ERROR_COUNT r.1.2 = 1.
Proof.
  intros r.
  assert (Hpage : r.2 = error_html) by reflexivity.
  destruct (webapp_facts.failed_prediction_stores_nothing web_lib deployment start
              no_requests [] Hpage) as (Hdb & Herr & _).
  split; [exact Hpage|]. split; [exact Hdb|exact Herr].
Defined.

Lemma second_correction_is_not_stored_witness :
  let r1 := correct_prediction web_lib (services deployment) start no_requests
              (correction_form "5") in
  let r2 := correct_prediction web_lib (services deployment) r1.1.1 r1.1.2
              (correction_form "7") in
  r1.2 = correction_success_html 2 ∧ r2.2 = correction_success_html 2 ∧
  dbapp.collections r2.1.1.2 = dbapp.collections r1.1.1.2 ∧
  dbapp.DOCUMENTS_INSERTED r2.1.1.2 = 1.
Proof.
  intros r1 r2.
  assert (H201 : (dbapp.store_data (db_config deployment) (db_raises deployment) start.2
                    (dbapp.Request (dbapp.JString "collection_2")
                       (dbapp.JObject (mlapp.dict_set "price" (VNum 2)
                          [("bedrooms", VNum 3); ("city", VStr "Seattle")])))).2.1 = 201)
    by (vm_compute; reflexivity).
  destruct (webapp_facts.second_correction_is_not_stored web_lib deployment start no_requests
              (correction_form "5") (correction_form "7")
              [("bedrooms", VNum 3); ("city", VStr "Seattle")] 2
              [("bedrooms", VNum 3); ("city", VStr "Seattle")] 2
              service_witnesses.fields_equal_is_an_equality_filter eq_refl eq_refl eq_refl
              eq_refl H201) as (H1 & H2 & Hc & Hn).
  split; [exact H1|]. split; [exact H2|]. split; [exact Hc|].
  fold r1 r2 in Hn. rewrite Hn. vm_compute. reflexivity.
Defined.

Lemma prediction_is_answered_when_the_store_fails_witness :
  let data := prediction_data in
  let r := predict web_lib (services database_down) start no_requests prediction_form in
  read_form web_lib prediction_form FORM_FIELDS = Some data ∧
  r.2 = result_html (mlapp.max_0 50000) data ∧
  ERROR_COUNT r.1.2 = 0 ∧
  dbapp.ERROR_COUNT r.1.1.2 = 1.
Proof.
  intros data r.
  assert (Hread : read_form web_lib prediction_form FORM_FIELDS = Some data) by reflexivity.
  split; [exact Hread|].
  destruct (webapp_facts.prediction_is_answered_when_the_store_fails web_lib database_down
              start no_requests prediction_form data Hread (or_introl eq_refl) eq_refl)
    as (Hpage & Herr & _ & _ & Hdb).
  split; [exact Hpage|]. split; [exact Herr|exact Hdb].
Defined.

Lemma stored_prediction_is_shown_witness :
  let data := prediction_data in
  let r := predict web_lib (services deployment) start no_requests prediction_form in
  read_form web_lib prediction_form FORM_FIELDS = Some data ∧
  (show_predictions (services deployment) r.1.1 r.1.2).2
  = show_predictions_html [data ++ [("price", VNum (mlapp.max_0 50000))]] [].
Proof.
  intros data r.
  assert (Hread : read_form web_lib prediction_form FORM_FIELDS = Some data) by reflexivity.
  split; [exact Hread|].
  destruct (webapp_facts.stored_prediction_is_shown web_lib deployment start
              no_requests prediction_form data Hread (or_introl eq_refl) eq_refl eq_refl)
    as (Hpage & _ & _).
  fold r in Hpage. rewrite Hpage. reflexivity.
Defined.

Lemma show_predictions_hides_a_failed_find_witness :
  let r := show_predictions (services database_down) start no_requests in
  r.2 = show_predictions_html [] [] ∧ r.1.2 = no_requests ∧
  dbapp.ERROR_COUNT r.1.1.2 = 2.
Proof.
  intros r.
  destruct (webapp_facts.show_predictions_hides_a_failed_find database_down start
              no_requests eq_refl) as (Hpage & Hm & _ & Herr).
  split; [exact Hpage|]. split; [exact Hm|exact Herr].
Defined.

End webapp_witnesses.
